(** * ZenottaJS Helix bridge: embedding of the Bitcoin builder and the trade
    state machine, with the properties checked against them.

    Sources embedded: the latest revision of the bridge,
    [HelixBridge] (protobridge) and [HelixBridgeBTC] (bitcoin).

    Conventions of the embedding.
    - JavaScript numbers that hold satoshi amounts, block heights and
      millisecond timestamps are integers ([Z]). Numbers that may be
      fractional (days, hours, BTC amounts quoted by the UTXO service) are
      binary64 values, written as the rationals ([Q]) they denote; every
      operation on them rounds its exact result to the nearest double,
      ties to even ([toDouble]), and a rational that is not itself a
      double stands for the double nearest to it, as a literal or a parsed
      decimal string does. [NaN], the infinities and magnitudes beyond the
      largest double are outside the embedding.
    - [T | Error] return values are [Result T]; an exception escaping a
      function (a rejected promise for an [async] method) is [Throws].
    - Network replies (axios) are inputs of the operation that awaits them.
    - Objects that JavaScript compares by identity carry a heap reference. *)

From Stdlib Require Import ZArith QArith Qround Qpower String Ascii List.
From Stdlib Require Import Lia Lqa.
From Stdlib Require Import PrimFloat SpecFloat FloatOps.
From stdpp Require Import gmap strings.

Open Scope string_scope.
Open Scope Z_scope.

(* ====================================================================== *)
(** * JavaScript runtime notions used by the bridge *)
(* ====================================================================== *)

Module Js.

Inductive ErrorKind : Type := PlainError | TypeError.

(** [new Error(message)] and the engine's own [TypeError]. *)
Record Error : Type := mkError { kind : ErrorKind; message : string }.

Definition newError (msg : string) : Error := mkError PlainError msg.

(** Message of the [TypeError] of [Object.assign(undefined, ...)]. *)
Definition assignUndefinedMessage : string :=
  "Cannot convert undefined or null to object".

(** Message of the [TypeError] of a property read on [undefined]. *)
Definition readUndefinedMessage : string :=
  "Cannot read properties of undefined".

(** [T | Error], the value an operation hands back to its caller. *)
Inductive Result (T : Type) : Type :=
| Value (t : T)
| Failure (e : Error).
Arguments Value {T} t.
Arguments Failure {T} e.

(** How the evaluation of a function ends. *)
Inductive Completion (A : Type) : Type :=
| Returns (a : A)
| Throws (e : Error).
Arguments Returns {A} a.
Arguments Throws {A} e.

(** What an awaited axios request settles to: the response, or the
    rejection, of which the handlers only keep the message text. *)
Inductive Reply (T : Type) : Type :=
| Resolved (t : T)
| Rejected (msg : string).
Arguments Resolved {T} t.
Arguments Rejected {T} msg.

(** A typed array: the object identity and the bytes it holds. *)
Record Uint8Array : Type := mkArray { ref : nat; bytes : list Byte.byte }.

(** [a != b] on two objects compares their identities. *)
Definition objectsDiffer (a b : Uint8Array) : bool :=
  negb (Nat.eqb (ref a) (ref b)).

(** Value of one hexadecimal digit. *)
Definition hexDigit (c : ascii) : option N :=
  let n := N_of_ascii c in
  if ((48 <=? n) && (n <=? 57))%N then Some (n - 48)%N
  else if ((97 <=? n) && (n <=? 102))%N then Some (n - 87)%N
  else if ((65 <=? n) && (n <=? 70))%N then Some (n - 55)%N
  else None.

(** [Buffer.from(s, 'hex')]: pairs of digits are decoded until the first
    pair that is not hexadecimal; a trailing single digit is dropped. *)
Fixpoint hexDecode (s : string) : list Byte.byte :=
  match s with
  | String a (String b rest) =>
      match hexDigit a, hexDigit b with
      | Some h, Some l =>
          match Byte.of_N (16 * h + l) with
          | Some x => x :: hexDecode rest
          | None => []
          end
      | _, _ => []
      end
  | _ => []
  end.

Definition hexChar (n : N) : ascii :=
  if (n <? 10)%N then ascii_of_N (48 + n) else ascii_of_N (87 + n).

(** [buffer.toString('hex')]. *)
Fixpoint hexEncode (l : list Byte.byte) : string :=
  match l with
  | [] => EmptyString
  | x :: rest =>
      let n := Byte.to_N x in
      String (hexChar (n / 16)) (String (hexChar (n mod 16)) (hexEncode rest))
  end.

(** [s.indexOf(t) != -1] *)
Definition includes (s t : string) : bool :=
  match String.index 0 t s with
  | Some _ => true
  | None => false
  end.

(** ** Numbers (IEEE 754 binary64) *)

(** The integer nearest to [x], the even one of two that are equally
    near. *)
Definition roundHalfEven (x : Q) : Z :=
  let f := Qfloor x in
  match (x - inject_Z f ?= 1 # 2)%Q with
  | Lt => f
  | Gt => f + 1
  | Eq => if Z.even f then f else f + 1
  end.

(** The binary exponent [k] of a positive [a]: [2^k <= a < 2^(k+1)]. *)
Definition floorLog2 (a : Q) : Z :=
  let k := Z.log2 (Qnum a) - Z.log2 (Zpos (Qden a)) in
  if Qle_bool (2 ^ k) a then k else k - 1.

(** The exponent of the last place of the doubles around a positive [a]:
    53 significant bits, and [2^-1074] for the subnormal numbers. *)
Definition exponentOf (a : Q) : Z := Z.max (floorLog2 a - 52) (-1074).

Definition roundPositive (a : Q) : Q :=
  (inject_Z (roundHalfEven (a / 2 ^ exponentOf a)) * 2 ^ exponentOf a)%Q.

Definition roundSigned (q : Q) : Q :=
  match Qnum q with
  | Z0 => 0%Q
  | Zpos _ => roundPositive q
  | Zneg _ => (- roundPositive (- q))%Q
  end.

(** The double nearest to [q], as a fraction in lowest terms. It is what a
    numeric literal and [Number(string)] give for the decimal [q], and the
    rounding that ends every arithmetic operation. *)
Definition toDouble (q : Q) : Q := Qred (roundSigned (Qred q)).

(** [x * y] and [x / y] on numbers. *)
Definition fmul (x y : Q) : Q := toDouble (x * y).
Definition fdiv (x y : Q) : Q := toDouble (x / y).

#[global] Arguments toDouble : simpl never.
#[global] Arguments fmul : simpl never.
#[global] Arguments fdiv : simpl never.

(** The rational that a finite binary64 value of the kernel denotes. *)
Definition ofFloat (f : float) : option Q :=
  match Prim2SF f with
  | S754_zero _ => Some 0%Q
  | S754_finite s m e =>
      Some (Qred ((if s then -1 else 1) * inject_Z (Zpos m) * 2 ^ e)%Q)
  | _ => None
  end.

End Js.

Import Js.

(* ====================================================================== *)
(** * Bitcoin transaction builder (HelixBridgeBTC, construction side) *)
(* ====================================================================== *)

(** The constants module of the bridge is configuration supplied with the
    build; the builder is read for any value of them. *)
Class Constants : Type := {
  INPUT_SIZE : Z;
  OUTPUT_SIZE : Z;
  SATOSHI_PER_BYTE_PAYMENT : Z;
  BTC_BLOCKTIME_SECS : Z
}.

(** Key derivation of bitcore-lib, used through its interface only. *)
Class Bitcore : Type := {
  PrivateKey : Type;
  (** [new Address(PublicKey.fromPrivateKey(k)).toString()] *)
  addressOfPrivateKey : PrivateKey -> string
}.

Module Bitcoin.

(** What is handed to [new Script(..)] and [.add(..)]: a string (an opcode
    name or an address) or a number. *)
Inductive ScriptArg : Type :=
| ArgStr (s : string)
| ArgNum (n : Z).

(** A script as the sequence of items it was built from. *)
Definition Script : Type := list ScriptArg.

Definition newScript (s : string) : Script := [ArgStr s].
Definition add (sc : Script) (s : string) : Script := (sc ++ [ArgStr s])%list.
Definition addNumber (sc : Script) (n : Z) : Script := (sc ++ [ArgNum n])%list.

Record ITxStage1ScriptInput : Type := {
  theirAddress : string;
  ourReturnAddress : string;
  zenottasAddress : string;
  daysToLock : Q;
  startBlockHeight : Z
}.

(** Two script inputs denote the same JavaScript values: equal strings,
    equal block height, and the same number of days. *)
Definition sameScriptInputs (i j : ITxStage1ScriptInput) : Prop :=
  theirAddress i = theirAddress j
  /\ zenottasAddress i = zenottasAddress j
  /\ ourReturnAddress i = ourReturnAddress j
  /\ (daysToLock i == daysToLock j)%Q
  /\ startBlockHeight i = startBlockHeight j.

Record IBtcExpectations : Type := {
  exp_ourAddress : string;
  exp_zenottasAddress : string;
  exp_amount : Z
}.

(** One entry of the UTXO service's reply; [value] is the decimal that the
    entry writes, which [Number(element.value)] reads as a double. *)
Record SoChainTx : Type := {
  value : Q;
  script_hex : string;
  txid : string;
  output_no : Z
}.

Record SoChainData : Type := { data_address : string; txs : list SoChainTx }.

Record Utxo : Type := {
  utxo_address : string;
  satoshis : Z;
  utxo_script : string;
  txId : string;
  outputIndex : Z
}.

Record IFetchBtcUtxoResponse : Type := {
  inputs : list Utxo;
  totalAmountAvailable : Z
}.

(** The builder calls made on a fresh bitcore [Transaction]:
    [from], [to], [fee], [change], [sign], and the later
    [outputs[0].setScript] and [applySignature]. *)
Record TxBuild `{Bitcore} : Type := {
  tx_from : list Utxo;
  tx_to : string * Z;
  tx_fee : Z;
  tx_change : string;
  tx_signedWith : PrivateKey;
  tx_output0Script : option Script;
  tx_appliedSignature : option string
}.

Section Builder.
Context `{Constants} `{Bitcore}.

(** [(lockTime * BTC_BLOCKTIME_SECS) / 60 / 60 / 24] *)
Definition getLockTimeInDays (lockTime : Z) : Q :=
  fdiv (fdiv (fdiv (fmul (toDouble (inject_Z lockTime))
                      (toDouble (inject_Z BTC_BLOCKTIME_SECS))) 60) 60) 24.

(** [Math.floor((days * 24 * 60 * 60) / BTC_BLOCKTIME_SECS)
    + startBlockHeight], for a block time that is not zero. *)
Definition getLockTimeFromDays (days : Q) (startBlockHeight : Z) : Z :=
  Qfloor (fdiv (fmul (fmul (fmul (toDouble days) 24) 60) 60)
            (toDouble (inject_Z BTC_BLOCKTIME_SECS)))
  + startBlockHeight.

Definition calculateFee
    (satoshisPerByte inputCount satoshisToSend totalAmountAvailable : Z)
    : option Z :=
  let txSize := inputCount * INPUT_SIZE + OUTPUT_SIZE + 10 - inputCount in
  let satoshiFee := satoshisPerByte * txSize in
  if totalAmountAvailable - satoshisToSend - satoshiFee <? 0 then None
  else Some satoshiFee.

Definition constructTxStage1Script (i : ITxStage1ScriptInput) : Script :=
  let locktime := getLockTimeFromDays (daysToLock i) (startBlockHeight i) in
  add (add (add (add (add (add (add (add
    (addNumber
      (add (add (add (add (add (add (add (newScript "OP_IF")
        "OP_0")
        "OP_2")
        (theirAddress i))
        (zenottasAddress i))
        "OP_2")
        "OP_CHECKMULTISIG")
        "OP_ELSE")
      locktime)
    "OP_CHECKLOCKTIMEVERIFY")
    "OP_DROP")
    "OP_DUP")
    "OP_HASH160")
    (ourReturnAddress i))
    "OP_EQUALVERIFY")
    "OP_CHECKSIG")
    "OP_ENDIF".

(** The [then] handler of [fetchInputsFromUtxo]: one pass over [txs] that
    pushes a UTXO and adds its satoshis to the running total. *)
Definition collectUtxo (address : string)
    (acc : IFetchBtcUtxoResponse) (element : SoChainTx)
    : IFetchBtcUtxoResponse :=
  let utxo := {| utxo_address := address;
                 satoshis :=
                   Qfloor (fmul (toDouble (value element)) 100000000);
                 utxo_script := script_hex element;
                 txId := txid element;
                 outputIndex := output_no element |} in
  {| inputs := (inputs acc ++ [utxo])%list;
     totalAmountAvailable := totalAmountAvailable acc + satoshis utxo |}.

Definition fetchInputsFromUtxo (reply : Reply SoChainData)
    : Result IFetchBtcUtxoResponse :=
  match reply with
  | Resolved d =>
      Value (fold_left (collectUtxo (data_address d)) (txs d)
               {| inputs := []; totalAmountAvailable := 0 |})
  | Rejected msg => Failure (newError msg)
  end.

(** [!fee] for [fee : number | null]: [null] and [0] are both falsy. *)
Definition feeIsFalsy (fee : option Z) : bool :=
  match fee with
  | None => true
  | Some f => f =? 0
  end.

Definition constructTransaction (reply : Reply SoChainData)
    (ourPrivateKey : PrivateKey) (theirAddress : string) (amount : Z)
    : Result TxBuild :=
  let ourAddress := addressOfPrivateKey ourPrivateKey in
  match fetchInputsFromUtxo reply with
  | Failure e => Failure e
  | Value utxoFetchResult =>
      if (length (inputs utxoFetchResult) =? 0)%nat
      then Failure (newError "No UTXO entries found")
      else
        let fee := calculateFee SATOSHI_PER_BYTE_PAYMENT
                     (Z.of_nat (length (inputs utxoFetchResult)))
                     amount (totalAmountAvailable utxoFetchResult) in
        if feeIsFalsy fee then Failure (newError "Not enough funds")
        else
          Value {| tx_from := inputs utxoFetchResult;
                   tx_to := (theirAddress, amount);
                   tx_fee := match fee with
                             | Some f => if f =? 0 then 0 else f * 20
                             | None => 0
                             end;
                   tx_change := ourAddress;
                   tx_signedWith := ourPrivateKey;
                   tx_output0Script := None;
                   tx_appliedSignature := None |}
  end.



End Builder.

End Bitcoin.

Import Bitcoin.

(* ====================================================================== *)
(** * Trade state machine (HelixBridge, extended by HelixBridgeBTC) *)
(* ====================================================================== *)

(** What the bridge uses from outside the repository: the wall clock read by
    [new Date()], the signature primitives (mgmt, tweetnacl) and the script
    functions of bitcore-lib. *)
Class External : Type := {
  (** [getTime()] of the n-th [Date] the program constructs *)
  clock : nat -> Z;
  (** [createSignature(secretKey, message)] *)
  createSignature : list Byte.byte -> list Byte.byte -> list Byte.byte;
  (** [nacl.sign.detached.verify(message, signature, publicKey)], which
      throws on arguments of the wrong size *)
  naclVerify :
    list Byte.byte -> list Byte.byte -> list Byte.byte -> Completion bool;
  (** [script.toString()] *)
  scriptToString : Script -> string;
  (** [Script.Interpreter().verify(inputScript, outputScript)] *)
  interpreterVerify : Script -> Script -> bool
}.

Module HelixBridge.

Record IKeypair : Type := {
  address : string;
  secretKey : Uint8Array;
  publicKey : Uint8Array;
  version : option Z
}.

(** [status] is a stage number or [null] (failure); [lastEvent] is the
    [Date] as milliseconds. *)
Record ITradeProgress : Type := {
  status : option Z;
  lastEvent : Z;
  ourAddress : string;
  reasonForFailure : option string
}.

Record IFreshTest : Type := {
  ft_publicKey : string;
  ft_message : string;
  ft_signature : option string
}.

(** A transaction as read back from the mailbox: the fields the bridge
    inspects. A script may be missing ([null]). *)
Record Input : Type := { in_script : option Script }.
Record Output : Type := { out_script : option Script; out_satoshis : Z }.
Record Transaction : Type := {
  tx_inputs : list Input;
  tx_outputs : list Output
}.

Inductive Content : Type :=
| EmptyContent
| PublicKeyContent (publicKey : string)
| TransactionContent (transaction : Transaction).

Record IClientResponse : Type := {
  response_status : string;
  response_reason : string;
  response_content : Content
}.

Record IGetMempoolKeyResponse : Type := { public_key : string }.

Record INetworkResponse : Type := {
  net_content : option IGetMempoolKeyResponse;
  net_reason : string
}.

(** The fields of the bridge instance (base class and BTC extension). *)
Record Bridge : Type := {
  chain : string;
  mempoolKey : option string;
  freshTestResponseTimeout : Q;
  progress : gmap string ITradeProgress;
  bitcoinEndpoint : string;
  netenv : string;
  txStage2 : option Transaction
}.

(** The running program: the bridge instance, the next free object
    reference, and how many [Date]s were constructed so far. *)
Record Runtime : Type := {
  this : Bridge;
  nextRef : nat;
  dateCount : nat
}.

(** [new HelixBridgeBTC(bitcoinEndpoint, netenv, freshTestResponseTimeout = 12)] *)
Definition newHelixBridgeBTC (endpoint env : string) (timeout : option Q)
    : Bridge :=
  {| chain := "BTC";
     mempoolKey := None;
     freshTestResponseTimeout :=
       match timeout with Some t => t | None => 12%Q end;
     progress := ∅;
     bitcoinEndpoint := endpoint;
     netenv := env;
     txStage2 := None |}.

(** ** Computations over the runtime *)

Definition M (A : Type) : Type := Runtime -> Completion A * Runtime.

Definition ret {A : Type} (a : A) : M A := fun rt => (Returns a, rt).

Definition throw {A : Type} (e : Error) : M A := fun rt => (Throws e, rt).

Definition bind {A B : Type} (m : M A) (k : A -> M B) : M B :=
  fun rt =>
    match m rt with
    | (Returns a, rt') => k a rt'
    | (Throws e, rt') => (Throws e, rt')
    end.

Notation "'let!' x ':=' m 'in' k" := (bind m (fun x => k))
  (at level 10, x name, m at level 100, k at level 200).

Definition lift {A : Type} (c : Completion A) : M A := fun rt => (c, rt).

(** [request.then(onResolved).catch(onRejected)]: the [catch] handler also
    receives what the [then] handler throws. *)
Definition thenCatch {T A : Type} (reply : Reply T)
    (onResolved : T -> M A) (onRejected : string -> M A) : M A :=
  match reply with
  | Rejected msg => onRejected msg
  | Resolved t =>
      fun rt =>
        match onResolved t rt with
        | (Returns a, rt') => (Returns a, rt')
        | (Throws e, rt') => onRejected (message e) rt'
        end
  end.

Definition getProgress (addr : string) : M (option ITradeProgress) :=
  fun rt => (Returns (progress (this rt) !! addr), rt).

Definition withProgress (f : gmap string ITradeProgress ->
                             gmap string ITradeProgress) (b : Bridge)
    : Bridge :=
  {| chain := chain b;
     mempoolKey := mempoolKey b;
     freshTestResponseTimeout := freshTestResponseTimeout b;
     progress := f (progress b);
     bitcoinEndpoint := bitcoinEndpoint b;
     netenv := netenv b;
     txStage2 := txStage2 b |}.

Definition withMempoolKey (k : string) (b : Bridge) : Bridge :=
  {| chain := chain b;
     mempoolKey := Some k;
     freshTestResponseTimeout := freshTestResponseTimeout b;
     progress := progress b;
     bitcoinEndpoint := bitcoinEndpoint b;
     netenv := netenv b;
     txStage2 := txStage2 b |}.

Definition withTxStage2 (t : Transaction) (b : Bridge) : Bridge :=
  {| chain := chain b;
     mempoolKey := mempoolKey b;
     freshTestResponseTimeout := freshTestResponseTimeout b;
     progress := progress b;
     bitcoinEndpoint := bitcoinEndpoint b;
     netenv := netenv b;
     txStage2 := Some t |}.

Definition modifyThis (f : Bridge -> Bridge) : M unit :=
  fun rt =>
    (Returns tt,
     {| this := f (this rt); nextRef := nextRef rt;
        dateCount := dateCount rt |}).

(** [this.progress[addr] = r] *)
Definition setProgress (addr : string) (r : ITradeProgress) : M unit :=
  modifyThis (withProgress (fun p => <[addr := r]> p)).

Definition readThis {A : Type} (f : Bridge -> A) : M A :=
  fun rt => (Returns (f (this rt)), rt).

Section Machine.
Context `{External}.

(** [new Date()] *)
Definition newDate : M Z :=
  fun rt =>
    (Returns (clock (dateCount rt)),
     {| this := this rt; nextRef := nextRef rt;
        dateCount := S (dateCount rt) |}).

(** Allocation of a typed array holding [bs]. *)
Definition allocArray (bs : list Byte.byte) : M Uint8Array :=
  fun rt =>
    (Returns (mkArray (nextRef rt) bs),
     {| this := this rt; nextRef := S (nextRef rt);
        dateCount := dateCount rt |}).

(** [Uint8Array.from(Buffer.from(s, 'hex'))]: the buffer, then its copy. *)
Definition arrayFromHex (s : string) : M Uint8Array :=
  let! buffer := allocArray (hexDecode s) in
  allocArray (bytes buffer).

(** [Object.assign(target, source)] for a target that may be [undefined]. *)
Definition objectAssign (target : option ITradeProgress)
    (source : ITradeProgress -> ITradeProgress) : M ITradeProgress :=
  match target with
  | Some r => ret (source r)
  | None => throw (mkError TypeError assignUndefinedMessage)
  end.

(** The source object [{ status: s, lastEvent: d }]. *)
Definition stageFields (s : Z) (d : Z) (r : ITradeProgress)
    : ITradeProgress :=
  {| status := Some s; lastEvent := d; ourAddress := ourAddress r;
     reasonForFailure := reasonForFailure r |}.

(** The source object [{ status: null, lastEvent: d, reasonForFailure }]. *)
Definition failureFields (reason : string) (d : Z) (r : ITradeProgress)
    : ITradeProgress :=
  {| status := None; lastEvent := d; ourAddress := ourAddress r;
     reasonForFailure := Some reason |}.

(** [this.progress[a] = Object.assign(this.progress[a],
      { status: s, lastEvent: new Date() })] *)
Definition advanceProgress (theirAddress : string) (s : Z) : M unit :=
  let! target := getProgress theirAddress in
  let! d := newDate in
  let! r := objectAssign target (stageFields s d) in
  setProgress theirAddress r.

Definition sign (secretKey : Uint8Array) (msg : string) : M string :=
  let! m := arrayFromHex msg in
  let! signature := allocArray (createSignature (bytes secretKey) (bytes m)) in
  let! buffer := allocArray (bytes signature) in
  ret (hexEncode (bytes buffer)).

Definition verify (signature msg publicKey : string) : M bool :=
  let! sigBuffer := arrayFromHex signature in
  let! messageBuffer := arrayFromHex msg in
  let! pubKeyBuffer := arrayFromHex publicKey in
  lift (naclVerify (bytes messageBuffer) (bytes sigBuffer)
          (bytes pubKeyBuffer)).

(** [ms / 1000 / 60 / 60] *)
Definition formatMillisecondsToHours (ms : Z) : Q :=
  fdiv (fdiv (fdiv (toDouble (inject_Z ms)) 1000) 60) 60.

#[global] Arguments formatMillisecondsToHours : simpl never.

Definition markedErrorInProgress (theirAddress reason : string) : M Error :=
  let! target := getProgress theirAddress in
  let! d := newDate in
  let! r := objectAssign target (failureFields reason d) in
  let! _ := setProgress theirAddress r in
  ret (newError reason).

(** [return this.markedErrorInProgress(a, reason)] *)
Definition failWith {T : Type} (theirAddress reason : string)
    : M (Result T) :=
  let! e := markedErrorInProgress theirAddress reason in
  ret (Failure e).

(** The mailbox content for our address: one entry per sender. An entry
    that is absent and an entry holding a falsy value are both [None]. *)
Definition getIntercomData {V : Type} (reply : Reply (gmap string V))
    : Result (gmap string V) :=
  match reply with
  | Resolved data => Value data
  | Rejected msg => Failure (newError msg)
  end.

Definition success (reason : string) (c : Content) : IClientResponse :=
  {| response_status := "success"; response_reason := reason;
     response_content := c |}.

Definition notImplemented : IClientResponse :=
  {| response_status := "error";
     response_reason :=
       "Not implemented. Please use a network specific bridge (eg. HelixBridgeBTC)";
     response_content := EmptyContent |}.

(** The operations below take, in place of the host or client they send
    requests through, the reply each request settles to. The request bodies
    (built by the mailbox body generators; for a fresh test, from a random
    message) are sent and not used again, so they do not appear. *)

Definition getMempoolSignature
    (reply : Reply (gmap string IClientResponse))
    (zenottasAddress ourAddress : string) (ourKeypair : IKeypair)
    : M (Result IClientResponse) :=
  match getIntercomData reply with
  | Failure e => ret (Failure e)
  | Value intercomData =>
      match intercomData !! zenottasAddress with
      | None =>
          failWith zenottasAddress
            "No signature found from Zenotta third transaction stage"
      | Some signature => ret (Value signature)
      end
  end.

Definition sendFreshTest (post : Reply unit) (theirAddress : string)
    (ourKeypair : IKeypair) : M (Result IClientResponse) :=
  thenCatch post
    (fun _ =>
       let! d := newDate in
       let! _ := setProgress theirAddress
                   {| status := Some 0; lastEvent := d;
                      ourAddress := address ourKeypair;
                      reasonForFailure := None |} in
       ret (Value (success "Fresh test sent" EmptyContent)))
    (fun msg => ret (Failure (newError msg))).

(** [!this.mempoolKey]: [null] and the empty string are falsy. *)
Definition keyIsFalsy (k : option string) : bool :=
  match k with
  | None => true
  | Some s => if string_dec s "" then true else false
  end.

Definition getMempoolKey (reply : Reply INetworkResponse) (force : bool)
    : M (Result IClientResponse) :=
  let! key := readThis mempoolKey in
  if keyIsFalsy key || force then
    thenCatch reply
      (fun responseData =>
         match net_content responseData with
         | Some content =>
             let! _ := modifyThis (withMempoolKey (public_key content)) in
             ret (Value (success "Mempool key retrieved"
                           (PublicKeyContent (public_key content))))
         | None => ret (Failure (newError (net_reason responseData)))
         end)
      (fun msg => ret (Failure (newError msg)))
  else
    ret (Value (success "Existing mempool key retrieved"
                  (PublicKeyContent (match key with Some k => k | None => "" end)))).

Definition signFreshTest (get : Reply (gmap string IFreshTest))
    (post : Reply unit) (ourKeypair : IKeypair) (theirAddress : string)
    : M (Result IClientResponse) :=
  let! record := getProgress theirAddress in
  match record with
  | None => throw (mkError TypeError readUndefinedMessage)
  | Some r =>
      let ourAddress := ourAddress r in
      let! decoded := arrayFromHex ourAddress in
      if objectsDiffer decoded (publicKey ourKeypair) then
        failWith theirAddress "Our address does not match our public key"
      else
        match getIntercomData get with
        | Failure e => ret (Failure e)
        | Value intercomData =>
            match intercomData !! theirAddress with
            | None =>
                ret (Failure (newError "Data not found for trade partner!"))
            | Some freshTest =>
                let! signature :=
                  sign (secretKey ourKeypair) (ft_message freshTest) in
                thenCatch post
                  (fun _ =>
                     let! _ := advanceProgress theirAddress 1 in
                     ret (Value (success "Fresh test sent" EmptyContent)))
                  (fun msg => failWith theirAddress msg)
            end
        end
  end.

(** [if (freshTest.signature)]: [null] and the empty string are falsy. *)
Definition truthySignature (s : option string) : option string :=
  match s with
  | Some sig => if string_dec sig "" then None else Some sig
  | None => None
  end.

Definition getFreshTestResponse (get : Reply (gmap string IFreshTest))
    (ourAddress : string) (ourKeypair : IKeypair) (theirAddress : string)
    : M (Result IClientResponse) :=
  match getIntercomData get with
  | Failure e => ret (Failure e)
  | Value intercomData =>
      match intercomData !! theirAddress with
      | None => ret (Failure (newError "Data not found for trade partner!"))
      | Some freshTest =>
          let! now := newDate in
          let! record := getProgress theirAddress in
          match record with
          | None => throw (mkError TypeError readUndefinedMessage)
          | Some r =>
              let timeDiff := formatMillisecondsToHours (now - lastEvent r) in
              let! timeout := readThis freshTestResponseTimeout in
              if negb (Qle_bool timeDiff (toDouble timeout)) then
                failWith theirAddress "Fresh test response timed out"
              else
                match truthySignature (ft_signature freshTest) with
                | Some signature =>
                    let! valid := verify signature (ft_message freshTest)
                                    (ft_publicKey freshTest) in
                    if valid then
                      let! _ := advanceProgress theirAddress 2 in
                      ret (Value (success
                             "Fresh test signed by other party successfully"
                             EmptyContent))
                    else
                      failWith theirAddress "Signature verification failed"
                | None =>
                    failWith theirAddress "Fresh test signature not found"
                end
          end
      end
  end.

Definition sendTxStage3 : M (Result IClientResponse) :=
  ret (Value notImplemented).

Definition submitTxStage2 : M (Result IClientResponse) :=
  ret (Value notImplemented).

Definition submitTxStage4 : M (Result IClientResponse) :=
  ret (Value notImplemented).

(** ** Operations of HelixBridgeBTC over the mailbox *)

(** [outputs.filter(o => o.script.toString().indexOf(addr) != -1)]; reading
    [toString] of a missing script throws. *)
Fixpoint filterByAddress (addr : string) (outputs : list Output)
    : Completion (list Output) :=
  match outputs with
  | [] => Returns []
  | o :: rest =>
      match out_script o with
      | None => Throws (mkError TypeError readUndefinedMessage)
      | Some sc =>
          match filterByAddress addr rest with
          | Throws e => Throws e
          | Returns kept =>
              Returns (if includes (scriptToString sc) addr
                       then o :: kept else kept)
          end
      end
  end.

Definition expectationsAreMetBtcTx (transaction : Transaction)
    (expectations : IBtcExpectations) : Completion bool :=
  let outputs := tx_outputs transaction in
  let amount := fold_left (fun acc current => acc + out_satoshis current)
                  outputs 0 in
  match filterByAddress (exp_ourAddress expectations) outputs with
  | Throws e => Throws e
  | Returns ourAddressFilter =>
      match filterByAddress (exp_zenottasAddress expectations) outputs with
      | Throws e => Throws e
      | Returns zenottasAddressFilter =>
          if negb (amount =? exp_amount expectations)
             || negb (length ourAddressFilter =? 1)%nat
             || negb (length zenottasAddressFilter =? 1)%nat
          then Returns false
          else Returns true
      end
  end.

(** [transaction.inputs[0].script] *)
Definition firstInputScript (transaction : Transaction)
    : Completion (option Script) :=
  match tx_inputs transaction with
  | i :: _ => Returns (in_script i)
  | [] => Throws (mkError TypeError readUndefinedMessage)
  end.

(** [transaction.outputs[0].script] *)
Definition firstOutputScript (transaction : Transaction)
    : Completion (option Script) :=
  match tx_outputs transaction with
  | o :: _ => Returns (out_script o)
  | [] => Throws (mkError TypeError readUndefinedMessage)
  end.

Definition sendTxStage1 (post : Reply unit) (theirAddress : string)
    (ourKeypair : IKeypair) : M (Result IClientResponse) :=
  thenCatch post
    (fun _ =>
       let! _ := advanceProgress theirAddress 3 in
       ret (Value (success "Sent first transaction stage" EmptyContent)))
    (fun msg => ret (Failure (newError msg))).

Definition getTxStage1 (get : Reply (gmap string Transaction))
    (ourKeypair : IKeypair) (theirAddress : string)
    (expectations : IBtcExpectations) : M (Result IClientResponse) :=
  match getIntercomData get with
  | Failure e => ret (Failure e)
  | Value intercomData =>
      match intercomData !! theirAddress with
      | None => failWith theirAddress "No data for counter party found"
      | Some transaction =>
          (* the second test of the same entry, [if (!transaction)], cannot
             fire after the first *)
          let! inputScript := lift (firstInputScript transaction) in
          let! outputScript := lift (firstOutputScript transaction) in
          match inputScript, outputScript with
          | Some inputScript, Some outputScript =>
              if negb (interpreterVerify inputScript outputScript) then
                failWith theirAddress "Invalid transaction TxA"
              else
                let! met :=
                  lift (expectationsAreMetBtcTx transaction expectations) in
                if negb met then
                  failWith theirAddress
                    ("Expectations not met for " ++ theirAddress)%string
                else
                  let! _ := advanceProgress theirAddress 4 in
                  ret (Value (success "Received first transaction stage"
                                (TransactionContent transaction)))
          | _, _ =>
              failWith theirAddress
                ("No input or output script found for " ++ theirAddress)%string
          end
      end
  end.

Definition sendTxStage2Partial (post : Reply unit) (theirAddress : string)
    (ourKeypair : IKeypair) : M (Result IClientResponse) :=
  thenCatch post
    (fun _ =>
       let! _ := advanceProgress theirAddress 5 in
       ret (Value (success "Sent first transaction stage" EmptyContent)))
    (fun msg => ret (Failure (newError msg))).

Definition getTxStage2Partial (get : Reply (gmap string Transaction))
    (theirAddress : string) (ourKeypair : IKeypair) (ourSig : string)
    : M (Result IClientResponse) :=
  match getIntercomData get with
  | Failure e => ret (Failure e)
  | Value intercomData =>
      match intercomData !! theirAddress with
      | None => failWith theirAddress "No data for counter party found"
      | Some transaction =>
          let! inputScript := lift (firstInputScript transaction) in
          match inputScript with
          | None => throw (mkError TypeError readUndefinedMessage)
          | Some inputScript =>
              if negb (includes (scriptToString inputScript) ourSig) then
                failWith theirAddress "Invalid transaction TxB partial"
              else
                let! _ := advanceProgress theirAddress 6 in
                let! _ := modifyThis (withTxStage2 transaction) in
                ret (Value (success "Received second transaction stage"
                              EmptyContent))
          end
      end
  end.

(** ** The operations as one family *)

(** A call of one public operation of the bridge, with the replies of the
    requests it awaits. *)
Inductive Call : Type :=
| SendFreshTest (post : Reply unit) (theirAddress : string)
    (ourKeypair : IKeypair)
| GetMempoolKey (reply : Reply INetworkResponse) (force : bool)
| SignFreshTest (get : Reply (gmap string IFreshTest)) (post : Reply unit)
    (ourKeypair : IKeypair) (theirAddress : string)
| GetFreshTestResponse (get : Reply (gmap string IFreshTest))
    (ourAddress : string) (ourKeypair : IKeypair) (theirAddress : string)
| GetMempoolSignature (get : Reply (gmap string IClientResponse))
    (zenottasAddress ourAddress : string) (ourKeypair : IKeypair)
| SendTxStage1 (post : Reply unit) (theirAddress : string)
    (ourKeypair : IKeypair)
| GetTxStage1 (get : Reply (gmap string Transaction))
    (ourKeypair : IKeypair) (theirAddress : string)
    (expectations : IBtcExpectations)
| SendTxStage2Partial (post : Reply unit) (theirAddress : string)
    (ourKeypair : IKeypair)
| GetTxStage2Partial (get : Reply (gmap string Transaction))
    (theirAddress : string) (ourKeypair : IKeypair) (ourSig : string)
| SendTxStage3
| SubmitTxStage2
| SubmitTxStage4.

Definition run (c : Call) : M (Result IClientResponse) :=
  match c with
  | SendFreshTest post a kp => sendFreshTest post a kp
  | GetMempoolKey reply force => getMempoolKey reply force
  | SignFreshTest get post kp a => signFreshTest get post kp a
  | GetFreshTestResponse get our kp a => getFreshTestResponse get our kp a
  | GetMempoolSignature get zen our kp => getMempoolSignature get zen our kp
  | SendTxStage1 post a kp => sendTxStage1 post a kp
  | GetTxStage1 get kp a e => getTxStage1 get kp a e
  | SendTxStage2Partial post a kp => sendTxStage2Partial post a kp
  | GetTxStage2Partial get a kp sig => getTxStage2Partial get a kp sig
  | SendTxStage3 => sendTxStage3
  | SubmitTxStage2 => submitTxStage2
  | SubmitTxStage4 => submitTxStage4
  end.

(** The stage number an operation writes when it succeeds, with the
    counterparty whose record it writes. *)
Definition stageOf (c : Call) : option (string * Z) :=
  match c with
  | SendFreshTest _ a _ => Some (a, 0)
  | SignFreshTest _ _ _ a => Some (a, 1)
  | GetFreshTestResponse _ _ _ a => Some (a, 2)
  | SendTxStage1 _ a _ => Some (a, 3)
  | GetTxStage1 _ _ a _ => Some (a, 4)
  | SendTxStage2Partial _ a _ => Some (a, 5)
  | GetTxStage2Partial _ a _ _ => Some (a, 6)
  | _ => None
  end.

(** The address under which a call writes into the progress map. *)
Definition subjectOf (c : Call) : option string :=
  match c with
  | SendFreshTest _ a _ => Some a
  | SignFreshTest _ _ _ a => Some a
  | GetFreshTestResponse _ _ _ a => Some a
  | GetMempoolSignature _ zen _ _ => Some zen
  | SendTxStage1 _ a _ => Some a
  | GetTxStage1 _ _ a _ => Some a
  | SendTxStage2Partial _ a _ => Some a
  | GetTxStage2Partial _ a _ _ => Some a
  | _ => None
  end.

(** The result is a response whose [status] is ['success']. *)
Definition reportsSuccess (out : Completion (Result IClientResponse)) : bool :=
  match out with
  | Returns (Value r) =>
      if string_dec (response_status r) "success" then true else false
  | _ => false
  end.

(** ** Vocabulary of the properties *)

(** [s.indexOf(addr) != -1] on the script of an output that has one. *)
Definition scriptContains (addr : string) (o : Output) : bool :=
  match out_script o with
  | Some sc => includes (scriptToString sc) addr
  | None => false
  end.

Definition totalSatoshis (outputs : list Output) : Z :=
  fold_right (fun o acc => out_satoshis o + acc) 0 outputs.

(** The checks of [getTxStage1] on a fetched transaction: the interpreter
    accepts the scripts of the first input and the first output, exactly one
    output names our address, exactly one names Zenotta's, and the outputs
    add up to the expected amount. *)
Definition stage1Checks (tx : Transaction) (e : IBtcExpectations) : Prop :=
  (exists i si o so, head (tx_inputs tx) = Some i
     /\ in_script i = Some si
     /\ head (tx_outputs tx) = Some o
     /\ out_script o = Some so
     /\ interpreterVerify si so = true)
  /\ length (List.filter (scriptContains (exp_ourAddress e))
               (tx_outputs tx)) = 1%nat
  /\ length (List.filter (scriptContains (exp_zenottasAddress e))
               (tx_outputs tx)) = 1%nat
  /\ totalSatoshis (tx_outputs tx) = exp_amount e.

(** The runtime after a sequence of calls. *)
Definition runAll (calls : list Call) (rt : Runtime) : Runtime :=
  fold_left (fun rt c => snd (run c rt)) calls rt.

(** A computation that leaves the progress map as it is and never turns the
    clock back. *)
Definition benign {A : Type} (m : M A) : Prop :=
  forall rt,
    progress (this (snd (m rt))) = progress (this rt)
    /\ (dateCount rt <= dateCount (snd (m rt)))%nat.

(** The computation creates no record for [a]. *)
Definition keepsAbsent (a : string) {A : Type} (m : M A) : Prop :=
  forall rt,
    progress (this rt) !! a = None ->
    progress (this (snd (m rt))) !! a = None.

(** During a call started in [rt0] with the record [r] for [a]: the record
    of [a] is still [r]. *)
Definition untouched (a : string) (r : ITradeProgress) (rt0 rt : Runtime)
    : Prop :=
  progress (this rt) !! a = Some r /\ (dateCount rt0 <= dateCount rt)%nat.

(** The record of [a] carries stage [k] and a date read during the call. *)
Definition staged (a : string) (rt0 : Runtime) (k : Z) (rt : Runtime)
    : Prop :=
  exists r' n,
    progress (this rt) !! a = Some r'
    /\ status r' = Some k
    /\ (dateCount rt0 <= n)%nat
    /\ lastEvent r' = clock n.

(** The record of [a] after a call that writes under [subj] and announces
    the stage [st]: on success it carries the announced stage and a date
    read during the call, or is unchanged when the call is not about [a];
    otherwise it is unchanged, or, when the call writes under [a], marked
    failed with the reason that is returned. *)
Definition recordAfter (a : string) (r : ITradeProgress) (rt0 : Runtime)
    (subj : option string) (st : option (string * Z))
    (p : Completion (Result IClientResponse) * Runtime) : Prop :=
  exists r',
    progress (this (snd p)) !! a = Some r'
    /\ (reportsSuccess (fst p) = true ->
        (forall k, st = Some (a, k) ->
           status r' = Some k
           /\ exists n, (dateCount rt0 <= n)%nat /\ lastEvent r' = clock n)
        /\ ((forall k, st <> Some (a, k)) -> r' = r))
    /\ (reportsSuccess (fst p) = false ->
        r' = r
        \/ (subj = Some a
            /\ exists reason n,
                 (dateCount rt0 <= n)%nat
                 /\ r' = failureFields reason (clock n) r
                 /\ fst p = Returns (Failure (newError reason)))).

(** Either the call has returned with the record as [recordAfter] says, or
    it has thrown before touching the record. *)
Definition recordAfterOrThrown (a : string) (r : ITradeProgress)
    (rt0 : Runtime) (subj : option string) (st : option (string * Z))
    (p : Completion (Result IClientResponse) * Runtime) : Prop :=
  match p with
  | (Returns x, rt1) => recordAfter a r rt0 subj st (Returns x, rt1)
  | (Throws _, rt1) => untouched a r rt0 rt1
  end.

End Machine.

End HelixBridge.

Import HelixBridge.

(* ====================================================================== *)
(** * Mailbox request bodies *)
(* ====================================================================== *)

Module Intercom.

Record IRequestGetBody : Type := {
  get_key : string;
  get_publicKey : string;
  get_signature : string
}.

Record IRequestSetBody (T : Type) : Type := {
  set_key : string;
  set_field : string;
  set_signature : string;
  set_publicKey : string;
  set_value : T
}.
Arguments set_key {T} _.
Arguments set_field {T} _.
Arguments set_signature {T} _.
Arguments set_publicKey {T} _.
Arguments set_value {T} _.

Record IRequestDelBody : Type := {
  del_key : string;
  del_field : string;
  del_signature : string;
  del_publicKey : string
}.

Section Bodies.
Context `{External}.

(** Modelled from the spec: the signature rule of the mailbox envelope,
    [Sign(requesterSecretKey, requesterOwnAddress)]; utils/intercomUtils is
    not among the sources. The address is read as hexadecimal and the
    signature rendered as hexadecimal, as [HelixBridge.sign] does. *)
Definition signOwnAddress (keypair : IKeypair) (ownAddress : string)
    : string :=
  hexEncode (createSignature (bytes (secretKey keypair))
               (hexDecode ownAddress)).

(** Modelled from the spec: [generateIntercomGetBody] of
    utils/intercomUtils, which is not among the sources (its test is):
    the target key is the caller's own address. *)
Definition generateIntercomGetBody (addressKey : string)
    (keypair : IKeypair) : IRequestGetBody :=
  {| get_key := addressKey;
     get_publicKey := hexEncode (bytes (publicKey keypair));
     get_signature := signOwnAddress keypair addressKey |}.

(** Modelled from the spec: [generateIntercomSetBody] of
    utils/intercomUtils, which is not among the sources (its test is):
    the value goes to the slot of [addressKey] under the field of the
    caller's own address [addressField]. *)
Definition generateIntercomSetBody {T : Type} (addressKey : string)
    (addressField : string) (keypair : IKeypair) (v : T)
    : IRequestSetBody T :=
  {| set_key := addressKey;
     set_field := addressField;
     set_signature := signOwnAddress keypair addressField;
     set_publicKey := hexEncode (bytes (publicKey keypair));
     set_value := v |}.

(** Modelled from the spec: [generateIntercomDelBody] of
    utils/intercomUtils, which is not among the sources (its test is):
    the key is the caller's own address, the field the address that placed
    the entry. *)
Definition generateIntercomDelBody (addressKey : string)
    (addressField : string) (keypair : IKeypair) : IRequestDelBody :=
  {| del_key := addressKey;
     del_field := addressField;
     del_signature := signOwnAddress keypair addressKey;
     del_publicKey := hexEncode (bytes (publicKey keypair)) |}.

End Bodies.

End Intercom.

Import Intercom.

(* ====================================================================== *)
(** * Concrete configurations used by the examples *)
(* ====================================================================== *)

Module Samples.

(** Sizes of a pay-to-public-key-hash input and output, ten-minute blocks,
    and a fee rate of twenty satoshis per byte. *)
Definition mainnet : Constants :=
  {| INPUT_SIZE := 180; OUTPUT_SIZE := 34;
     SATOSHI_PER_BYTE_PAYMENT := 20; BTC_BLOCKTIME_SECS := 600 |}.

(** The same sizes with a fee rate of zero. *)
Definition zeroRate : Constants :=
  {| INPUT_SIZE := 180; OUTPUT_SIZE := 34;
     SATOSHI_PER_BYTE_PAYMENT := 0; BTC_BLOCKTIME_SECS := 600 |}.

Definition keysAsAddresses : Bitcore :=
  {| PrivateKey := string; addressOfPrivateKey := fun k => k |}.

Definition showArg (a : ScriptArg) : string :=
  match a with
  | ArgStr s => s
  | ArgNum _ => "<number>"
  end.

(** A clock that starts thirteen hours after the epoch and advances by one
    millisecond per reading; placeholder signature primitives; scripts
    rendered as their items separated by spaces. *)
Definition world : External :=
  {| clock := fun n => 46800000 + Z.of_nat n;
     createSignature := fun _ msg => msg;
     naclVerify := fun _ _ _ => Returns true;
     scriptToString := fun sc => String.concat " " (map showArg sc);
     interpreterVerify := fun _ _ => true |}.

(** The key pair of the mailbox tests. *)
Definition testPublicKey : list Byte.byte :=
  hexDecode "2304667047f9ac074b2b062b46557e3283a1661d8348b3d6323490b9c8ccf978".

Definition testKeypair : IKeypair :=
  {| address := "18f70e4a53a7cfd7f82d0e1fc287a449872ec7489dba0dff86144df8609caeda";
     secretKey :=
       mkArray 0 (hexDecode
         ("e9ebb869a82242f58159b3beb3e4bf1e05edef3d6c47a51fc76273e56ccdddf7"
          ++ "2304667047f9ac074b2b062b46557e3283a1661d8348b3d6323490b9c8ccf978")%string);
     publicKey := mkArray 1 testPublicKey;
     version := None |}.

(** The public key of the tests written as an address. *)
Definition keyAsAddress : string :=
  "2304667047f9ac074b2b062b46557e3283a1661d8348b3d6323490b9c8ccf978".

Definition aFreshTest : IFreshTest :=
  {| ft_publicKey := keyAsAddress; ft_message := "c0ffee";
     ft_signature := None |}.

Definition expectations : IBtcExpectations :=
  {| exp_ourAddress := "ours"; exp_zenottasAddress := "zenotta";
     exp_amount := 1000 |}.

(** A transaction without inputs. *)
Definition noInputs : Transaction :=
  {| tx_inputs := [];
     tx_outputs := [ {| out_script := Some [ArgStr "OP_DUP"; ArgStr "ours"];
                        out_satoshis := 1000 |} ] |}.

(** A transaction that names our address once, Zenotta's once, pays 1000
    satoshis in all, and has a third output whose script is missing. *)
Definition scriptlessOutput : Transaction :=
  {| tx_inputs := [ {| in_script := Some [ArgStr "signature"] |} ];
     tx_outputs :=
       [ {| out_script := Some [ArgStr "OP_DUP"; ArgStr "ours"];
            out_satoshis := 600 |};
         {| out_script := Some [ArgStr "OP_2"; ArgStr "zenotta"];
            out_satoshis := 400 |};
         {| out_script := None; out_satoshis := 0 |} ] |}.

Definition record (s : option Z) (our : string) : ITradeProgress :=
  {| status := s; lastEvent := 0; ourAddress := our;
     reasonForFailure := None |}.

(** A bridge with default timeout holding one record for ["their"]. *)
Definition bridgeWith (r : ITradeProgress) : Bridge :=
  withProgress (fun p => <["their" := r]> p)
    (newHelixBridgeBTC "https://sochain.example" "BTCTEST" None).

Definition runtimeWith (r : ITradeProgress) : Runtime :=
  {| this := bridgeWith r; nextRef := 2; dateCount := 0 |}.

Definition emptyRuntime : Runtime :=
  {| this := newHelixBridgeBTC "https://sochain.example" "BTCTEST" None;
     nextRef := 2; dateCount := 0 |}.

End Samples.

(* ====================================================================== *)
(** * The mempool signature request (HelixBridge, protobridge revision) *)
(* ====================================================================== *)

Module Mempool.

(** The content of the reply. It is JSON read under the declared
    interface: a field is a string, or is missing or [null] ([None]). *)
Record IGetMempoolSignatureResponse : Type := {
  sig_public_key : option string;
  sig_signature : option string
}.

Record INetworkSignatureResponse : Type := {
  sig_content : option IGetMempoolSignatureResponse;
  sig_reason : string
}.

(** The response of the operation: status, reason and the content
    [{ publicKey, signature }]. *)
Record ISignatureResponse : Type := {
  sr_status : string;
  sr_reason : string;
  sr_publicKey : option string;
  sr_signature : option string
}.

(** [this.mempoolKey != content.public_key], the loose inequality, for a
    cached key that is a string or [null]: two strings are compared by
    their characters, [null] is equal to a missing or [null] key and to
    nothing else. *)
Definition keyDiffers (cached k : option string) : bool :=
  match cached, k with
  | Some c, Some k => negb (String.eqb c k)
  | None, None => false
  | _, _ => true
  end.

Definition getMempoolSignature (reply : Reply INetworkSignatureResponse)
    (msg publicKey : string) : M (Result ISignatureResponse) :=
  thenCatch reply
    (fun responseData =>
       match sig_content responseData with
       | Some content =>
           let! key := readThis mempoolKey in
           if keyDiffers key (sig_public_key content) then
             ret (Failure (newError
                    "Mempool public key mismatch with signature"))
           else
             ret (Value {| sr_status := "success";
                           sr_reason := "Mempool signature received";
                           sr_publicKey := sig_public_key content;
                           sr_signature := sig_signature content |})
       | None => ret (Failure (newError (sig_reason responseData)))
       end)
    (fun msg => ret (Failure (newError msg))).

End Mempool.

(* ====================================================================== *)
(** * Further vocabulary of the properties *)
(* ====================================================================== *)

Module Notions.

(** The UTXO object that [fetchInputsFromUtxo] builds from one entry. *)
Definition utxoOf (address : string) (element : SoChainTx) : Utxo :=
  {| utxo_address := address;
     satoshis := Qfloor (fmul (toDouble (value element)) 100000000);
     utxo_script := script_hex element;
     txId := txid element;
     outputIndex := output_no element |}.

Definition sumSatoshis (us : list Utxo) : Z :=
  fold_right (fun u acc => satoshis u + acc) 0 us.

(** The size in bytes that [calculateFee] estimates. *)
Definition txSizeOf `{Constants} (inputCount : Z) : Z :=
  inputCount * INPUT_SIZE + OUTPUT_SIZE + 10 - inputCount.

Definition hasScript (o : Output) : Prop := out_script o <> None.

(** The outcomes of a sequence of calls, in order. *)
Fixpoint runTrace `{External} (calls : list Call) (rt : Runtime)
    : list (Completion (Result IClientResponse)) :=
  match calls with
  | [] => []
  | c :: rest => fst (run c rt) :: runTrace rest (snd (run c rt))
  end.

(** The computation keeps the property [J] of the bridge instance. *)
Definition keeps (J : Bridge -> Prop) {A : Type} (m : M A) : Prop :=
  forall rt, J (this rt) -> J (this (snd (m rt))).

(** [J] survives the two in-place updates of a progress record. *)
Definition stableUnderUpdates (J : Bridge -> Prop) : Prop :=
  forall (br : Bridge) (b : string) (r : ITradeProgress) (d : Z),
    J br ->
    progress br !! b = Some r ->
    (forall s, J (withProgress (fun p => <[b := stageFields s d r]> p) br))
    /\ (forall reason,
          J (withProgress (fun p => <[b := failureFields reason d r]> p) br)).

(** [J] survives the writes that are particular to one call: the new record
    of [sendFreshTest], the key stored by [getMempoolKey] and the
    transaction stored by [getTxStage2Partial]. *)
Definition stableUnderCall (J : Bridge -> Prop) (c : Call) : Prop :=
  match c with
  | SendFreshTest _ b kp =>
      forall br d,
        J br ->
        J (withProgress
             (fun p => <[b := {| status := Some 0; lastEvent := d;
                                 ourAddress := address kp;
                                 reasonForFailure := None |}]> p) br)
  | GetMempoolKey _ _ => forall br k, J br -> J (withMempoolKey k br)
  | GetTxStage2Partial _ _ _ _ => forall br t, J br -> J (withTxStage2 t br)
  | _ => True
  end.

(** The record of [a] exists and satisfies [P]. *)
Definition recordSatisfies (a : string) (P : ITradeProgress -> Prop)
    (br : Bridge) : Prop :=
  exists r, progress br !! a = Some r /\ P r.

(** The settings fixed by the constructor. *)
Definition settingsOf (br : Bridge) : string * Q * string * string :=
  (chain br, freshTestResponseTimeout br, bitcoinEndpoint br, netenv br).

End Notions.

Import Notions.

Module MoreSamples.

(** A fresh test carrying a signature. *)
Definition signedFreshTest : IFreshTest :=
  {| ft_publicKey := Samples.keyAsAddress; ft_message := "c0ffee";
     ft_signature := Some "0badcafe" |}.

(** A transaction that names our address once, Zenotta's once and pays
    1000 satoshis in all. *)
Definition stage1Tx : Transaction :=
  {| tx_inputs := [ {| in_script := Some [ArgStr "signature"] |} ];
     tx_outputs :=
       [ {| out_script := Some [ArgStr "OP_DUP"; ArgStr "ours"];
            out_satoshis := 600 |};
         {| out_script := Some [ArgStr "OP_2"; ArgStr "zenotta"];
            out_satoshis := 400 |} ] |}.

(** A transaction whose first input script carries the signature
    ["3045aa"]. *)
Definition stage2Tx : Transaction :=
  {| tx_inputs := [ {| in_script := Some [ArgStr "3045aa"; ArgStr "02bb"] |} ];
     tx_outputs := [] |}.

(** One unspent output quoted as 0.29 BTC. *)
Definition oneUtxo : SoChainData :=
  {| data_address := "ours";
     txs := [ {| value := (29 # 100)%Q; script_hex := "76a914";
                 txid := "tx0"; output_no := 0 |} ] |}.

Definition twoUtxos : SoChainData :=
  {| data_address := "ours";
     txs := [ {| value := (1 # 1000)%Q; script_hex := "76a914";
                 txid := "tx0"; output_no := 0 |};
              {| value := (2 # 1000)%Q; script_hex := "76a915";
                 txid := "tx1"; output_no := 3 |} ] |}.

End MoreSamples.

(* ====================================================================== *)
(** * Properties *)
(* ====================================================================== *)

(** ** Rounding to the nearest double *)

Lemma roundHalfEven_cases (x : Q) :
  let f := Qfloor x in
  (roundHalfEven x = f
   /\ (x - inject_Z f < 1 # 2
       \/ (x - inject_Z f == 1 # 2 /\ Z.even f = true))%Q)
  \/ (roundHalfEven x = f + 1
      /\ (1 # 2 < x - inject_Z f
          \/ (x - inject_Z f == 1 # 2 /\ Z.even f = false))%Q).
Proof.
  intros f. unfold roundHalfEven. fold f.
  destruct (Qcompare_spec (x - inject_Z f) (1 # 2)) as [E | E | E].
  - destruct (Z.even f) eqn:Ev; [left | right]; auto.
  - left. auto.
  - right. auto.
Qed.

Lemma roundHalfEven_comp (x y : Q) :
  (x == y)%Q -> roundHalfEven x = roundHalfEven y.
Proof.
  intros E. unfold roundHalfEven. rewrite (Qfloor_comp _ _ E).
  assert (E' : (x - inject_Z (Qfloor y) == y - inject_Z (Qfloor y))%Q)
    by (rewrite E; reflexivity).
  rewrite (Qcompare_comp _ _ E' (1 # 2) (1 # 2) (Qeq_refl _)). reflexivity.
Qed.

Lemma roundHalfEven_inject_Z (z : Z) : roundHalfEven (inject_Z z) = z.
Proof.
  unfold roundHalfEven. rewrite Qfloor_Z.
  assert (E : (inject_Z z - inject_Z z ?= 1 # 2)%Q = Lt).
  { apply Qlt_alt.
    assert (E0 : (inject_Z z - inject_Z z == 0)%Q) by ring.
    rewrite E0. reflexivity. }
  rewrite E. reflexivity.
Qed.

Lemma roundHalfEven_mono (x y : Q) :
  (x <= y)%Q -> roundHalfEven x <= roundHalfEven y.
Proof.
  intros Hxy.
  pose proof (Qfloor_resp_le _ _ Hxy) as Hf.
  pose proof (Qfloor_le x) as Hx1. pose proof (Qlt_floor x) as Hx2.
  pose proof (Qfloor_le y) as Hy1. pose proof (Qlt_floor y) as Hy2.
  destruct (roundHalfEven_cases x) as [[-> Hx] | [-> Hx]];
    destruct (roundHalfEven_cases y) as [[-> Hy] | [-> Hy]]; try lia.
  destruct (Z.eq_dec (Qfloor x) (Qfloor y)) as [E | E]; [| lia].
  exfalso. rewrite E in Hx. clear Hx1 Hx2 Hy1 Hy2.
  generalize dependent (inject_Z (Qfloor y)). intros g Hx Hy.
  destruct Hx as [Hx | [Hx Ex]]; destruct Hy as [Hy | [Hy Ey]]; try lra.
  congruence.
Qed.

Lemma roundHalfEven_le (x : Q) (z : Z) :
  (x <= inject_Z z)%Q -> roundHalfEven x <= z.
Proof.
  intros H. rewrite <- (roundHalfEven_inject_Z z).
  apply roundHalfEven_mono. exact H.
Qed.

Lemma roundHalfEven_ge (x : Q) (z : Z) :
  (inject_Z z <= x)%Q -> z <= roundHalfEven x.
Proof.
  intros H. rewrite <- (roundHalfEven_inject_Z z).
  apply roundHalfEven_mono. exact H.
Qed.

Lemma pow2_pos (e : Z) : (0 < 2 ^ e)%Q.
Proof. apply Qpower_0_lt. reflexivity. Qed.

Lemma pow2_plus (a b : Z) : (2 ^ (a + b) == 2 ^ a * 2 ^ b)%Q.
Proof. apply Qpower_plus. discriminate. Qed.

Lemma pow2_le (a b : Z) : a <= b -> (2 ^ a <= 2 ^ b)%Q.
Proof. intros H. apply Qpower_le_compat_l; [exact H | discriminate]. Qed.

Lemma pow2_inject (n : Z) : 0 <= n -> (inject_Z (2 ^ n) == 2 ^ n)%Q.
Proof. intros H. rewrite (Zpower_Qpower 2 n H). reflexivity. Qed.

Lemma pow2_lt_inv (a b : Z) : (2 ^ a < 2 ^ b)%Q -> a < b.
Proof. intros H. apply (Qpower_lt_compat_l_inv 2); [exact H | reflexivity]. Qed.

(** [floorLog2 a] is the binary exponent of a positive [a]. *)
Lemma floorLog2_spec (a : Q) :
  (0 < a)%Q -> (2 ^ floorLog2 a <= a /\ a < 2 ^ (floorLog2 a + 1))%Q.
Proof.
  intros Ha. destruct a as [n d]. unfold floorLog2. cbn [Qnum Qden].
  assert (Hn : 0 < n) by (unfold Qlt in Ha; cbn in Ha; lia).
  pose proof (Z.log2_spec n Hn) as [Hn1 Hn2].
  pose proof (Z.log2_spec (Zpos d) (Pos2Z.is_pos d)) as [Hd1 Hd2].
  pose proof (Z.log2_nonneg n) as Hln.
  pose proof (Z.log2_nonneg (Zpos d)) as Hld.
  set (ln := Z.log2 n) in *. set (ld := Z.log2 (Zpos d)) in *.
  assert (Qn1 : (2 ^ ln <= inject_Z n)%Q).
  { rewrite <- (pow2_inject ln Hln). rewrite <- Zle_Qle. exact Hn1. }
  assert (Qn2 : (inject_Z n < 2 ^ (ln + 1))%Q).
  { rewrite <- (pow2_inject (ln + 1)) by lia. rewrite <- Zlt_Qlt.
    exact Hn2. }
  assert (Qd1 : (2 ^ ld <= inject_Z (Zpos d))%Q).
  { rewrite <- (pow2_inject ld Hld). rewrite <- Zle_Qle. exact Hd1. }
  assert (Qd2 : (inject_Z (Zpos d) < 2 ^ (ld + 1))%Q).
  { rewrite <- (pow2_inject (ld + 1)) by lia. rewrite <- Zlt_Qlt.
    exact Hd2. }
  assert (Hdpos : (0 < inject_Z (Zpos d))%Q) by reflexivity.
  assert (Hmul : ((n # d) * inject_Z (Zpos d) == inject_Z n)%Q).
  { rewrite (Qmake_Qdiv n d). field. intros E. rewrite E in Hdpos.
    exact (Qlt_irrefl _ Hdpos). }
  destruct (Qle_bool (2 ^ (ln - ld)) (n # d)) eqn:Eb.
  - apply Qle_bool_iff in Eb. split; [exact Eb |].
    assert (Ep : (2 ^ (ln - ld + 1) * 2 ^ ld == 2 ^ (ln + 1))%Q).
    { rewrite <- pow2_plus. replace (ln - ld + 1 + ld) with (ln + 1) by lia.
      reflexivity. }
    pose proof (pow2_pos (ln - ld + 1)) as Hp.
    apply Qnot_le_lt. intros Hc.
    assert (H1 : (2 ^ (ln - ld + 1) * 2 ^ ld
                  <= (n # d) * inject_Z (Zpos d))%Q).
    { apply Qle_trans with (2 ^ (ln - ld + 1) * inject_Z (Zpos d))%Q.
      - apply Qmult_le_l; [exact Hp | exact Qd1].
      - apply Qmult_le_compat_r; [exact Hc | apply Qlt_le_weak, Hdpos]. }
    rewrite Ep, Hmul in H1. exact (Qlt_not_le _ _ Qn2 H1).
  - assert (Hlt : ((n # d) < 2 ^ (ln - ld))%Q).
    { apply Qnot_le_lt. intros Hc. apply Qle_bool_iff in Hc. congruence. }
    replace (ln - ld - 1 + 1) with (ln - ld) by lia.
    split; [| exact Hlt].
    assert (Ep : (2 ^ (ln - ld - 1) * 2 ^ (ld + 1) == 2 ^ ln)%Q).
    { rewrite <- pow2_plus. replace (ln - ld - 1 + (ld + 1)) with ln by lia.
      reflexivity. }
    pose proof (pow2_pos (ln - ld - 1)) as Hp.
    apply Qnot_lt_le. intros Hc.
    assert (H1 : ((n # d) * inject_Z (Zpos d)
                  < 2 ^ (ln - ld - 1) * 2 ^ (ld + 1))%Q).
    { apply Qle_lt_trans with (2 ^ (ln - ld - 1) * inject_Z (Zpos d))%Q.
      - apply Qmult_le_compat_r;
          [apply Qlt_le_weak, Hc | apply Qlt_le_weak, Hdpos].
      - apply Qmult_lt_l; [exact Hp | exact Qd2]. }
    rewrite Ep, Hmul in H1. exact (Qlt_not_le _ _ H1 Qn1).
Qed.

Lemma floorLog2_unique (a : Q) (k : Z) :
  (2 ^ k <= a)%Q -> (a < 2 ^ (k + 1))%Q -> floorLog2 a = k.
Proof.
  intros H1 H2.
  assert (Ha : (0 < a)%Q) by (eapply Qlt_le_trans; [apply (pow2_pos k) | exact H1]).
  destruct (floorLog2_spec a Ha) as [S1 S2].
  assert (A : floorLog2 a < k + 1).
  { apply pow2_lt_inv. eapply Qle_lt_trans; [exact S1 | exact H2]. }
  assert (B : k < floorLog2 a + 1).
  { apply pow2_lt_inv. eapply Qle_lt_trans; [exact H1 | exact S2]. }
  lia.
Qed.

Lemma floorLog2_mono (a b : Q) :
  (0 < a)%Q -> (a <= b)%Q -> floorLog2 a <= floorLog2 b.
Proof.
  intros Ha Hab.
  assert (Hb : (0 < b)%Q) by (eapply Qlt_le_trans; eassumption).
  destruct (floorLog2_spec a Ha) as [A1 _].
  destruct (floorLog2_spec b Hb) as [_ B2].
  assert (floorLog2 a < floorLog2 b + 1); [| lia].
  apply pow2_lt_inv. eapply Qle_lt_trans; [exact A1 |].
  eapply Qle_lt_trans; [exact Hab | exact B2].
Qed.

Lemma div_pow2_le (a : Q) (e n : Z) :
  (a <= 2 ^ (e + n))%Q -> 0 <= n -> (a / 2 ^ e <= inject_Z (2 ^ n))%Q.
Proof.
  intros H Hn. rewrite (pow2_inject n Hn).
  apply Qle_shift_div_r; [apply pow2_pos |].
  rewrite <- pow2_plus. replace (n + e) with (e + n) by lia. exact H.
Qed.

Lemma div_pow2_ge (a : Q) (e n : Z) :
  (2 ^ (e + n) <= a)%Q -> 0 <= n -> (inject_Z (2 ^ n) <= a / 2 ^ e)%Q.
Proof.
  intros H Hn. rewrite (pow2_inject n Hn).
  apply Qle_shift_div_l; [apply pow2_pos |].
  rewrite <- pow2_plus. replace (n + e) with (e + n) by lia. exact H.
Qed.

Lemma roundPositive_upper (a : Q) :
  (0 < a)%Q -> (roundPositive a <= 2 ^ (exponentOf a + 53))%Q.
Proof.
  intros Ha. unfold roundPositive. set (e := exponentOf a).
  destruct (floorLog2_spec a Ha) as [_ S2].
  assert (He : floorLog2 a + 1 <= e + 53) by (unfold e, exponentOf; lia).
  assert (H1 : (a <= 2 ^ (e + 53))%Q).
  { apply Qlt_le_weak. eapply Qlt_le_trans; [exact S2 | apply pow2_le, He]. }
  pose proof (roundHalfEven_le _ _ (div_pow2_le a e 53 H1 ltac:(lia))) as Hr.
  assert (E : (2 ^ (e + 53) == inject_Z (2 ^ 53) * 2 ^ e)%Q).
  { rewrite pow2_plus, (pow2_inject 53) by lia. ring. }
  rewrite E. apply Qmult_le_compat_r; [| apply Qlt_le_weak, pow2_pos].
  rewrite <- Zle_Qle. exact Hr.
Qed.

Lemma roundPositive_lower (a : Q) :
  (0 < a)%Q -> exponentOf a = floorLog2 a - 52 ->
  (2 ^ (exponentOf a + 52) <= roundPositive a)%Q.
Proof.
  intros Ha He. unfold roundPositive. set (e := exponentOf a) in *.
  destruct (floorLog2_spec a Ha) as [S1 _].
  assert (H1 : (2 ^ (e + 52) <= a)%Q).
  { replace (e + 52) with (floorLog2 a) by lia. exact S1. }
  pose proof (roundHalfEven_ge _ _ (div_pow2_ge a e 52 H1 ltac:(lia))) as Hr.
  assert (E : (2 ^ (e + 52) == inject_Z (2 ^ 52) * 2 ^ e)%Q).
  { rewrite pow2_plus, (pow2_inject 52) by lia. ring. }
  rewrite E. apply Qmult_le_compat_r; [| apply Qlt_le_weak, pow2_pos].
  rewrite <- Zle_Qle. exact Hr.
Qed.

Lemma roundPositive_nonneg (a : Q) : (0 <= a)%Q -> (0 <= roundPositive a)%Q.
Proof.
  intros Ha. unfold roundPositive. apply Qmult_le_0_compat.
  - change 0%Q with (inject_Z 0). rewrite <- Zle_Qle.
    apply roundHalfEven_ge. change (inject_Z 0) with 0%Q.
    apply Qle_shift_div_l; [apply pow2_pos |]. rewrite Qmult_0_l. exact Ha.
  - apply Qlt_le_weak, pow2_pos.
Qed.

Lemma roundPositive_mono (a b : Q) :
  (0 < a)%Q -> (a <= b)%Q -> (roundPositive a <= roundPositive b)%Q.
Proof.
  intros Ha Hab.
  assert (Hb : (0 < b)%Q) by (eapply Qlt_le_trans; eassumption).
  pose proof (floorLog2_mono a b Ha Hab) as Hk.
  destruct (Z.eq_dec (exponentOf a) (exponentOf b)) as [E | E].
  - unfold roundPositive. rewrite E.
    apply Qmult_le_compat_r; [| apply Qlt_le_weak, pow2_pos].
    rewrite <- Zle_Qle. apply roundHalfEven_mono.
    apply Qmult_le_compat_r; [exact Hab |].
    apply Qlt_le_weak, Qinv_lt_0_compat, pow2_pos.
  - assert (Hlt : exponentOf a < exponentOf b)
      by (unfold exponentOf in *; lia).
    assert (Hub : exponentOf b = floorLog2 b - 52)
      by (unfold exponentOf in *; lia).
    eapply Qle_trans; [apply (roundPositive_upper a Ha) |].
    eapply Qle_trans; [| apply (roundPositive_lower b Hb Hub)].
    apply pow2_le. lia.
Qed.

Lemma Qnum_pos_iff (q : Q) : (0 < q)%Q <-> 0 < Qnum q.
Proof. unfold Qlt. cbn [Qnum Qden]. lia. Qed.

Lemma roundSigned_mono (x y : Q) :
  (x <= y)%Q -> (roundSigned x <= roundSigned y)%Q.
Proof.
  intros Hxy. unfold roundSigned.
  assert (Hle : Qnum x * Zpos (Qden y) <= Qnum y * Zpos (Qden x))
    by exact Hxy.
  destruct (Qnum x) as [| px | px] eqn:Ex; destruct (Qnum y) as [| py | py] eqn:Ey;
    try lia.
  - apply Qle_refl.
  - apply roundPositive_nonneg. unfold Qle. cbn [Qnum Qden]. lia.
  - apply roundPositive_mono; [apply Qnum_pos_iff; lia | exact Hxy].
  - assert (H0 : (0 <= roundPositive (- x))%Q).
    { apply roundPositive_nonneg. unfold Qle, Qopp. cbn [Qnum Qden]. lia. }
    lra.
  - assert (H0 : (0 <= roundPositive (- x))%Q).
    { apply roundPositive_nonneg. unfold Qle, Qopp. cbn [Qnum Qden]. lia. }
    assert (H1 : (0 <= roundPositive y)%Q).
    { apply roundPositive_nonneg. unfold Qle. cbn [Qnum Qden]. lia. }
    lra.
  - apply Qopp_le_compat. apply roundPositive_mono.
    + apply Qnum_pos_iff. unfold Qopp. cbn [Qnum]. lia.
    + apply Qopp_le_compat. exact Hxy.
Qed.

(** Rounding to the nearest double is monotone. *)
Lemma toDouble_mono (x y : Q) : (x <= y)%Q -> (toDouble x <= toDouble y)%Q.
Proof.
  intros Hxy. unfold toDouble. apply Qred_le. apply roundSigned_mono.
  apply Qred_le. exact Hxy.
Qed.

Lemma toDouble_comp (x y : Q) : (x == y)%Q -> toDouble x = toDouble y.
Proof. intros E. unfold toDouble. rewrite (Qred_complete _ _ E). reflexivity. Qed.

Lemma toDouble_0 : toDouble 0 = 0%Q.
Proof. reflexivity. Qed.

Lemma toDouble_nonneg (x : Q) : (0 <= x)%Q -> (0 <= toDouble x)%Q.
Proof. intros H. rewrite <- toDouble_0. apply toDouble_mono. exact H. Qed.


Lemma roundSigned_pos (q : Q) : (0 < q)%Q -> roundSigned q = roundPositive q.
Proof.
  intros H. apply Qnum_pos_iff in H. unfold roundSigned.
  destruct (Qnum q); try lia. reflexivity.
Qed.

Lemma roundSigned_neg (q : Q) :
  (q < 0)%Q -> roundSigned q = (- roundPositive (- q))%Q.
Proof.
  intros H. assert (Hn : Qnum q < 0) by (unfold Qlt in H; cbn in H; lia).
  unfold roundSigned. destruct (Qnum q); try lia. reflexivity.
Qed.

Lemma roundSigned_zero (q : Q) : (q == 0)%Q -> roundSigned q = 0%Q.
Proof.
  intros H. assert (Hn : Qnum q = 0) by (unfold Qeq in H; cbn in H; lia).
  unfold roundSigned. rewrite Hn. reflexivity.
Qed.

(** A positive number that is a multiple of the unit of its binade is a
    double. *)
Lemma roundPositive_exact (a : Q) (m : Z) :
  (a == inject_Z m * 2 ^ exponentOf a)%Q -> (roundPositive a == a)%Q.
Proof.
  intros E. unfold roundPositive.
  assert (Hne : ~ (2 ^ exponentOf a == 0)%Q).
  { intros E0. pose proof (pow2_pos (exponentOf a)) as Hp. rewrite E0 in Hp.
    exact (Qlt_irrefl _ Hp). }
  assert (Ed : (a / 2 ^ exponentOf a == inject_Z m)%Q).
  { rewrite E at 1. field. exact Hne. }
  rewrite (roundHalfEven_comp _ _ Ed), roundHalfEven_inject_Z.
  symmetry. exact E.
Qed.

Lemma roundPositive_Z (q : Q) (z : Z) :
  0 < z <= 2 ^ 53 -> (q == inject_Z z)%Q -> (roundPositive q == inject_Z z)%Q.
Proof.
  intros [Hz1 Hz2] Eq.
  pose proof (Z.log2_spec z Hz1) as [L1 L2].
  pose proof (Z.log2_nonneg z) as Hk. remember (Z.log2 z) as k eqn:Ek.
  assert (Hk53 : k <= 53).
  { destruct (Z_le_gt_dec k 53) as [H | H]; [exact H | exfalso].
    assert (2 ^ 54 <= 2 ^ k) by (apply Z.pow_le_mono_r; lia).
    assert (2 ^ 53 < 2 ^ 54) by reflexivity. lia. }
  assert (Fl : floorLog2 q = k).
  { apply floorLog2_unique.
    - rewrite Eq, <- (pow2_inject k Hk), <- Zle_Qle. exact L1.
    - rewrite Eq, <- (pow2_inject (k + 1)) by lia. rewrite <- Zlt_Qlt.
      exact L2. }
  assert (Ee : exponentOf q = k - 52) by (unfold exponentOf; lia).
  rewrite <- Eq.
  destruct (Z_le_gt_dec k 52) as [Hle | Hgt].
  - apply (roundPositive_exact q (z * 2 ^ (52 - k))).
    rewrite Ee, inject_Z_mult, (pow2_inject (52 - k)) by lia.
    rewrite <- Qmult_assoc, <- pow2_plus.
    replace (52 - k + (k - 52)) with 0 by lia. rewrite Eq. ring.
  - assert (K : k = 53) by lia. rewrite K in *.
    assert (Z53 : z = 2 ^ 53) by lia.
    apply (roundPositive_exact q (2 ^ 52)). rewrite Ee, Eq, Z53.
    reflexivity.
Qed.

(** Integers of magnitude up to 2^53 are doubles. *)
Lemma toDouble_Z (q : Q) (z : Z) :
  - 2 ^ 53 <= z <= 2 ^ 53 -> (q == inject_Z z)%Q ->
  (toDouble q == inject_Z z)%Q.
Proof.
  intros Hz Eq. unfold toDouble. rewrite Qred_correct.
  assert (Er : (Qred q == inject_Z z)%Q) by (rewrite Qred_correct; exact Eq).
  destruct (Z.lt_trichotomy z 0) as [Hneg | [H0 | Hpos]].
  - assert (Hq : (Qred q < 0)%Q).
    { rewrite Er. change 0%Q with (inject_Z 0). rewrite <- Zlt_Qlt. exact Hneg. }
    rewrite (roundSigned_neg _ Hq).
    rewrite (roundPositive_Z (- Qred q) (- z)); [| lia |].
    + rewrite inject_Z_opp. ring.
    + rewrite Er, inject_Z_opp. reflexivity.
  - subst z. rewrite (roundSigned_zero _ Er). reflexivity.
  - assert (Hq : (0 < Qred q)%Q).
    { rewrite Er. change 0%Q with (inject_Z 0). rewrite <- Zlt_Qlt. exact Hpos. }
    rewrite (roundSigned_pos _ Hq).
    apply roundPositive_Z; [lia | exact Er].
Qed.

Lemma fmul_Z (x : Q) (a b : Z) :
  (x == inject_Z a)%Q -> - 2 ^ 53 <= a * b <= 2 ^ 53 ->
  (fmul x (inject_Z b) == inject_Z (a * b))%Q.
Proof.
  intros E Hab. unfold fmul. apply toDouble_Z; [exact Hab |].
  rewrite E, inject_Z_mult. reflexivity.
Qed.

Lemma fdiv_Z (x y : Q) (a b : Z) :
  (x == inject_Z a)%Q -> (y == inject_Z b)%Q ->
  b <> 0 -> (b | a) -> - 2 ^ 53 <= a / b <= 2 ^ 53 ->
  (fdiv x y == inject_Z (a / b))%Q.
Proof.
  intros Ex Ey Hb [c Hc] Hab. unfold fdiv. apply toDouble_Z; [exact Hab |].
  subst a. rewrite Z.div_mul by exact Hb.
  rewrite Ex, Ey, inject_Z_mult. field.
  intros E0. apply Hb. apply (inject_Z_injective b 0). exact E0.
Qed.

Lemma fmul_mono (x y c : Q) :
  (x <= y)%Q -> (0 <= c)%Q -> (fmul x c <= fmul y c)%Q.
Proof.
  intros Hxy Hc. unfold fmul. apply toDouble_mono.
  apply Qmult_le_compat_r; assumption.
Qed.

Lemma fdiv_mono (x y c : Q) :
  (x <= y)%Q -> (0 < c)%Q -> (fdiv x c <= fdiv y c)%Q.
Proof.
  intros Hxy Hc. unfold fdiv, Qdiv. apply toDouble_mono.
  apply Qmult_le_compat_r; [exact Hxy |].
  apply Qlt_le_weak, Qinv_lt_0_compat, Hc.
Qed.

Lemma fmul_nonneg (x c : Q) : (0 <= x)%Q -> (0 <= c)%Q -> (0 <= fmul x c)%Q.
Proof.
  intros Hx Hc. unfold fmul. apply toDouble_nonneg.
  apply Qmult_le_0_compat; assumption.
Qed.

Lemma fdiv_nonneg (x c : Q) : (0 <= x)%Q -> (0 < c)%Q -> (0 <= fdiv x c)%Q.
Proof.
  intros Hx Hc. unfold fdiv, Qdiv. apply toDouble_nonneg.
  apply Qmult_le_0_compat; [exact Hx |].
  apply Qlt_le_weak, Qinv_lt_0_compat, Hc.
Qed.

(** A positive integer is a positive number. *)
Lemma toDouble_pos_Z (z : Z) : 0 < z -> (0 < toDouble (inject_Z z))%Q.
Proof.
  intros Hz. apply Qlt_le_trans with 1%Q; [reflexivity |].
  assert (E : (toDouble 1 == 1)%Q)
    by (apply (toDouble_Z 1 1); [split; discriminate | reflexivity]).
  rewrite <- E. apply toDouble_mono. change 1%Q with (inject_Z 1).
  rewrite <- Zle_Qle. lia.
Qed.

(** From here on the rounding is used through the lemmas above. *)
Opaque toDouble.

(** The rounding agrees with the binary64 arithmetic of the kernel on the
    decimals and quotients met below. *)
Example toDouble_agrees_with_binary64 :
  Some (toDouble (29 # 100)) = ofFloat (29 / 100)%float
  /\ Some (fmul (toDouble (29 # 100)) 100000000)
     = ofFloat (29 / 100 * 100000000)%float
  /\ Some (toDouble (5 # 100000000)) = ofFloat (5 / 100000000)%float
  /\ Some (toDouble (17 # 144)) = ofFloat (17 / 144)%float
  /\ Some (fdiv (fmul (fmul (fmul (toDouble (17 # 144)) 24) 60) 60) 600)
     = ofFloat (17 / 144 * 24 * 60 * 60 / 600)%float
  /\ Some (fdiv (fdiv (fdiv 108000 1000) 60) 60)
     = ofFloat (108000 / 1000 / 60 / 60)%float
  /\ Some (toDouble (- (2 # 3))) = ofFloat (- (2 / 3))%float
  /\ Some (toDouble (inject_Z (2 ^ 53 + 1))) = ofFloat (9007199254740992)%float.
Proof. vm_compute. repeat split. Qed.


Example hexDecode_test_key :
  hexEncode Samples.testPublicKey =
  "2304667047f9ac074b2b062b46557e3283a1661d8348b3d6323490b9c8ccf978"
  /\ length Samples.testPublicKey = 32%nat
  /\ hexDecode "0aFfzz12" = [Byte.x0a; Byte.xff].
Proof. vm_compute. auto. Qed.

Example includes_examples :
  includes "OP_DUP abc OP_CHECKSIG" "abc" = true
  /\ includes "OP_DUP abc" "abd" = false
  /\ includes "" "" = true.
Proof. vm_compute. auto. Qed.

(** ** The Bitcoin builder *)

Section BuilderProperties.
Context `{Constants}.

(** C1. For all satoshisPerByte, inputCount, satoshisToSend and
    totalAmountAvailable, with
    txSize = inputCount*INPUT_SIZE + OUTPUT_SIZE + 10 - inputCount and
    fee = satoshisPerByte*txSize, [calculateFee] returns none exactly when
    totalAmountAvailable - satoshisToSend - fee < 0, and returns fee
    otherwise. *)
Theorem calculateFee_spec
    (satoshisPerByte inputCount satoshisToSend totalAmountAvailable : Z) :
  let txSize := inputCount * INPUT_SIZE + OUTPUT_SIZE + 10 - inputCount in
  let fee := satoshisPerByte * txSize in
  (calculateFee satoshisPerByte inputCount satoshisToSend totalAmountAvailable
     = None
   <-> totalAmountAvailable - satoshisToSend - fee < 0)
  /\ (calculateFee satoshisPerByte inputCount satoshisToSend
        totalAmountAvailable = Some fee
      <-> 0 <= totalAmountAvailable - satoshisToSend - fee).
Proof.
  intros txSize fee. unfold calculateFee. fold txSize. fold fee.
  destruct (Z.ltb_spec (totalAmountAvailable - satoshisToSend - fee) 0)
    as [Hlt | Hge].
  - split; split; intros Hx; try reflexivity; try assumption.
    + discriminate Hx.
    + lia.
  - split; split; intros Hx; try reflexivity; try assumption.
    + discriminate Hx.
    + lia.
Qed.

(** One input at twenty satoshis per byte costs 4460 satoshis; it is
    affordable with 5000 satoshis available and 500 to send, not with 4959. *)
Example calculateFee_examples :
  @calculateFee Samples.mainnet 20 1 500 5000 = Some 4460
  /\ @calculateFee Samples.mainnet 20 1 500 4960 = Some 4460
  /\ @calculateFee Samples.mainnet 20 1 500 4959 = None
  /\ @calculateFee Samples.mainnet 20 2 0 10000 = Some 8040.
Proof. vm_compute. repeat split. Qed.

Lemma getLockTimeFromDays_comp (d d' : Q) (h : Z) :
  (d == d')%Q -> getLockTimeFromDays d h = getLockTimeFromDays d' h.
Proof.
  intros E. unfold getLockTimeFromDays. rewrite (toDouble_comp _ _ E).
  reflexivity.
Qed.

(** For a whole number of days and a block time that divides the seconds
    of a day, no step of the computation rounds. *)
Lemma getLockTimeFromDays_whole_days (days : Q) (n h : Z) :
  0 <= n -> n * 86400 <= 2 ^ 53 ->
  (days == inject_Z n)%Q ->
  0 < BTC_BLOCKTIME_SECS ->
  (BTC_BLOCKTIME_SECS | 86400) ->
  getLockTimeFromDays days h
  = Qfloor (days * 86400 / inject_Z BTC_BLOCKTIME_SECS) + h.
Proof.
  intros Hn Hmax Ed Hb Hdiv. unfold getLockTimeFromDays. f_equal.
  assert (H53 : 2 ^ 53 = 9007199254740992) by reflexivity.
  assert (Hble : BTC_BLOCKTIME_SECS <= 86400)
    by (apply Z.divide_pos_le; [lia | exact Hdiv]).
  assert (B0 : - 2 ^ 53 <= n <= 2 ^ 53) by lia.
  assert (B1 : - 2 ^ 53 <= n * 24 <= 2 ^ 53) by lia.
  assert (B2 : - 2 ^ 53 <= n * 24 * 60 <= 2 ^ 53) by lia.
  assert (B3 : - 2 ^ 53 <= n * 24 * 60 * 60 <= 2 ^ 53) by lia.
  assert (BB : - 2 ^ 53 <= BTC_BLOCKTIME_SECS <= 2 ^ 53) by lia.
  pose proof (toDouble_Z days n B0 Ed) as T0.
  pose proof (fmul_Z _ n 24 T0 B1) as T1.
  pose proof (fmul_Z _ (n * 24) 60 T1 B2) as T2.
  pose proof (fmul_Z _ (n * 24 * 60) 60 T2 B3) as T3.
  pose proof (toDouble_Z (inject_Z BTC_BLOCKTIME_SECS) BTC_BLOCKTIME_SECS
                BB (Qeq_refl _)) as TB.
  assert (Hd' : (BTC_BLOCKTIME_SECS | n * 24 * 60 * 60)).
  { replace (n * 24 * 60 * 60) with (n * 86400) by lia.
    apply Z.divide_mul_r. exact Hdiv. }
  assert (Hq : 0 <= n * 24 * 60 * 60 / BTC_BLOCKTIME_SECS <= n * 24 * 60 * 60).
  { split; [apply Z.div_pos; lia |].
    apply Z.div_le_upper_bound; [lia | nia]. }
  assert (B4 : - 2 ^ 53 <= n * 24 * 60 * 60 / BTC_BLOCKTIME_SECS <= 2 ^ 53)
    by lia.
  assert (Bne : BTC_BLOCKTIME_SECS <> 0) by lia.
  change 24%Q with (inject_Z 24) in *. change 60%Q with (inject_Z 60) in *.
  pose proof (fdiv_Z _ _ (n * 24 * 60 * 60) BTC_BLOCKTIME_SECS T3 TB
                Bne Hd' B4) as T4.
  rewrite (Qfloor_comp _ _ T4), Qfloor_Z.
  replace (n * 24 * 60 * 60) with (n * 86400) by lia.
  rewrite Zdiv_Qdiv. apply Qfloor_comp.
  rewrite Ed, inject_Z_mult. reflexivity.
Qed.

(** C5, as the code has it. For a positive block time,
    [constructTxStage1Script] produces
    OP_IF OP_0 OP_2 <theirAddress> <zenottasAddress> OP_2 OP_CHECKMULTISIG
    OP_ELSE <locktime> OP_CHECKLOCKTIMEVERIFY OP_DROP OP_DUP OP_HASH160
    <ourReturnAddress> OP_EQUALVERIFY OP_CHECKSIG OP_ENDIF, where locktime
    is floor(((daysToLock*24)*60)*60 / BTC_BLOCKTIME_SECS) + startBlockHeight
    with each product and the quotient rounded to the nearest double in the
    order written; identical inputs give an identical script; and locktime
    is floor(daysToLock*86400 / BTC_BLOCKTIME_SECS) + startBlockHeight when
    daysToLock is a whole number of days (up to 2^53 seconds) and the
    block time divides 86400. *)
Theorem constructTxStage1Script_spec (i j : ITxStage1ScriptInput) :
  0 < BTC_BLOCKTIME_SECS ->
  sameScriptInputs i j ->
  let locktime :=
    Qfloor (fdiv (fmul (fmul (fmul (toDouble (daysToLock i)) 24) 60) 60)
              (toDouble (inject_Z BTC_BLOCKTIME_SECS)))
    + startBlockHeight i in
  constructTxStage1Script i =
    [ ArgStr "OP_IF"; ArgStr "OP_0"; ArgStr "OP_2";
      ArgStr (theirAddress i); ArgStr (zenottasAddress i);
      ArgStr "OP_2"; ArgStr "OP_CHECKMULTISIG"; ArgStr "OP_ELSE";
      ArgNum locktime;
      ArgStr "OP_CHECKLOCKTIMEVERIFY"; ArgStr "OP_DROP"; ArgStr "OP_DUP";
      ArgStr "OP_HASH160"; ArgStr (ourReturnAddress i);
      ArgStr "OP_EQUALVERIFY"; ArgStr "OP_CHECKSIG"; ArgStr "OP_ENDIF" ]
  /\ constructTxStage1Script j = constructTxStage1Script i
  /\ (forall n : Z,
        0 <= n -> n * 86400 <= 2 ^ 53 ->
        (daysToLock i == inject_Z n)%Q ->
        (BTC_BLOCKTIME_SECS | 86400) ->
        locktime
        = Qfloor (daysToLock i * 86400 / inject_Z BTC_BLOCKTIME_SECS)
          + startBlockHeight i).
Proof.
  intros Hb (Ht & Hz & Ho & Hd & Hs) locktime. split; [| split].
  - reflexivity.
  - unfold constructTxStage1Script.
    rewrite Ht, Hz, Ho, Hs.
    rewrite (getLockTimeFromDays_comp _ _ _ Hd). reflexivity.
  - intros n Hn Hmax Ed Hdiv.
    exact (getLockTimeFromDays_whole_days _ n _ Hn Hmax Ed Hb Hdiv).
Qed.

End BuilderProperties.

(** One day of ten-minute blocks from height 100: lock time 244. The two
    inputs write the same number of days as different fractions. *)
Lemma constructTxStage1Script_witness :
  let i := {| theirAddress := "their"; ourReturnAddress := "ours";
              zenottasAddress := "zenotta"; daysToLock := 1%Q;
              startBlockHeight := 100 |} in
  let j := {| theirAddress := "their"; ourReturnAddress := "ours";
              zenottasAddress := "zenotta"; daysToLock := (2 # 2)%Q;
              startBlockHeight := 100 |} in
  nth_error (@constructTxStage1Script Samples.mainnet i) 8 = Some (ArgNum 244)
  /\ @constructTxStage1Script Samples.mainnet j
     = @constructTxStage1Script Samples.mainnet i
  /\ @getLockTimeFromDays Samples.mainnet 1 100
     = Qfloor (1 * 86400 / 600) + 100.
Proof.
  intros i j.
  assert (Hb : 0 < @BTC_BLOCKTIME_SECS Samples.mainnet) by reflexivity.
  assert (Hs : sameScriptInputs i j)
    by (unfold sameScriptInputs; simpl; repeat split; reflexivity).
  destruct (@constructTxStage1Script_spec Samples.mainnet i j Hb Hs)
    as (Hi & Hj & Hw).
  split; [rewrite Hi; vm_compute; reflexivity |]. split; [exact Hj |].
  exact (Hw 1 ltac:(lia) ltac:(lia) (Qeq_refl _)
           ltac:(exists 144; reflexivity)).
Defined.

(** The lock time is not floor(daysToLock*86400 / BTC_BLOCKTIME_SECS) +
    startBlockHeight for every number of days. With ten-minute blocks and
    the days that [getLockTimeInDays] returns for 29 blocks, the code
    computes 29 blocks where the formula gives 28, whether the formula is
    evaluated exactly or in doubles; for 17/144 of a day, a literal that
    is read as the double below it, the code computes 16 blocks where the
    formula gives 17. *)
Lemma getLockTimeFromDays_off_by_one :
  let days := @getLockTimeInDays Samples.mainnet 29 in
  toDouble days = days
  /\ @getLockTimeFromDays Samples.mainnet days 0 = 29
  /\ Qfloor (days * 86400 / 600) + 0 = 28
  /\ Qfloor (fdiv (fmul days 86400) 600) + 0 = 28
  /\ @getLockTimeFromDays Samples.mainnet (17 # 144) 0 = 16
  /\ Qfloor ((17 # 144) * 86400 / 600) + 0 = 17.
Proof. vm_compute. repeat split. Qed.

(** The test [!fee] of [constructTransaction] is true of a fee of zero as
    of none. A fee of zero needs a fee rate of zero, a configuration the
    builder is not known to have: with that rate, one input of 1000
    satoshis and 500 satoshis to send, [calculateFee] returns the fee 0 and
    [constructTransaction] the error 'Not enough funds'. *)
Example constructTransaction_zero_rate :
  let reply := Resolved {| data_address := "ours";
                           txs := [ {| value := (1 # 100000)%Q;
                                       script_hex := "76a914";
                                       txid := "tx0"; output_no := 0 |} ] |} in
  @fetchInputsFromUtxo reply
    = Value {| inputs := [ {| utxo_address := "ours"; satoshis := 1000;
                              utxo_script := "76a914"; txId := "tx0";
                              outputIndex := 0 |} ];
               totalAmountAvailable := 1000 |}
  /\ @calculateFee Samples.zeroRate 0 1 500 1000 = Some 0
  /\ @constructTransaction Samples.zeroRate Samples.keysAsAddresses
       reply "ours" "their" 500
     = Failure (newError "Not enough funds").
Proof. vm_compute. repeat split. Qed.

(** With a positive fee, [constructTransaction] builds the transaction. *)
Example constructTransaction_positive_fee :
  let reply := Resolved {| data_address := "ours";
                           txs := [ {| value := (1 # 1000)%Q;
                                       script_hex := "76a914";
                                       txid := "tx0"; output_no := 0 |} ] |} in
  @calculateFee Samples.mainnet 20 1 500 100000 = Some 4460
  /\ exists t,
       @constructTransaction Samples.mainnet Samples.keysAsAddresses
         reply "ours" "their" 500 = Value t
       /\ tx_fee t = 89200.
Proof. vm_compute. split; [reflexivity | eexists; split; reflexivity]. Qed.

(** The 'Not enough funds' error of [constructTransaction] arises exactly
    when the computed fee is none or zero. *)
Lemma constructTransaction_not_enough_funds `{Constants} `{Bitcore}
    (d : SoChainData) (key : PrivateKey) (their : string) (amount : Z) :
  txs d <> [] ->
  let r := fold_left (collectUtxo (data_address d)) (txs d)
             {| inputs := []; totalAmountAvailable := 0 |} in
  let fee := calculateFee SATOSHI_PER_BYTE_PAYMENT
               (Z.of_nat (length (inputs r))) amount
               (totalAmountAvailable r) in
  constructTransaction (Resolved d) key their amount
    = Failure (newError "Not enough funds")
  <-> (fee = None \/ fee = Some 0).
Proof.
  intros Hne r fee. unfold constructTransaction, fetchInputsFromUtxo.
  fold r. 
  assert (Hlen : (length (inputs r) =? 0)%nat = false).
  { apply Nat.eqb_neq. subst r.
    assert (G : forall l acc, (length (inputs acc) <= length (inputs
                 (fold_left (collectUtxo (data_address d)) l acc)))%nat
              /\ (l <> [] -> (0 < length (inputs
                 (fold_left (collectUtxo (data_address d)) l acc)))%nat)).
    { induction l as [| x l IH]; intros acc; simpl.
      - split; [lia | congruence].
      - destruct (IH (collectUtxo (data_address d) acc x)) as [IH1 _].
        unfold collectUtxo in IH1 at 1. simpl in IH1.
        rewrite length_app in IH1. simpl in IH1.
        split; [lia | intros _; lia]. }
    destruct (G (txs d) {| inputs := []; totalAmountAvailable := 0 |})
      as [_ G2]. specialize (G2 Hne). lia. }
  rewrite Hlen. fold fee.
  destruct fee as [f |]; simpl.
  - destruct (Z.eqb_spec f 0) as [-> | Hf].
    + split; intros _; [right; reflexivity | reflexivity].
    + split; intros Hx; [discriminate Hx |].
      destruct Hx as [Hx | Hx]; [discriminate Hx | congruence].
  - split; intros _; [left; reflexivity | reflexivity].
Qed.

(** ** Mailbox request bodies *)

(** C8. For a fixed own address and key pair, the signatures of the get body,
    of the set body for any target and value, and of the delete body for any
    field are equal, and equal the signature of the own address under the
    caller's secret key. *)
Theorem intercom_signature_invariant `{External} (T : Type)
    (ownAddress target field : string) (keypair : IKeypair) (v : T) :
  get_signature (generateIntercomGetBody ownAddress keypair)
    = set_signature (generateIntercomSetBody target ownAddress keypair v)
  /\ set_signature (generateIntercomSetBody target ownAddress keypair v)
    = del_signature (generateIntercomDelBody ownAddress field keypair)
  /\ get_signature (generateIntercomGetBody ownAddress keypair)
    = hexEncode (createSignature (bytes (secretKey keypair))
                   (hexDecode ownAddress)).
Proof. repeat split. Qed.

(** The bodies of the mailbox tests: keys, fields and public key as the
    tests expect them. *)
Example intercom_bodies_of_tests :
  let kp := Samples.testKeypair in
  get_key (@generateIntercomGetBody Samples.world (address kp) kp)
    = address kp
  /\ get_publicKey (@generateIntercomGetBody Samples.world (address kp) kp)
    = "2304667047f9ac074b2b062b46557e3283a1661d8348b3d6323490b9c8ccf978"
  /\ set_key (@generateIntercomSetBody Samples.world _
                "address_to_send_data_to" (address kp) kp tt)
    = "address_to_send_data_to"
  /\ set_field (@generateIntercomSetBody Samples.world _
                  "address_to_send_data_to" (address kp) kp tt)
    = address kp
  /\ del_field (@generateIntercomDelBody Samples.world (address kp)
                  "address_that_placed_the_data" kp)
    = "address_that_placed_the_data".
Proof. vm_compute. repeat split. Qed.

(** ** The trade state machine *)

Section MachineProperties.
Context `{External}.

Lemma markedErrorInProgress_some (rt : Runtime) (a reason : string)
    (r : ITradeProgress) :
  progress (this rt) !! a = Some r ->
  markedErrorInProgress a reason rt
  = (Returns (newError reason),
     {| this := withProgress
                  (fun p => <[a := failureFields reason
                                     (clock (dateCount rt)) r]> p)
                  (this rt);
        nextRef := nextRef rt;
        dateCount := S (dateCount rt) |}).
Proof.
  intros Hr. unfold markedErrorInProgress, bind, getProgress, newDate.
  simpl. rewrite Hr. reflexivity.
Qed.

Lemma markedErrorInProgress_none (rt : Runtime) (a reason : string) :
  progress (this rt) !! a = None ->
  markedErrorInProgress a reason rt
  = (Throws (mkError TypeError assignUndefinedMessage),
     {| this := this rt; nextRef := nextRef rt;
        dateCount := S (dateCount rt) |}).
Proof.
  intros Hr. unfold markedErrorInProgress, bind, getProgress, newDate.
  simpl. rewrite Hr. reflexivity.
Qed.

Lemma failWith_some (T : Type) (rt : Runtime) (a reason : string)
    (r : ITradeProgress) :
  progress (this rt) !! a = Some r ->
  @failWith _ T a reason rt
  = (Returns (Failure (newError reason)),
     {| this := withProgress
                  (fun p => <[a := failureFields reason
                                     (clock (dateCount rt)) r]> p)
                  (this rt);
        nextRef := nextRef rt;
        dateCount := S (dateCount rt) |}).
Proof.
  intros Hr. unfold failWith, bind.
  rewrite (markedErrorInProgress_some _ _ _ _ Hr). reflexivity.
Qed.

Lemma failWith_none (T : Type) (rt : Runtime) (a reason : string) :
  progress (this rt) !! a = None ->
  @failWith _ T a reason rt
  = (Throws (mkError TypeError assignUndefinedMessage),
     {| this := this rt; nextRef := nextRef rt;
        dateCount := S (dateCount rt) |}).
Proof.
  intros Hr. unfold failWith, bind.
  rewrite (markedErrorInProgress_none _ _ _ Hr). reflexivity.
Qed.

Lemma advanceProgress_some (rt : Runtime) (a : string) (s : Z)
    (r : ITradeProgress) :
  progress (this rt) !! a = Some r ->
  advanceProgress a s rt
  = (Returns tt,
     {| this := withProgress
                  (fun p => <[a := stageFields s (clock (dateCount rt)) r]> p)
                  (this rt);
        nextRef := nextRef rt;
        dateCount := S (dateCount rt) |}).
Proof.
  intros Hr. unfold advanceProgress, bind, getProgress, newDate.
  simpl. rewrite Hr. reflexivity.
Qed.

Lemma advanceProgress_none (rt : Runtime) (a : string) (s : Z) :
  progress (this rt) !! a = None ->
  advanceProgress a s rt
  = (Throws (mkError TypeError assignUndefinedMessage),
     {| this := this rt; nextRef := nextRef rt;
        dateCount := S (dateCount rt) |}).
Proof.
  intros Hr. unfold advanceProgress, bind, getProgress, newDate.
  simpl. rewrite Hr. reflexivity.
Qed.

(** Whatever the record holds, the identity guard of [signFreshTest] fires:
    the array decoded from [ourAddress] is a new object, and no object that
    existed before the call is identical to it. *)
Lemma signFreshTest_guard_always_fires
    (get : Reply (gmap string IFreshTest)) (post : Reply unit)
    (kp : IKeypair) (their : string) (rt : Runtime) (r : ITradeProgress) :
  progress (this rt) !! their = Some r ->
  (ref (publicKey kp) < nextRef rt)%nat ->
  fst (signFreshTest get post kp their rt)
  = Returns (Failure (newError "Our address does not match our public key")).
Proof.
  intros Hr Hold. unfold signFreshTest, bind at 1, getProgress. simpl.
  rewrite Hr. unfold bind at 1, arrayFromHex, bind at 1, allocArray.
  cbn beta iota.
  assert (Hnew : objectsDiffer
                   (mkArray (S (nextRef rt)) (hexDecode (ourAddress r)))
                   (publicKey kp) = true).
  { unfold objectsDiffer. cbn [ref].
    destruct (Nat.eqb_spec (S (nextRef rt)) (ref (publicKey kp)));
      [lia | reflexivity]. }
  cbn [bytes this nextRef dateCount]. rewrite Hnew.
  erewrite failWith_some by (cbn [this]; exact Hr). reflexivity.
Qed.


(** C9. For an address with no progress record, [markedErrorInProgress]
    throws a TypeError instead of returning an Error, and so do the failure
    paths that mark an error for it: that of [getMempoolSignature], which
    marks the error under Zenotta's address, and those of [getTxStage1] and
    [getTxStage2Partial] for a counterparty without mailbox entry. No record
    is created. *)
Theorem markedErrorInProgress_without_record
    (rt : Runtime) (addr reason : string) :
  progress (this rt) !! addr = None ->
  let thrown (p : Completion (Result IClientResponse) * Runtime) :=
    fst p = Throws (mkError TypeError assignUndefinedMessage)
    /\ progress (this (snd p)) = progress (this rt) in
  (fst (markedErrorInProgress addr reason rt)
   = Throws (mkError TypeError assignUndefinedMessage)
   /\ progress (this (snd (markedErrorInProgress addr reason rt)))
      = progress (this rt))
  /\ (forall (data : gmap string IClientResponse) (ourAddr : string)
             (kp : IKeypair),
        data !! addr = None ->
        thrown (getMempoolSignature (Resolved data) addr ourAddr kp rt))
  /\ (forall (data : gmap string Transaction) (kp : IKeypair)
             (e : IBtcExpectations),
        data !! addr = None ->
        thrown (getTxStage1 (Resolved data) kp addr e rt))
  /\ (forall (data : gmap string Transaction) (kp : IKeypair)
             (ourSig : string),
        data !! addr = None ->
        thrown (getTxStage2Partial (Resolved data) addr kp ourSig rt)).
Proof.
  intros Hr thrown. subst thrown. cbv beta.
  split; [| split; [| split]].
  - rewrite (markedErrorInProgress_none _ _ _ Hr). split; reflexivity.
  - intros data ourAddr kp Hd.
    unfold getMempoolSignature. cbn [getIntercomData]. rewrite Hd.
    rewrite (failWith_none _ _ _ _ Hr). split; reflexivity.
  - intros data kp e Hd.
    unfold getTxStage1. cbn [getIntercomData]. rewrite Hd.
    rewrite (failWith_none _ _ _ _ Hr). split; reflexivity.
  - intros data kp ourSig Hd.
    unfold getTxStage2Partial. cbn [getIntercomData]. rewrite Hd.
    rewrite (failWith_none _ _ _ _ Hr). split; reflexivity.
Qed.

(** *** What one call does to one record *)

Lemma benign_ret {A : Type} (x : A) : benign (ret x).
Proof. intros rt. cbn. split; [reflexivity | lia]. Qed.

Lemma benign_throw {A : Type} (e : Error) : benign (@throw A e).
Proof. intros rt. cbn. split; [reflexivity | lia]. Qed.

Lemma benign_lift {A : Type} (c : Completion A) : benign (lift c).
Proof. intros rt. cbn. split; [reflexivity | lia]. Qed.

Lemma benign_newDate : benign newDate.
Proof. intros rt. cbn. split; [reflexivity | lia]. Qed.

Lemma benign_allocArray (bs : list Byte.byte) : benign (allocArray bs).
Proof. intros rt. cbn. split; [reflexivity | lia]. Qed.

Lemma benign_readThis {A : Type} (f : Bridge -> A) : benign (readThis f).
Proof. intros rt. cbn. split; [reflexivity | lia]. Qed.

Lemma benign_getProgress (b : string) : benign (getProgress b).
Proof. intros rt. cbn. split; [reflexivity | lia]. Qed.

Lemma benign_withMempoolKey (k : string) :
  benign (modifyThis (withMempoolKey k)).
Proof. intros rt. cbn. split; [reflexivity | lia]. Qed.

Lemma benign_withTxStage2 (t : Transaction) :
  benign (modifyThis (withTxStage2 t)).
Proof. intros rt. cbn. split; [reflexivity | lia]. Qed.

Lemma benign_bind {A B : Type} (m : M A) (k : A -> M B) :
  benign m -> (forall x, benign (k x)) -> benign (bind m k).
Proof.
  intros Hm Hk rt. unfold bind. destruct (Hm rt) as [Hp Hd].
  destruct (m rt) as [[x | e] rt1]; cbn [fst snd] in *.
  - destruct (Hk x rt1) as [Hp' Hd']. split; [congruence | lia].
  - split; [exact Hp | exact Hd].
Qed.

Lemma benign_arrayFromHex (s : string) : benign (arrayFromHex s).
Proof.
  apply benign_bind; [apply benign_allocArray |].
  intros x. apply benign_allocArray.
Qed.

Lemma benign_sign (sk : Uint8Array) (msg : string) : benign (sign sk msg).
Proof.
  unfold sign.
  repeat (apply benign_bind;
          [first [apply benign_arrayFromHex | apply benign_allocArray]
          | intros ?]).
  apply benign_ret.
Qed.

Lemma benign_verify (signature msg pk : string) :
  benign (verify signature msg pk).
Proof.
  unfold verify.
  repeat (apply benign_bind; [apply benign_arrayFromHex | intros ?]).
  apply benign_lift.
Qed.

Create HintDb benign.
#[local] Hint Resolve benign_ret benign_throw benign_lift benign_newDate
  benign_allocArray benign_readThis benign_getProgress benign_withMempoolKey
  benign_withTxStage2 benign_arrayFromHex benign_sign benign_verify : benign.

Section RecordStep.
Variables (a : string) (r : ITradeProgress) (rt0 : Runtime).

Lemma post_untouched (subj : option string) (st : option (string * Z))
    (out : Completion (Result IClientResponse)) (rt : Runtime) :
  untouched a r rt0 rt ->
  (reportsSuccess out = true -> forall k, st <> Some (a, k)) ->
  recordAfter a r rt0 subj st (out, rt).
Proof.
  intros [Hr _] Hs. exists r. cbn [fst snd]. split; [exact Hr |]. split.
  - intros Hok. split; [| reflexivity].
    intros k Hk. destruct (Hs Hok k Hk).
  - intros _. left. reflexivity.
Qed.

Lemma post_staged (subj : option string) (st : option (string * Z)) (k : Z)
    (out : Completion (Result IClientResponse)) (rt : Runtime) :
  staged a rt0 k rt ->
  st = Some (a, k) ->
  reportsSuccess out = true ->
  recordAfter a r rt0 subj st (out, rt).
Proof.
  intros (r' & n & Hr & Hk & Hn & Hl) -> Hok. exists r'. cbn [fst snd].
  split; [exact Hr |]. split.
  - intros _. split.
    + intros k' E. injection E as <-. split; [exact Hk |].
      exists n. split; assumption.
    + intros Hne. destruct (Hne k eq_refl).
  - intros Hno. rewrite Hok in Hno. discriminate Hno.
Qed.

Lemma post_failWith (st : option (string * Z)) (b reason : string)
    (rt : Runtime) :
  untouched a r rt0 rt ->
  recordAfter a r rt0 (Some b) st (failWith b reason rt).
Proof.
  intros [Hr Hn]. destruct (decide (b = a)) as [-> | Hne].
  - rewrite (failWith_some _ _ _ _ _ Hr).
    exists (failureFields reason (clock (dateCount rt)) r). cbn [fst snd this].
    split; [apply lookup_insert_eq |]. split.
    + intros Hok. discriminate Hok.
    + intros _. right. split; [reflexivity |].
      exists reason, (dateCount rt). auto.
  - destruct (progress (this rt) !! b) as [rb |] eqn:Hb.
    + rewrite (failWith_some _ _ _ _ _ Hb). apply post_untouched.
      * split; cbn [this dateCount progress withProgress]; [| lia].
        rewrite lookup_insert_ne by exact Hne. exact Hr.
      * intros Hok. discriminate Hok.
    + rewrite (failWith_none _ _ _ _ Hb). apply post_untouched.
      * split; cbn [this dateCount]; [exact Hr | lia].
      * intros Hok. discriminate Hok.
Qed.

(** The outcome of the stage update of [b]: the record of [a] is staged
    when [b] is [a], and untouched otherwise; the update throws only for an
    address without record. *)
Lemma advanceProgress_result (b : string) (k : Z) (rt : Runtime) :
  untouched a r rt0 rt ->
  match advanceProgress b k rt with
  | (Returns _, rt1) => if decide (b = a) then staged a rt0 k rt1 else untouched a r rt0 rt1
  | (Throws _, rt1) => untouched a r rt0 rt1 /\ b <> a
  end.
Proof.
  intros [Hr Hn]. destruct (decide (b = a)) as [-> | Hne].
  - rewrite (advanceProgress_some _ _ _ _ Hr).
    exists (stageFields k (clock (dateCount rt)) r), (dateCount rt).
    cbn [this progress withProgress].
    split; [apply lookup_insert_eq |]. auto.
  - destruct (progress (this rt) !! b) as [rb |] eqn:Hb.
    + rewrite (advanceProgress_some _ _ _ _ Hb).
      split; cbn [this dateCount progress withProgress]; [| lia].
      rewrite lookup_insert_ne by exact Hne. exact Hr.
    + rewrite (advanceProgress_none _ _ _ Hb).
      split; [| exact Hne]. split; cbn [this dateCount]; [exact Hr | lia].
Qed.

Lemma benign_untouched {A : Type} (m : M A) (rt : Runtime) :
  benign m -> untouched a r rt0 rt -> untouched a r rt0 (snd (m rt)).
Proof.
  intros Hm [Hr Hn]. destruct (Hm rt) as [Hp Hd]. split.
  - rewrite Hp. exact Hr.
  - lia.
Qed.

Lemma benign_staged {A : Type} (m : M A) (k : Z) (rt : Runtime) :
  benign m -> staged a rt0 k rt -> staged a rt0 k (snd (m rt)).
Proof.
  intros Hm (r' & n & Hr & Hrest). destruct (Hm rt) as [Hp _].
  exists r', n. rewrite Hp. auto.
Qed.


Lemma post_bind_benign {A : Type} (subj : option string) (st : option (string * Z)) (m : M A)
    (k : A -> M (Result IClientResponse)) (rt : Runtime) :
  benign m ->
  untouched a r rt0 rt ->
  (forall x rt1, untouched a r rt0 rt1 -> recordAfter a r rt0 subj st (k x rt1)) ->
  recordAfter a r rt0 subj st (bind m k rt).
Proof.
  intros Hm HU Hk. pose proof (benign_untouched m rt Hm HU) as HU1.
  unfold bind. destruct (m rt) as [[x | e] rt1]; cbn [snd] in HU1.
  - apply Hk. exact HU1.
  - apply post_untouched; [exact HU1 |]. intros Hok. discriminate Hok.
Qed.

Lemma post_of_thrown (subj : option string) (st : option (string * Z))
    (p : Completion (Result IClientResponse) * Runtime) :
  recordAfterOrThrown a r rt0 subj st p -> recordAfter a r rt0 subj st p.
Proof.
  destruct p as [[x | e] rt1]; cbn; [auto |].
  intros HU. apply post_untouched; [exact HU |]. intros Hok. discriminate Hok.
Qed.

(** The stage update of [b] followed by a continuation that only reports
    success. *)
Lemma advance_then_success (b : string) (k : Z)
    (cont : M (Result IClientResponse)) (rt : Runtime) :
  untouched a r rt0 rt ->
  benign cont ->
  (forall rt1, reportsSuccess (fst (cont rt1)) = true) ->
  recordAfterOrThrown a r rt0 (Some b) (Some (b, k))
    (bind (advanceProgress b k) (fun _ => cont) rt).
Proof.
  intros HU Hb Hok. pose proof (advanceProgress_result b k rt HU) as Hadv.
  unfold bind. destruct (advanceProgress b k rt) as [[[] | e] rt1].
  - specialize (Hok rt1).
    destruct (cont rt1) as [[x | e] rt2] eqn:Ec; cbn [fst] in Hok;
      [| discriminate Hok].
    cbn [recordAfterOrThrown]. destruct (decide (b = a)) as [-> | Hne].
    + apply post_staged with (k := k); [| reflexivity | exact Hok].
      pose proof (benign_staged cont k rt1 Hb Hadv) as HS.
      rewrite Ec in HS. exact HS.
    + apply post_untouched.
      * pose proof (benign_untouched cont rt1 Hb Hadv) as HU1.
        rewrite Ec in HU1. exact HU1.
      * intros _ k' E. injection E as E _. contradiction.
  - cbn [recordAfterOrThrown]. tauto.
Qed.

Lemma post_thenCatch {T : Type} (subj : option string) (st : option (string * Z)) (reply : Reply T)
    (onResolved : T -> M (Result IClientResponse))
    (onRejected : string -> M (Result IClientResponse)) (rt : Runtime) :
  untouched a r rt0 rt ->
  (forall t, recordAfterOrThrown a r rt0 subj st (onResolved t rt)) ->
  (forall msg rt1, untouched a r rt0 rt1 -> recordAfter a r rt0 subj st (onRejected msg rt1)) ->
  recordAfter a r rt0 subj st (thenCatch reply onResolved onRejected rt).
Proof.
  intros HU Hres Hrej. unfold thenCatch. destruct reply as [t | msg].
  - specialize (Hres t). destruct (onResolved t rt) as [[x | e] rt1];
      cbn [recordAfterOrThrown] in Hres; [exact Hres |].
    apply Hrej. exact Hres.
  - apply Hrej. exact HU.
Qed.


Ltac post_untouched_now :=
  apply post_untouched; [assumption | intros Hok; discriminate Hok].

Lemma post_sendFreshTest (post : Reply unit) (b : string) (kp : IKeypair)
    (rt : Runtime) :
  untouched a r rt0 rt -> recordAfter a r rt0 (Some b) (Some (b, 0)) (sendFreshTest post b kp rt).
Proof.
  intros HU. unfold sendFreshTest. apply post_thenCatch; [exact HU | |].
  - intros _. destruct HU as [Hr Hn].
    cbn [recordAfterOrThrown bind newDate setProgress modifyThis ret].
    destruct (decide (b = a)) as [-> | Hne].
    + apply post_staged with (k := 0); [| reflexivity | reflexivity].
      eexists _, (dateCount rt). cbn [this progress withProgress].
      split; [apply lookup_insert_eq |]. cbn. auto.
    + apply post_untouched.
      * split; cbn [this dateCount progress withProgress]; [| lia].
        rewrite lookup_insert_ne by exact Hne. exact Hr.
      * intros _ k E. injection E as E _. contradiction.
  - intros msg rt1 HU1. unfold ret. post_untouched_now.
Qed.

Lemma post_getMempoolKey (reply : Reply INetworkResponse) (force : bool)
    (rt : Runtime) :
  untouched a r rt0 rt -> recordAfter a r rt0 None None (getMempoolKey reply force rt).
Proof.
  intros HU. unfold getMempoolKey.
  apply post_bind_benign; [apply benign_readThis | exact HU |].
  intros key rt1 HU1. destruct (keyIsFalsy key || force).
  - apply post_thenCatch; [exact HU1 | |].
    + intros responseData. destruct (net_content responseData) as [c |].
      * cbn [recordAfterOrThrown bind modifyThis ret]. apply post_untouched.
        -- destruct HU1 as [Hr Hn]. split; cbn; assumption.
        -- intros _ k E. discriminate E.
      * cbn [recordAfterOrThrown ret]. post_untouched_now.
    + intros msg rt2 HU2. unfold ret. post_untouched_now.
  - unfold ret. apply post_untouched; [exact HU1 |].
    intros _ k E. discriminate E.
Qed.

Lemma post_signFreshTest (get : Reply (gmap string IFreshTest))
    (post : Reply unit) (kp : IKeypair) (b : string) (rt : Runtime) :
  untouched a r rt0 rt -> recordAfter a r rt0 (Some b) (Some (b, 1)) (signFreshTest get post kp b rt).
Proof.
  intros HU. unfold signFreshTest.
  apply post_bind_benign; [apply benign_getProgress | exact HU |].
  intros [rb |] rt1 HU1; [| unfold throw; post_untouched_now].
  apply post_bind_benign; [apply benign_arrayFromHex | exact HU1 |].
  intros decoded rt2 HU2.
  destruct (objectsDiffer decoded (publicKey kp));
    [apply post_failWith; exact HU2 |].
  destruct (getIntercomData get) as [intercomData | e];
    [| unfold ret; post_untouched_now].
  destruct (intercomData !! b) as [freshTest |];
    [| unfold ret; post_untouched_now].
  apply post_bind_benign; [apply benign_sign | exact HU2 |].
  intros signature rt3 HU3.
  apply post_thenCatch; [exact HU3 | |].
  - intros _. apply advance_then_success;
      [exact HU3 | apply benign_ret | reflexivity].
  - intros msg rt4 HU4. apply post_failWith. exact HU4.
Qed.

Lemma post_getFreshTestResponse (get : Reply (gmap string IFreshTest))
    (our : string) (kp : IKeypair) (b : string) (rt : Runtime) :
  untouched a r rt0 rt ->
  recordAfter a r rt0 (Some b) (Some (b, 2)) (getFreshTestResponse get our kp b rt).
Proof.
  intros HU. unfold getFreshTestResponse.
  destruct (getIntercomData get) as [intercomData | e];
    [| unfold ret; post_untouched_now].
  destruct (intercomData !! b) as [freshTest |];
    [| unfold ret; post_untouched_now].
  apply post_bind_benign; [apply benign_newDate | exact HU |].
  intros now rt1 HU1.
  apply post_bind_benign; [apply benign_getProgress | exact HU1 |].
  intros [rb |] rt2 HU2; [| unfold throw; post_untouched_now].
  apply post_bind_benign; [apply benign_readThis | exact HU2 |].
  intros timeout rt3 HU3.
  destruct (negb _); [apply post_failWith; exact HU3 |].
  destruct (truthySignature _) as [signature |];
    [| apply post_failWith; exact HU3].
  apply post_bind_benign; [apply benign_verify | exact HU3 |].
  intros [|] rt4 HU4; [| apply post_failWith; exact HU4].
  apply post_of_thrown. apply advance_then_success;
    [exact HU4 | apply benign_ret | reflexivity].
Qed.

Lemma post_getMempoolSignature (get : Reply (gmap string IClientResponse))
    (zen our : string) (kp : IKeypair) (rt : Runtime) :
  untouched a r rt0 rt -> recordAfter a r rt0 (Some zen) None
    (getMempoolSignature get zen our kp rt).
Proof.
  intros HU. unfold getMempoolSignature.
  destruct (getIntercomData get) as [intercomData | e];
    [| unfold ret; post_untouched_now].
  destruct (intercomData !! zen) as [signature |];
    [| apply post_failWith; exact HU].
  unfold ret. apply post_untouched; [exact HU |]. intros _ k E. discriminate E.
Qed.

Lemma post_sendTxStage1 (post : Reply unit) (b : string) (kp : IKeypair)
    (rt : Runtime) :
  untouched a r rt0 rt -> recordAfter a r rt0 (Some b) (Some (b, 3)) (sendTxStage1 post b kp rt).
Proof.
  intros HU. unfold sendTxStage1. apply post_thenCatch; [exact HU | |].
  - intros _. apply advance_then_success;
      [exact HU | apply benign_ret | reflexivity].
  - intros msg rt1 HU1. unfold ret. post_untouched_now.
Qed.

Lemma post_sendTxStage2Partial (post : Reply unit) (b : string)
    (kp : IKeypair) (rt : Runtime) :
  untouched a r rt0 rt -> recordAfter a r rt0 (Some b) (Some (b, 5)) (sendTxStage2Partial post b kp rt).
Proof.
  intros HU. unfold sendTxStage2Partial.
  apply post_thenCatch; [exact HU | |].
  - intros _. apply advance_then_success;
      [exact HU | apply benign_ret | reflexivity].
  - intros msg rt1 HU1. unfold ret. post_untouched_now.
Qed.

Lemma post_getTxStage1 (get : Reply (gmap string Transaction))
    (kp : IKeypair) (b : string) (e : IBtcExpectations) (rt : Runtime) :
  untouched a r rt0 rt -> recordAfter a r rt0 (Some b) (Some (b, 4)) (getTxStage1 get kp b e rt).
Proof.
  intros HU. unfold getTxStage1.
  destruct (getIntercomData get) as [intercomData | err];
    [| unfold ret; post_untouched_now].
  destruct (intercomData !! b) as [transaction |];
    [| apply post_failWith; exact HU].
  apply post_bind_benign; [apply benign_lift | exact HU |].
  intros inputScript rt1 HU1.
  apply post_bind_benign; [apply benign_lift | exact HU1 |].
  intros outputScript rt2 HU2.
  destruct inputScript as [inputScript |];
    [| apply post_failWith; exact HU2].
  destruct outputScript as [outputScript |];
    [| apply post_failWith; exact HU2].
  destruct (negb (interpreterVerify inputScript outputScript));
    [apply post_failWith; exact HU2 |].
  apply post_bind_benign; [apply benign_lift | exact HU2 |].
  intros met rt3 HU3.
  destruct (negb met); [apply post_failWith; exact HU3 |].
  apply post_of_thrown. apply advance_then_success;
    [exact HU3 | apply benign_ret | reflexivity].
Qed.

Lemma post_getTxStage2Partial (get : Reply (gmap string Transaction))
    (b : string) (kp : IKeypair) (ourSig : string) (rt : Runtime) :
  untouched a r rt0 rt ->
  recordAfter a r rt0 (Some b) (Some (b, 6)) (getTxStage2Partial get b kp ourSig rt).
Proof.
  intros HU. unfold getTxStage2Partial.
  destruct (getIntercomData get) as [intercomData | err];
    [| unfold ret; post_untouched_now].
  destruct (intercomData !! b) as [transaction |];
    [| apply post_failWith; exact HU].
  apply post_bind_benign; [apply benign_lift | exact HU |].
  intros [inputScript |] rt1 HU1; [| unfold throw; post_untouched_now].
  destruct (negb _); [apply post_failWith; exact HU1 |].
  apply post_of_thrown. apply advance_then_success; [exact HU1 | |].
  - apply benign_bind; [apply benign_withTxStage2 |].
    intros ?. apply benign_ret.
  - intros rt2. reflexivity.
Qed.

(** Every call leaves the record of [a] in one of the states of
    [recordAfter]. *)
Lemma post_run (c : Call) :
  progress (this rt0) !! a = Some r -> recordAfter a r rt0 (subjectOf c) (stageOf c) (run c rt0).
Proof.
  intros Hr. assert (HU : untouched a r rt0 rt0) by (split; [exact Hr | lia]).
  destruct c as [post b kp | reply force | get post kp b | get our kp b
                | get zen our kp | post b kp | get kp b e | post b kp
                | get b kp sig | | | ]; cbn [run stageOf subjectOf].
  - apply post_sendFreshTest. exact HU.
  - apply post_getMempoolKey. exact HU.
  - apply post_signFreshTest. exact HU.
  - apply post_getFreshTestResponse. exact HU.
  - apply post_getMempoolSignature. exact HU.
  - apply post_sendTxStage1. exact HU.
  - apply post_getTxStage1. exact HU.
  - apply post_sendTxStage2Partial. exact HU.
  - apply post_getTxStage2Partial. exact HU.
  - unfold sendTxStage3, ret. post_untouched_now.
  - unfold submitTxStage2, ret. post_untouched_now.
  - unfold submitTxStage4, ret. post_untouched_now.
Qed.

End RecordStep.


(** *** Which calls create a record *)

Section NoRecord.
Variable a : string.

Lemma keepsAbsent_benign {A : Type} (m : M A) : benign m -> keepsAbsent a m.
Proof. intros Hm rt Hr. destruct (Hm rt) as [Hp _]. rewrite Hp. exact Hr. Qed.

Lemma keepsAbsent_bind {A B : Type} (m : M A) (k : A -> M B) :
  keepsAbsent a m -> (forall x, keepsAbsent a (k x)) -> keepsAbsent a (bind m k).
Proof.
  intros Hm Hk rt Hr. unfold bind. specialize (Hm rt Hr).
  destruct (m rt) as [[x | e] rt1]; cbn [snd] in *.
  - apply Hk. exact Hm.
  - exact Hm.
Qed.

Lemma keepsAbsent_thenCatch {T A : Type} (reply : Reply T)
    (onResolved : T -> M A) (onRejected : string -> M A) :
  (forall t, keepsAbsent a (onResolved t)) ->
  (forall msg, keepsAbsent a (onRejected msg)) ->
  keepsAbsent a (thenCatch reply onResolved onRejected).
Proof.
  intros Hres Hrej rt Hr. unfold thenCatch. destruct reply as [t | msg].
  - specialize (Hres t rt Hr).
    destruct (onResolved t rt) as [[x | e] rt1]; cbn [snd] in *.
    + exact Hres.
    + apply Hrej. exact Hres.
  - apply Hrej. exact Hr.
Qed.

Lemma keepsAbsent_markedErrorInProgress (b reason : string) :
  keepsAbsent a (markedErrorInProgress b reason).
Proof.
  intros rt Hr. destruct (progress (this rt) !! b) as [rb |] eqn:Hb.
  - rewrite (markedErrorInProgress_some _ _ _ _ Hb).
    cbn [snd this progress withProgress].
    rewrite lookup_insert_ne; [exact Hr | congruence].
  - rewrite (markedErrorInProgress_none _ _ _ Hb). exact Hr.
Qed.

Lemma keepsAbsent_failWith {T : Type} (b reason : string) :
  keepsAbsent a (@failWith _ T b reason).
Proof.
  unfold failWith. apply keepsAbsent_bind.
  - apply keepsAbsent_markedErrorInProgress.
  - intros e. apply keepsAbsent_benign, benign_ret.
Qed.

Lemma keepsAbsent_advanceProgress (b : string) (k : Z) :
  keepsAbsent a (advanceProgress b k).
Proof.
  intros rt Hr. destruct (progress (this rt) !! b) as [rb |] eqn:Hb.
  - rewrite (advanceProgress_some _ _ _ _ Hb).
    cbn [snd this progress withProgress].
    rewrite lookup_insert_ne; [exact Hr | congruence].
  - rewrite (advanceProgress_none _ _ _ Hb). exact Hr.
Qed.

Lemma keepsAbsent_setProgress (b : string) (rb : ITradeProgress) :
  b <> a -> keepsAbsent a (setProgress b rb).
Proof.
  intros Hne rt Hr. cbn. rewrite lookup_insert_ne by exact Hne. exact Hr.
Qed.

Ltac absent_step :=
  first
    [ apply keepsAbsent_failWith
    | apply keepsAbsent_advanceProgress
    | apply keepsAbsent_benign; solve [auto with benign]
    | apply keepsAbsent_thenCatch; intros ?
    | apply keepsAbsent_bind; [| intros ?]
    | match goal with
      | |- keepsAbsent a (match ?x with _ => _ end) => destruct x
      end ].

(** Of all the calls, only a fresh test sent to [a] creates a record for
    [a]. *)
Lemma run_keeps_absent (c : Call) :
  (forall post kp, c <> SendFreshTest post a kp) ->
  keepsAbsent a (run c).
Proof.
  intros Hc.
  destruct c as [post b kp | reply force | get post kp b | get our kp b
                | get zen our kp | post b kp | get kp b e | post b kp
                | get b kp sig | | | ]; cbn [run].
  - unfold sendFreshTest. apply keepsAbsent_thenCatch.
    + intros _. apply keepsAbsent_bind; [absent_step | intros d].
      apply keepsAbsent_bind; [| intros ?; absent_step].
      apply keepsAbsent_setProgress. intros ->. exact (Hc post kp eq_refl).
    + intros msg. absent_step.
  - unfold getMempoolKey. repeat absent_step.
  - unfold signFreshTest. repeat absent_step.
  - unfold getFreshTestResponse. repeat absent_step.
  - unfold getMempoolSignature. repeat absent_step.
  - unfold sendTxStage1. repeat absent_step.
  - unfold getTxStage1. repeat absent_step.
  - unfold sendTxStage2Partial. repeat absent_step.
  - unfold getTxStage2Partial. repeat absent_step.
  - unfold sendTxStage3. absent_step.
  - unfold submitTxStage2. absent_step.
  - unfold submitTxStage4. absent_step.
Qed.

(** An address to which no fresh test is sent never receives a record. *)
Lemma runAll_keeps_absent (calls : list Call) (rt : Runtime) :
  Forall (fun c => forall post kp, c <> SendFreshTest post a kp) calls ->
  progress (this rt) !! a = None ->
  progress (this (runAll calls rt)) !! a = None.
Proof.
  intros Hall. revert rt.
  induction Hall as [| c calls Hc _ IH]; intros rt Hr; [exact Hr |].
  cbn [runAll fold_left]. apply IH. exact (run_keeps_absent c Hc rt Hr).
Qed.

End NoRecord.


(** C6, as the code has it. A call that reports success writes its own stage
    number into the record of its counterparty (sendFreshTest 0,
    signFreshTest 1, getFreshTestResponse 2, sendTxStage1 3, getTxStage1 4,
    sendTxStage2Partial 5, getTxStage2Partial 6) with a date read during the
    call, whatever the previous status was, so the status rises strictly
    when it was below that number; it leaves every other record as it was.
    A call that does not report success leaves a record as it was or, for
    the address it writes under, marks it failed: status null, the returned
    reason stored. No call removes a record. *)
Theorem run_writes_own_stage (c : Call) (rt : Runtime) (a : string)
    (r : ITradeProgress) :
  progress (this rt) !! a = Some r ->
  exists r',
    progress (this (snd (run c rt))) !! a = Some r'
    /\ (reportsSuccess (fst (run c rt)) = true ->
        (forall k, stageOf c = Some (a, k) ->
           status r' = Some k
           /\ (exists n, (dateCount rt <= n)%nat /\ lastEvent r' = clock n)
           /\ (forall s, status r = Some s -> s < k ->
                 exists s', status r' = Some s' /\ s < s'))
        /\ ((forall k, stageOf c <> Some (a, k)) -> r' = r))
    /\ (reportsSuccess (fst (run c rt)) = false ->
        r' = r
        \/ (subjectOf c = Some a
            /\ exists reason n,
                 (dateCount rt <= n)%nat
                 /\ r' = {| status := None;
                            lastEvent := clock n;
                            ourAddress := ourAddress r;
                            reasonForFailure := Some reason |}
                 /\ fst (run c rt) = Returns (Failure (newError reason)))).
Proof.
  intros Hr. destruct (post_run a r rt c Hr) as (r' & Hl & Hok & Hno).
  exists r'. split; [exact Hl |]. split.
  - intros Hs. destruct (Hok Hs) as [Hstage Hother]. split; [| exact Hother].
    intros k Hk. destruct (Hstage k Hk) as [Hst Hdate].
    split; [exact Hst |]. split; [exact Hdate |].
    intros s _ Hlt. exists k. split; [exact Hst | exact Hlt].
  - intros Hs. destruct (Hno Hs) as [Hsame | Hfail].
    + left. exact Hsame.
    + right. exact Hfail.
Qed.

(** C10. A fresh test that is sent replaces the whole record of the
    counterparty by status 0, the date of the call, the caller's address and
    no failure reason, whatever the record was; a fresh test that is not sent
    changes nothing; and no other call creates a record for an address that
    has none. *)
Theorem sendFreshTest_restarts :
  (forall (rt : Runtime) (their : string) (kp : IKeypair),
     sendFreshTest (Resolved tt) their kp rt
     = (Returns (Value (success "Fresh test sent" EmptyContent)),
        {| this := withProgress
                     (fun p => <[their := {| status := Some 0;
                                             lastEvent := clock (dateCount rt);
                                             ourAddress := address kp;
                                             reasonForFailure := None |}]> p)
                     (this rt);
           nextRef := nextRef rt;
           dateCount := S (dateCount rt) |}))
  /\ (forall (rt : Runtime) (their msg : string) (kp : IKeypair),
        sendFreshTest (Rejected msg) their kp rt
        = (Returns (Failure (newError msg)), rt))
  /\ (forall (c : Call) (rt : Runtime) (a : string),
        progress (this rt) !! a = None ->
        (forall post kp, c <> SendFreshTest post a kp) ->
        progress (this (snd (run c rt))) !! a = None).
Proof.
  split; [| split].
  - intros rt their kp. reflexivity.
  - intros rt their msg kp. reflexivity.
  - intros c rt a Hr Hc. exact (run_keeps_absent a c Hc rt Hr).
Qed.

End MachineProperties.

(** *** The checks of getTxStage1 *)

Section Stage1.
Context `{External}.

Lemma filterByAddress_complete (addr : string) (outputs : list Output) :
  Forall (fun o => out_script o <> None) outputs ->
  filterByAddress addr outputs
  = Returns (List.filter (scriptContains addr) outputs).
Proof.
  induction 1 as [| o outputs Ho _ IH]; [reflexivity |].
  cbn [filterByAddress List.filter]. unfold scriptContains at 1.
  destruct (out_script o) as [sc |]; [| congruence].
  rewrite IH. reflexivity.
Qed.

Lemma fold_left_satoshis (outputs : list Output) (z : Z) :
  fold_left (fun acc current => acc + out_satoshis current) outputs z
  = z + totalSatoshis outputs.
Proof.
  revert z. induction outputs as [| o outputs IH]; intros z;
    cbn [fold_left totalSatoshis fold_right].
  - lia.
  - rewrite IH. unfold totalSatoshis. lia.
Qed.

Lemma expectationsAreMetBtcTx_complete (tx : Transaction)
    (e : IBtcExpectations) :
  Forall (fun o => out_script o <> None) (tx_outputs tx) ->
  exists met,
    expectationsAreMetBtcTx tx e = Returns met
    /\ (met = true <->
        length (List.filter (scriptContains (exp_ourAddress e))
                  (tx_outputs tx)) = 1%nat
        /\ length (List.filter (scriptContains (exp_zenottasAddress e))
                     (tx_outputs tx)) = 1%nat
        /\ totalSatoshis (tx_outputs tx) = exp_amount e).
Proof.
  intros Hall. unfold expectationsAreMetBtcTx.
  rewrite !(filterByAddress_complete _ _ Hall), fold_left_satoshis.
  destruct (Z.eqb_spec (0 + totalSatoshis (tx_outputs tx)) (exp_amount e))
    as [Ea | Ea]; cbn [negb orb].
  - destruct (Nat.eqb_spec
                (length (List.filter (scriptContains (exp_ourAddress e))
                           (tx_outputs tx))) 1) as [Eo | Eo]; cbn [negb orb].
    + destruct (Nat.eqb_spec
                  (length (List.filter
                             (scriptContains (exp_zenottasAddress e))
                             (tx_outputs tx))) 1) as [Ez | Ez]; cbn [negb].
      * exists true. split; [reflexivity |]. split; [intros _ | reflexivity].
        repeat split; [exact Eo | exact Ez | lia].
      * exists false. split; [reflexivity |].
        split; [discriminate | intros (_ & Hz & _); contradiction].
    + exists false. split; [reflexivity |].
      split; [discriminate | intros (Ho & _); contradiction].
  - exists false. split; [reflexivity |].
    split; [discriminate | intros (_ & _ & Ha); lia].
Qed.

(** On a transaction that has a first input and outputs that all carry a
    script, [getTxStage1] sets status 4 exactly when the four checks hold,
    and marks the record failed with a reason otherwise. *)
Lemma getTxStage1_on_complete_transaction
    (data : gmap string Transaction) (kp : IKeypair) (their : string)
    (e : IBtcExpectations) (rt : Runtime) (r : ITradeProgress)
    (tx : Transaction) :
  progress (this rt) !! their = Some r ->
  data !! their = Some tx ->
  tx_inputs tx <> [] ->
  tx_outputs tx <> [] ->
  Forall (fun o => out_script o <> None) (tx_outputs tx) ->
  exists r',
    progress (this (snd (getTxStage1 (Resolved data) kp their e rt)))
      !! their = Some r'
    /\ (stage1Checks tx e ->
        fst (getTxStage1 (Resolved data) kp their e rt)
        = Returns (Value (success "Received first transaction stage"
                            (TransactionContent tx)))
        /\ status r' = Some 4)
    /\ (~ stage1Checks tx e ->
        status r' = None
        /\ exists reason,
             reasonForFailure r' = Some reason
             /\ fst (getTxStage1 (Resolved data) kp their e rt)
                = Returns (Failure (newError reason))).
Proof.
  intros Hr Hd Hin Hout Hall.
  destruct (expectationsAreMetBtcTx_complete tx e Hall)
    as (met & Hmet & Hiff).
  destruct (tx_inputs tx) as [| i ins] eqn:Ei; [congruence |].
  destruct (tx_outputs tx) as [| o outs] eqn:Eo; [congruence |].
  assert (Ho : exists so, out_script o = Some so).
  { inversion Hall as [| ? ? Hs _]; subst.
    destruct (out_script o) as [so |]; [eauto | congruence]. }
  destruct Ho as [so Hso].
  assert (Hchk : stage1Checks tx e
                 <-> (exists si, in_script i = Some si
                        /\ interpreterVerify si so = true)
                     /\ met = true).
  { unfold stage1Checks. rewrite Ei, Eo. cbn [head]. split.
    - intros ((i0 & si & o0 & so0 & Hi & Hsi & Ho & Hso0 & Hv) & Hrest).
      injection Hi as <-. injection Ho as <-.
      assert (so0 = so) by congruence. subst so0.
      split; [eauto | apply Hiff; exact Hrest].
    - intros ((si & Hsi & Hv) & Hm). split.
      + exists i, si, o, so. auto.
      + apply Hiff. exact Hm. }
  assert (Hfail : forall reason,
            ~ stage1Checks tx e ->
            let p := @failWith _ IClientResponse their reason rt in
            exists r',
              progress (this (snd p)) !! their = Some r'
              /\ (stage1Checks tx e ->
                  fst p = Returns
                            (Value (success "Received first transaction stage"
                                      (TransactionContent tx)))
                  /\ status r' = Some 4)
              /\ (~ stage1Checks tx e ->
                  status r' = None
                  /\ exists reason',
                       reasonForFailure r' = Some reason'
                       /\ fst p = Returns (Failure (newError reason')))).
  { intros reason Hno p. subst p. rewrite (failWith_some _ _ _ _ _ Hr).
    eexists. cbn [fst snd this progress withProgress].
    split; [apply lookup_insert_eq |]. split.
    - intros Hyes. destruct (Hno Hyes).
    - intros _. split; [reflexivity |]. eexists. split; reflexivity. }
  remember (getTxStage1 (Resolved data) kp their e rt) as p eqn:Hp.
  unfold getTxStage1 in Hp. cbn [getIntercomData] in Hp. rewrite Hd in Hp.
  unfold firstInputScript, firstOutputScript in Hp. rewrite Ei, Eo in Hp.
  unfold bind at 1, lift in Hp. cbn [fst snd] in Hp.
  unfold bind at 1 in Hp. cbn [fst snd] in Hp.
  rewrite Hso in Hp.
  destruct (in_script i) as [si |] eqn:Esi.
  - destruct (interpreterVerify si so) eqn:Ev; cbn [negb] in Hp.
    + unfold bind at 1 in Hp. rewrite Hmet in Hp.
      destruct met; cbn [negb] in Hp.
      * unfold bind at 1 in Hp.
        rewrite (advanceProgress_some _ _ _ _ Hr) in Hp.
        cbn [ret] in Hp. subst p.
        eexists. cbn [fst snd this progress withProgress].
        split; [apply lookup_insert_eq |]. split.
        -- intros _. split; reflexivity.
        -- intros Hno. exfalso. apply Hno. apply Hchk. eauto.
      * subst p. apply Hfail. intros Hyes. apply Hchk in Hyes.
        destruct Hyes as [_ Hm]. discriminate Hm.
    + subst p. apply Hfail. intros Hyes. apply Hchk in Hyes.
      destruct Hyes as [(si' & Hsi & Hv) _]. congruence.
  - subst p. apply Hfail. intros Hyes. apply Hchk in Hyes.
    destruct Hyes as [(si' & Hsi & _) _]. discriminate Hsi.
Qed.

End Stage1.

(** *** Closed instances *)

(** C2. A record whose [ourAddress] decodes to exactly the bytes of the
    caller's public key still fails the identity guard of [signFreshTest]:
    the operation returns 'Our address does not match our public key' and
    marks the record failed instead of fetching and signing the test. *)
Theorem signFreshTest_rejects_matching_key :
  let r := Samples.record (Some 0) Samples.keyAsAddress in
  let rt := Samples.runtimeWith r in
  let p := @signFreshTest Samples.world
             (Resolved {[ "their" := Samples.aFreshTest ]}) (Resolved tt)
             Samples.testKeypair "their" rt in
  hexDecode (ourAddress r) = bytes (publicKey Samples.testKeypair)
  /\ fst p = Returns (Failure (newError
                "Our address does not match our public key"))
  /\ progress (this (snd p)) !! "their"
     = Some {| status := None; lastEvent := 46800000;
               ourAddress := Samples.keyAsAddress;
               reasonForFailure :=
                 Some "Our address does not match our public key" |}.
Proof. vm_compute. repeat split. Qed.


(** C4. [getTxStage1] answers an incomplete transaction by throwing a
    TypeError, leaving the record as it was. For a transaction without
    inputs the record is not marked failed; for a transaction that passes
    the four checks but has a further output without script the status is
    not advanced to 4. *)
Theorem getTxStage1_throws_on_incomplete_transaction :
  let r := Samples.record (Some 3) "ours" in
  let get (tx : Transaction) :=
    @getTxStage1 Samples.world (Resolved {[ "their" := tx ]})
      Samples.testKeypair "their" Samples.expectations
      (Samples.runtimeWith r) in
  (fst (get Samples.noInputs) = Throws (mkError TypeError readUndefinedMessage)
   /\ progress (this (snd (get Samples.noInputs))) !! "their" = Some r)
  /\ (@stage1Checks Samples.world Samples.scriptlessOutput
        Samples.expectations
      /\ fst (get Samples.scriptlessOutput)
         = Throws (mkError TypeError readUndefinedMessage)
      /\ progress (this (snd (get Samples.scriptlessOutput))) !! "their"
         = Some r).
Proof.
  split; [vm_compute; split; reflexivity |].
  split; [| vm_compute; split; reflexivity].
  split.
  - eexists _, _, _, _. repeat split; reflexivity.
  - vm_compute. repeat split.
Qed.

(** C6, as stated, fails: on a record at status 6, [sendTxStage1] reports
    success and sets the status to 3. *)
Lemma sendTxStage1_lowers_status :
  let rt := Samples.runtimeWith (Samples.record (Some 6) "ours") in
  let p := @run Samples.world
             (SendTxStage1 (Resolved tt) "their" Samples.testKeypair) rt in
  reportsSuccess (fst p) = true
  /\ status <$> (progress (this rt) !! "their") = Some (Some 6)
  /\ status <$> (progress (this (snd p)) !! "their") = Some (Some 3)
  /\ ~ (6 < 3).
Proof. vm_compute. repeat split. intros E. discriminate E. Qed.

(** [sendTxStage1] on a record at status 2: the record is kept and carries
    status 3. *)
Lemma run_writes_own_stage_witness :
  exists r',
    progress (this (snd (@run Samples.world
       (SendTxStage1 (Resolved tt) "their" Samples.testKeypair)
       (Samples.runtimeWith (Samples.record (Some 2) "ours")))))
      !! "their" = Some r'
    /\ status r' = Some 3.
Proof.
  destruct (@run_writes_own_stage Samples.world
              (SendTxStage1 (Resolved tt) "their" Samples.testKeypair)
              (Samples.runtimeWith (Samples.record (Some 2) "ours"))
              "their" (Samples.record (Some 2) "ours") eq_refl)
    as (r' & Hl & Hok & _).
  exists r'. split; [exact Hl |].
  destruct (Hok eq_refl) as [Hstage _].
  exact (proj1 (Hstage 3 eq_refl)).
Defined.

(** On a new bridge, the failure path of [getMempoolSignature] throws. *)
Lemma markedErrorInProgress_without_record_witness :
  fst (@getMempoolSignature Samples.world (Resolved ∅) "zenotta" "ours"
         Samples.testKeypair Samples.emptyRuntime)
  = Throws (mkError TypeError assignUndefinedMessage)
  /\ progress (this (snd (@getMempoolSignature Samples.world (Resolved ∅)
                            "zenotta" "ours" Samples.testKeypair
                            Samples.emptyRuntime)))
     = progress (this Samples.emptyRuntime).
Proof.
  exact (proj1 (proj2 (@markedErrorInProgress_without_record Samples.world
                         Samples.emptyRuntime "zenotta" "no signature"
                         eq_refl))
           ∅ "ours" Samples.testKeypair eq_refl).
Defined.

(** A fresh test sent to a counterparty whose record is marked failed
    starts the record anew. *)
Example sendFreshTest_on_failed_record :
  let failed := {| status := None; lastEvent := 5; ourAddress := "old";
                   reasonForFailure := Some "Invalid transaction TxA" |} in
  progress (this (snd (@sendFreshTest Samples.world (Resolved tt) "their"
                         Samples.testKeypair (Samples.runtimeWith failed))))
    !! "their"
  = Some {| status := Some 0; lastEvent := 46800000;
            ourAddress := address Samples.testKeypair;
            reasonForFailure := None |}.
Proof. vm_compute. reflexivity. Qed.

(** On a new bridge, sending the first transaction stage creates no
    record. *)
Lemma sendFreshTest_restarts_witness :
  progress (this (snd (@run Samples.world
     (SendTxStage1 (Resolved tt) "their" Samples.testKeypair)
     Samples.emptyRuntime))) !! "their" = None.
Proof.
  apply (proj2 (proj2 (@sendFreshTest_restarts Samples.world))).
  - reflexivity.
  - intros post kp E. discriminate E.
Defined.

(* ====================================================================== *)
(** * Further properties of the Bitcoin builder *)
(* ====================================================================== *)

Section MoreBuilderProperties.
Context `{Constants} `{Bitcore}.

Lemma fold_collectUtxo (address : string) (l : list SoChainTx)
    (acc : IFetchBtcUtxoResponse) :
  fold_left (collectUtxo address) l acc
  = {| inputs := (inputs acc ++ map (utxoOf address) l)%list;
       totalAmountAvailable :=
         totalAmountAvailable acc + sumSatoshis (map (utxoOf address) l) |}.
Proof.
  revert acc. induction l as [| x l IH]; intros acc.
  - cbn [fold_left map sumSatoshis fold_right]. rewrite app_nil_r.
    destruct acc as [i t]. cbn [inputs totalAmountAvailable]. f_equal. lia.
  - cbn [fold_left]. rewrite IH. unfold collectUtxo at 1 2.
    cbn [inputs totalAmountAvailable map sumSatoshis fold_right satoshis].
    rewrite <- app_assoc. cbn [app]. f_equal. unfold utxoOf at 2.
    cbn [satoshis]. fold (sumSatoshis (map (utxoOf address) l)). lia.
Qed.

(** X1. The loop of [fetchInputsFromUtxo] yields one input per entry of the
    reply, in the reply's order, each under the address of the reply, and
    the total it returns is the sum of the satoshis of these inputs; a
    rejected request yields an Error with the rejection's message. *)
Theorem fetchInputsFromUtxo_inputs_and_total (d : SoChainData) (msg : string) :
  (exists r,
     fetchInputsFromUtxo (Resolved d) = Value r
     /\ inputs r = map (utxoOf (data_address d)) (txs d)
     /\ length (inputs r) = length (txs d)
     /\ Forall (fun u => utxo_address u = data_address d) (inputs r)
     /\ totalAmountAvailable r = sumSatoshis (inputs r))
  /\ fetchInputsFromUtxo (Rejected msg) = Failure (newError msg).
Proof.
  split; [| reflexivity].
  unfold fetchInputsFromUtxo. rewrite fold_collectUtxo.
  eexists. split; [reflexivity |]. cbn [inputs totalAmountAvailable app].
  repeat split.
  - apply length_map.
  - induction (txs d) as [| x l IH]; cbn [map]; constructor;
      [reflexivity | exact IH].
Qed.

(** X2. With more funds available, or less to send, a fee calculation that
    succeeded still succeeds, with the same fee. *)
Theorem calculateFee_more_funds
    (rate inputCount send send' total total' fee : Z) :
  calculateFee rate inputCount send total = Some fee ->
  send' <= send ->
  total <= total' ->
  calculateFee rate inputCount send' total' = Some fee
  /\ fee = rate * txSizeOf inputCount.
Proof.
  unfold calculateFee, txSizeOf. intros Hf Hs Ht.
  destruct (Z.ltb_spec
              (total - send
               - rate * (inputCount * INPUT_SIZE + OUTPUT_SIZE + 10
                         - inputCount)) 0) as [Hlt | Hge];
    [discriminate Hf |].
  injection Hf as <-.
  destruct (Z.ltb_spec
              (total' - send'
               - rate * (inputCount * INPUT_SIZE + OUTPUT_SIZE + 10
                         - inputCount)) 0) as [Hlt' | _]; [lia |].
  split; reflexivity.
Qed.

(** X3. For a non-negative fee rate and inputs of at least one byte, a
    transaction with fewer inputs is never dearer: when the fee of the
    larger input count is affordable, so is that of the smaller one, and it
    is at most as high. *)
Theorem calculateFee_fewer_inputs (rate n n' send total fee' : Z) :
  0 <= rate ->
  1 <= INPUT_SIZE ->
  n <= n' ->
  calculateFee rate n' send total = Some fee' ->
  exists fee, calculateFee rate n send total = Some fee /\ fee <= fee'.
Proof.
  unfold calculateFee. intros Hr Hi Hn Hf.
  destruct (Z.ltb_spec
              (total - send
               - rate * (n' * INPUT_SIZE + OUTPUT_SIZE + 10 - n')) 0)
    as [Hlt | Hge]; [discriminate Hf |].
  injection Hf as <-.
  assert (Hsize : n * INPUT_SIZE + OUTPUT_SIZE + 10 - n
                  <= n' * INPUT_SIZE + OUTPUT_SIZE + 10 - n') by nia.
  assert (Hfee : rate * (n * INPUT_SIZE + OUTPUT_SIZE + 10 - n)
                 <= rate * (n' * INPUT_SIZE + OUTPUT_SIZE + 10 - n'))
    by (apply Z.mul_le_mono_nonneg_l; assumption).
  destruct (Z.ltb_spec
              (total - send
               - rate * (n * INPUT_SIZE + OUTPUT_SIZE + 10 - n)) 0)
    as [Hlt' | _]; [lia |].
  eexists. split; [reflexivity | exact Hfee].
Qed.

(** X4. A transaction that [constructTransaction] returns spends every
    fetched input, pays the requested amount to the given address and the
    change to the key's own address; the fee that passed the funds test is
    not zero and fits the funds together with the amount, while the fee set
    on the transaction is twenty times that fee. *)
Theorem constructTransaction_built (reply : Reply SoChainData)
    (key : PrivateKey) (their : string) (amount : Z) (t : TxBuild) :
  constructTransaction reply key their amount = Value t ->
  exists d fee,
    reply = Resolved d
    /\ txs d <> []
    /\ tx_from t = map (utxoOf (data_address d)) (txs d)
    /\ tx_to t = (their, amount)
    /\ tx_change t = addressOfPrivateKey key
    /\ tx_signedWith t = key
    /\ calculateFee SATOSHI_PER_BYTE_PAYMENT (Z.of_nat (length (txs d)))
         amount (sumSatoshis (tx_from t)) = Some fee
    /\ fee <> 0
    /\ amount + fee <= sumSatoshis (tx_from t)
    /\ tx_fee t = fee * 20.
Proof.
  unfold constructTransaction. destruct reply as [d | msg];
    [| intros Hx; discriminate Hx].
  unfold fetchInputsFromUtxo. rewrite fold_collectUtxo.
  cbn [inputs totalAmountAvailable app]. rewrite length_map.
  destruct (txs d) as [| x l] eqn:Et;
    [intros Hx; discriminate Hx |].
  rewrite <- Et. replace (0 + sumSatoshis (map (utxoOf (data_address d)) (txs d)))
    with (sumSatoshis (map (utxoOf (data_address d)) (txs d))) by lia.
  assert (Hlen : (length (txs d) =? 0)%nat = false)
    by (rewrite Et; reflexivity).
  rewrite Hlen.
  destruct (calculateFee SATOSHI_PER_BYTE_PAYMENT (Z.of_nat (length (txs d)))
              amount (sumSatoshis (map (utxoOf (data_address d)) (txs d))))
    as [fee |] eqn:Ef; cbn [feeIsFalsy]; [| intros Hx; discriminate Hx].
  destruct (Z.eqb_spec fee 0) as [-> | Hne]; [intros Hx; discriminate Hx |].
  intros Hx. injection Hx as <-. exists d, fee.
  cbn [tx_from tx_to tx_change tx_signedWith tx_fee].
  repeat split; try reflexivity.
  - rewrite Et. discriminate.
  - exact Ef.
  - exact Hne.
  - unfold calculateFee in Ef.
    destruct (Z.ltb_spec
                (sumSatoshis (map (utxoOf (data_address d)) (txs d)) - amount
                 - SATOSHI_PER_BYTE_PAYMENT
                   * (Z.of_nat (length (txs d)) * INPUT_SIZE + OUTPUT_SIZE
                      + 10 - Z.of_nat (length (txs d)))) 0)
      as [Hlt | Hge]; [discriminate Ef |].
    injection Ef as <-. lia.
Qed.

(** With a positive fee rate, inputs of at least one byte and a
    non-negative output size, the fee of a transaction with inputs is not
    zero, and the 'Not enough funds' error arises exactly when the fee is
    none. *)
Lemma constructTransaction_fails_iff_none
    (d : SoChainData) (key : PrivateKey) (their : string) (amount : Z) :
  0 < SATOSHI_PER_BYTE_PAYMENT ->
  1 <= INPUT_SIZE ->
  0 <= OUTPUT_SIZE ->
  txs d <> [] ->
  let fee := calculateFee SATOSHI_PER_BYTE_PAYMENT
               (Z.of_nat (length (txs d))) amount
               (sumSatoshis (map (utxoOf (data_address d)) (txs d))) in
  fee <> Some 0
  /\ (constructTransaction (Resolved d) key their amount
        = Failure (newError "Not enough funds")
      <-> fee = None).
Proof.
  intros Hr Hi Ho Hne fee.
  set (n := Z.of_nat (length (txs d))) in *.
  assert (Hn : 1 <= n).
  { subst n. destruct (txs d); [congruence | cbn [length]; lia]. }
  assert (Hsize : 0 < txSizeOf n) by (unfold txSizeOf; nia).
  assert (Hpos : 0 < SATOSHI_PER_BYTE_PAYMENT * txSizeOf n) by nia.
  pose proof (constructTransaction_not_enough_funds d key their amount Hne)
    as Hiff. cbv zeta in Hiff. rewrite fold_collectUtxo in Hiff.
  cbn [inputs totalAmountAvailable app] in Hiff.
  rewrite length_map in Hiff.
  replace (0 + sumSatoshis (map (utxoOf (data_address d)) (txs d)))
    with (sumSatoshis (map (utxoOf (data_address d)) (txs d))) in Hiff by lia.
  fold n in Hiff. fold fee in Hiff.
  assert (Hno0 : fee <> Some 0).
  { subst fee. unfold calculateFee. fold (txSizeOf n).
    destruct (_ <? 0); [discriminate |]. intros E. injection E as E. lia. }
  split; [exact Hno0 |].
  rewrite Hiff. split; [intros [E | E]; [exact E | contradiction] | auto].
Qed.

(** X5. With a positive fee rate, inputs of at least one byte and a
    non-negative output size, the fee of a transaction with inputs is
    positive; [constructTransaction] then answers 'Not enough funds'
    exactly when [calculateFee] returns none, that is when the funds do not
    cover the amount and the fee. *)
Theorem constructTransaction_not_enough_funds_positive_rate
    (d : SoChainData) (key : PrivateKey) (their : string) (amount : Z) :
  0 < SATOSHI_PER_BYTE_PAYMENT ->
  1 <= INPUT_SIZE ->
  0 <= OUTPUT_SIZE ->
  txs d <> [] ->
  let us := map (utxoOf (data_address d)) (txs d) in
  let n := Z.of_nat (length (txs d)) in
  0 < SATOSHI_PER_BYTE_PAYMENT * txSizeOf n
  /\ (constructTransaction (Resolved d) key their amount
        = Failure (newError "Not enough funds")
      <-> calculateFee SATOSHI_PER_BYTE_PAYMENT n amount (sumSatoshis us)
          = None)
  /\ (constructTransaction (Resolved d) key their amount
        = Failure (newError "Not enough funds")
      <-> sumSatoshis us < amount + SATOSHI_PER_BYTE_PAYMENT * txSizeOf n).
Proof.
  intros Hr Hi Ho Hne us n.
  assert (Hn : 1 <= n).
  { subst n. destruct (txs d); [congruence | cbn [length]; lia]. }
  assert (Hsize : 0 < txSizeOf n) by (unfold txSizeOf; nia).
  assert (Hpos : 0 < SATOSHI_PER_BYTE_PAYMENT * txSizeOf n) by nia.
  destruct (constructTransaction_fails_iff_none d key their amount
              Hr Hi Ho Hne) as [_ Hiff].
  fold us in Hiff. fold n in Hiff.
  split; [exact Hpos |]. split; [exact Hiff |].
  rewrite Hiff. unfold calculateFee. fold (txSizeOf n).
  destruct (Z.ltb_spec
              (sumSatoshis us - amount
               - SATOSHI_PER_BYTE_PAYMENT * txSizeOf n) 0) as [Hlt | Hge].
  - split; [intros _; lia | auto].
  - split; [intros E; discriminate E | lia].
Qed.




End MoreBuilderProperties.

Section LockTime.
Context `{Constants}.

(** X7. For a positive block time the lock time never precedes the start
    height when the days are not negative, does not decrease when the days
    grow, and moves with the start height. *)
Theorem getLockTimeFromDays_order (d d' : Q) (h k : Z) :
  0 < BTC_BLOCKTIME_SECS ->
  (0 <= d)%Q ->
  (d <= d')%Q ->
  h <= getLockTimeFromDays d h
  /\ getLockTimeFromDays d h <= getLockTimeFromDays d' h
  /\ getLockTimeFromDays d (h + k) = getLockTimeFromDays d h + k.
Proof.
  intros Hb H0 Hle.
  pose proof (toDouble_pos_Z _ Hb) as Hq.
  unfold getLockTimeFromDays. repeat split.
  - assert (Hf : Qfloor 0 <= Qfloor
                   (fdiv (fmul (fmul (fmul (toDouble d) 24) 60) 60)
                      (toDouble (inject_Z BTC_BLOCKTIME_SECS)))).
    { apply Qfloor_resp_le. apply fdiv_nonneg; [| exact Hq].
      repeat (apply fmul_nonneg; [| discriminate]).
      apply toDouble_nonneg. exact H0. }
    change (Qfloor 0) with 0 in Hf. lia.
  - apply Z.add_le_mono_r. apply Qfloor_resp_le.
    apply fdiv_mono; [| exact Hq].
    repeat (apply fmul_mono; [| discriminate]).
    apply toDouble_mono. exact Hle.
  - lia.
Qed.

End LockTime.

(* ====================================================================== *)
(** * Further properties of the expectation check *)
(* ====================================================================== *)

Section MoreStage1.
Context `{External}.

Lemma filterByAddress_throws (addr : string) (outputs : list Output) :
  Exists (fun o => out_script o = None) outputs ->
  filterByAddress addr outputs
  = Throws (mkError TypeError readUndefinedMessage).
Proof.
  induction 1 as [o outputs Ho | o outputs _ IH]; cbn [filterByAddress].
  - rewrite Ho. reflexivity.
  - destruct (out_script o); [rewrite IH |]; reflexivity.
Qed.

Lemma scripts_all_or_missing (outputs : list Output) :
  Forall hasScript outputs
  \/ Exists (fun o => out_script o = None) outputs.
Proof.
  induction outputs as [| o outputs [IH | IH]].
  - left. constructor.
  - destruct (out_script o) as [sc |] eqn:Eo.
    + left. constructor; [unfold hasScript; congruence | exact IH].
    + right. apply Exists_cons_hd. exact Eo.
  - right. apply Exists_cons_tl. exact IH.
Qed.

(** X8. [expectationsAreMetBtcTx] throws a TypeError as soon as one output
    has no script; when every output has one it returns true exactly when
    one output names our address, one names Zenotta's and the outputs add
    up to the expected amount; for a transaction without outputs it returns
    false. *)
Theorem expectationsAreMetBtcTx_outcome (tx : Transaction)
    (e : IBtcExpectations) :
  (Exists (fun o => out_script o = None) (tx_outputs tx) ->
   expectationsAreMetBtcTx tx e
   = Throws (mkError TypeError readUndefinedMessage))
  /\ (Forall hasScript (tx_outputs tx) ->
      exists met,
        expectationsAreMetBtcTx tx e = Returns met
        /\ (met = true <->
            length (List.filter (scriptContains (exp_ourAddress e))
                      (tx_outputs tx)) = 1%nat
            /\ length (List.filter (scriptContains (exp_zenottasAddress e))
                         (tx_outputs tx)) = 1%nat
            /\ totalSatoshis (tx_outputs tx) = exp_amount e))
  /\ (tx_outputs tx = [] -> expectationsAreMetBtcTx tx e = Returns false).
Proof.
  split; [| split].
  - intros Hex. unfold expectationsAreMetBtcTx.
    rewrite (filterByAddress_throws _ _ Hex). reflexivity.
  - intros Hall. exact (expectationsAreMetBtcTx_complete tx e Hall).
  - intros Hnil. unfold expectationsAreMetBtcTx. rewrite Hnil.
    cbn [filterByAddress fold_left length].
    destruct (0 =? exp_amount e); reflexivity.
Qed.

Lemma filter_length_permutation {A : Type} (f : A -> bool) (l l' : list A) :
  Permutation l l' ->
  length (List.filter f l) = length (List.filter f l').
Proof.
  induction 1 as [| x l l' _ IH | x y l | l l' l'' _ IH1 _ IH2].
  - reflexivity.
  - cbn [List.filter]. destruct (f x); cbn [length]; lia.
  - cbn [List.filter]. destruct (f x), (f y); reflexivity.
  - lia.
Qed.

Lemma totalSatoshis_permutation (l l' : list Output) :
  Permutation l l' -> totalSatoshis l = totalSatoshis l'.
Proof.
  unfold totalSatoshis.
  induction 1 as [| x l l' _ IH | x y l | l l' l'' _ IH1 _ IH2];
    cbn [fold_right]; lia.
Qed.

(** X9. The outcome of [expectationsAreMetBtcTx] depends neither on the
    order of the outputs nor on the inputs of the transaction. *)
Theorem expectationsAreMetBtcTx_permutation (tx tx' : Transaction)
    (e : IBtcExpectations) :
  Permutation (tx_outputs tx) (tx_outputs tx') ->
  expectationsAreMetBtcTx tx e = expectationsAreMetBtcTx tx' e.
Proof.
  intros Hp. unfold expectationsAreMetBtcTx.
  destruct (scripts_all_or_missing (tx_outputs tx)) as [Hall | Hex].
  - assert (Hall' : Forall hasScript (tx_outputs tx')).
    { apply List.Forall_forall. intros o Ho.
      rewrite List.Forall_forall in Hall. apply Hall.
      apply (Permutation_in o (Permutation_sym Hp) Ho). }
    rewrite !(filterByAddress_complete _ _ Hall).
    rewrite !(filterByAddress_complete _ _ Hall').
    rewrite !fold_left_satoshis.
    rewrite (totalSatoshis_permutation _ _ Hp).
    rewrite (filter_length_permutation
               (scriptContains (exp_ourAddress e)) _ _ Hp).
    rewrite (filter_length_permutation
               (scriptContains (exp_zenottasAddress e)) _ _ Hp).
    reflexivity.
  - assert (Hex' : Exists (fun o => out_script o = None) (tx_outputs tx')).
    { apply List.Exists_exists in Hex. destruct Hex as (o & Ho & Hn).
      apply List.Exists_exists. exists o. split; [| exact Hn].
      apply (Permutation_in o Hp Ho). }
    rewrite (filterByAddress_throws _ _ Hex).
    rewrite (filterByAddress_throws _ _ Hex'). reflexivity.
Qed.

End MoreStage1.

(* ====================================================================== *)
(** * Further properties of the trade state machine *)
(* ====================================================================== *)

Section MoreMachineProperties.
Context `{External}.

(** ** The fresh test response *)

Lemma verify_outcome (signature msg pk : string) (rt : Runtime) :
  verify signature msg pk rt
  = (naclVerify (hexDecode msg) (hexDecode signature) (hexDecode pk),
     {| this := this rt;
        nextRef := S (S (S (S (S (S (nextRef rt))))));
        dateCount := dateCount rt |}).
Proof. reflexivity. Qed.

(** What [getFreshTestResponse] does once the record and the mailbox entry
    are there and the response is in time. *)
Lemma getFreshTestResponse_in_time_cases
    (data : gmap string IFreshTest) (ourAddr : string) (kp : IKeypair)
    (their : string) (ft : IFreshTest) (rt : Runtime) (r : ITradeProgress) :
  progress (this rt) !! their = Some r ->
  data !! their = Some ft ->
  (formatMillisecondsToHours (clock (dateCount rt) - lastEvent r)
   <= toDouble (freshTestResponseTimeout (this rt)))%Q ->
  let p := getFreshTestResponse (Resolved data) ourAddr kp their rt in
  let after := progress (this (snd p)) !! their in
  let stamp := clock (S (dateCount rt)) in
  match truthySignature (ft_signature ft) with
  | None =>
      fst p = Returns (Failure (newError "Fresh test signature not found"))
      /\ after = Some (failureFields "Fresh test signature not found" stamp r)
  | Some s =>
      match naclVerify (hexDecode (ft_message ft)) (hexDecode s)
              (hexDecode (ft_publicKey ft)) with
      | Returns true =>
          fst p = Returns (Value (success
                    "Fresh test signed by other party successfully"
                    EmptyContent))
          /\ after = Some (stageFields 2 stamp r)
      | Returns false =>
          fst p = Returns (Failure (newError "Signature verification failed"))
          /\ after = Some (failureFields "Signature verification failed"
                             stamp r)
      | Throws e => fst p = Throws e /\ after = Some r
      end
  end.
Proof.
  intros Hr Hd Hin p after stamp. subst after stamp.
  assert (Hp : p = getFreshTestResponse (Resolved data) ourAddr kp their rt)
    by reflexivity. clearbody p.
  unfold getFreshTestResponse in Hp. cbn [getIntercomData] in Hp.
  rewrite Hd in Hp. unfold bind at 1, newDate in Hp. cbn [fst snd] in Hp.
  unfold bind at 1, getProgress in Hp. cbn [this progress] in Hp.
  rewrite Hr in Hp. unfold bind at 1, readThis in Hp.
  cbn [this freshTestResponseTimeout] in Hp.
  apply Qle_bool_iff in Hin. rewrite Hin in Hp. cbn [negb] in Hp.
  destruct (truthySignature (ft_signature ft)) as [s |].
  - unfold bind at 1 in Hp. rewrite verify_outcome in Hp.
    destruct (naclVerify _ _ _) as [[|] | e].
    + unfold bind at 1 in Hp.
      erewrite advanceProgress_some in Hp by (cbn [this]; exact Hr). cbn [ret] in Hp.
      subst p. cbn [fst snd this progress withProgress dateCount].
      split; [reflexivity | apply lookup_insert_eq].
    + erewrite failWith_some in Hp by (cbn [this]; exact Hr).
      subst p. cbn [fst snd this progress withProgress dateCount].
      split; [reflexivity | apply lookup_insert_eq].
    + subst p. cbn [fst snd this]. split; [reflexivity | exact Hr].
  - erewrite failWith_some in Hp by (cbn [this]; exact Hr).
    subst p. cbn [fst snd this progress withProgress dateCount].
    split; [reflexivity | apply lookup_insert_eq].
Qed.

Lemma getFreshTestResponse_late
    (data : gmap string IFreshTest) (ourAddr : string) (kp : IKeypair)
    (their : string) (ft : IFreshTest) (rt : Runtime) (r : ITradeProgress) :
  progress (this rt) !! their = Some r ->
  data !! their = Some ft ->
  (toDouble (freshTestResponseTimeout (this rt))
   < formatMillisecondsToHours (clock (dateCount rt) - lastEvent r))%Q ->
  fst (getFreshTestResponse (Resolved data) ourAddr kp their rt)
  = Returns (Failure (newError "Fresh test response timed out")).
Proof.
  intros Hr Hd Hlate. unfold getFreshTestResponse. cbn [getIntercomData].
  rewrite Hd. unfold bind at 1, newDate. cbn [fst snd].
  unfold bind at 1, getProgress. cbn [this progress]. rewrite Hr.
  unfold bind at 1, readThis. cbn [this freshTestResponseTimeout].
  destruct (Qle_bool _ _) eqn:E.
  - apply Qle_bool_iff in E. exfalso. exact (Qlt_not_le _ _ Hlate E).
  - cbn [negb]. erewrite failWith_some by (cbn [this]; exact Hr). reflexivity.
Qed.

(** X10. With the record and the mailbox entry present,
    [getFreshTestResponse] answers 'Fresh test response timed out' exactly
    when the hours elapsed since [lastEvent], computed as ms / 1000 / 60 /
    60 with each quotient rounded to a double, are greater than the
    timeout; no other path of the operation returns that error. *)
Theorem getFreshTestResponse_times_out_iff
    (data : gmap string IFreshTest) (ourAddr : string) (kp : IKeypair)
    (their : string) (ft : IFreshTest) (rt : Runtime) (r : ITradeProgress) :
  progress (this rt) !! their = Some r ->
  data !! their = Some ft ->
  (fst (getFreshTestResponse (Resolved data) ourAddr kp their rt)
   = Returns (Failure (newError "Fresh test response timed out"))
   <-> (toDouble (freshTestResponseTimeout (this rt))
        < formatMillisecondsToHours (clock (dateCount rt) - lastEvent r))%Q).
Proof.
  intros Hr Hd. split.
  - intros Hout.
    destruct (Qlt_le_dec (toDouble (freshTestResponseTimeout (this rt)))
                (formatMillisecondsToHours
                   (clock (dateCount rt) - lastEvent r))) as [Hlt | Hle];
      [exact Hlt | exfalso].
    pose proof (getFreshTestResponse_in_time_cases data ourAddr kp their ft
                  rt r Hr Hd Hle) as Hc. cbv zeta in Hc.
    destruct (truthySignature (ft_signature ft)) as [s |].
    + destruct (naclVerify _ _ _) as [[|] | e]; destruct Hc as [Hc _];
        rewrite Hc in Hout; discriminate Hout.
    + destruct Hc as [Hc _]. rewrite Hc in Hout. discriminate Hout.
  - exact (getFreshTestResponse_late data ourAddr kp their ft rt r Hr Hd).
Qed.

(** X11. A response that is in time is judged by its signature: without a
    signature the record is marked failed with 'Fresh test signature not
    found' (so is a check made before the counterparty has signed); with a
    signature that verifies the record gets status 2; with one that does
    not verify the record is marked failed; when the verification throws,
    the exception leaves the operation and the record is as before. *)
Theorem getFreshTestResponse_in_time
    (data : gmap string IFreshTest) (ourAddr : string) (kp : IKeypair)
    (their : string) (ft : IFreshTest) (rt : Runtime) (r : ITradeProgress) :
  progress (this rt) !! their = Some r ->
  data !! their = Some ft ->
  (formatMillisecondsToHours (clock (dateCount rt) - lastEvent r)
   <= toDouble (freshTestResponseTimeout (this rt)))%Q ->
  let p := getFreshTestResponse (Resolved data) ourAddr kp their rt in
  let after := progress (this (snd p)) !! their in
  let stamp := clock (S (dateCount rt)) in
  match truthySignature (ft_signature ft) with
  | None =>
      fst p = Returns (Failure (newError "Fresh test signature not found"))
      /\ after = Some {| status := None; lastEvent := stamp;
                         ourAddress := ourAddress r;
                         reasonForFailure :=
                           Some "Fresh test signature not found" |}
  | Some s =>
      match naclVerify (hexDecode (ft_message ft)) (hexDecode s)
              (hexDecode (ft_publicKey ft)) with
      | Returns true =>
          fst p = Returns (Value (success
                    "Fresh test signed by other party successfully"
                    EmptyContent))
          /\ after = Some {| status := Some 2; lastEvent := stamp;
                             ourAddress := ourAddress r;
                             reasonForFailure := reasonForFailure r |}
      | Returns false =>
          fst p = Returns (Failure (newError "Signature verification failed"))
          /\ after = Some {| status := None; lastEvent := stamp;
                             ourAddress := ourAddress r;
                             reasonForFailure :=
                               Some "Signature verification failed" |}
      | Throws e => fst p = Throws e /\ after = Some r
      end
  end.
Proof.
  intros Hr Hd Hin.
  exact (getFreshTestResponse_in_time_cases data ourAddr kp their ft rt r
           Hr Hd Hin).
Qed.

(** ** Missing mailbox entries and missing records *)

(** X12. A mailbox without entry for the counterparty is answered
    differently: [getFreshTestResponse] returns an Error and records
    nothing, while [getTxStage1] and [getTxStage2Partial] mark the record
    failed with 'No data for counter party found'. A mailbox request that
    is rejected is returned as an Error by all three, with nothing
    recorded. *)
Theorem missing_mailbox_entry
    (their ourAddr ourSig msg : string) (kp : IKeypair)
    (e : IBtcExpectations) (rt : Runtime) (r : ITradeProgress)
    (tests : gmap string IFreshTest) (stages : gmap string Transaction) :
  progress (this rt) !! their = Some r ->
  tests !! their = None ->
  stages !! their = None ->
  let marked :=
    {| this := withProgress
                 (fun p => <[their := {| status := None;
                                         lastEvent := clock (dateCount rt);
                                         ourAddress := ourAddress r;
                                         reasonForFailure :=
                                           Some "No data for counter party found" |}]> p)
                 (this rt);
       nextRef := nextRef rt;
       dateCount := S (dateCount rt) |} in
  getFreshTestResponse (Resolved tests) ourAddr kp their rt
  = (Returns (Failure (newError "Data not found for trade partner!")), rt)
  /\ getTxStage1 (Resolved stages) kp their e rt
     = (Returns (Failure (newError "No data for counter party found")), marked)
  /\ getTxStage2Partial (Resolved stages) their kp ourSig rt
     = (Returns (Failure (newError "No data for counter party found")), marked)
  /\ getFreshTestResponse (Rejected msg) ourAddr kp their rt
     = (Returns (Failure (newError msg)), rt)
  /\ getTxStage1 (Rejected msg) kp their e rt
     = (Returns (Failure (newError msg)), rt)
  /\ getTxStage2Partial (Rejected msg) their kp ourSig rt
     = (Returns (Failure (newError msg)), rt).
Proof.
  intros Hr Ht Hs marked. subst marked. repeat split.
  - unfold getFreshTestResponse. cbn [getIntercomData]. rewrite Ht.
    reflexivity.
  - unfold getTxStage1. cbn [getIntercomData]. rewrite Hs.
    rewrite (failWith_some _ _ _ _ _ Hr). reflexivity.
  - unfold getTxStage2Partial. cbn [getIntercomData]. rewrite Hs.
    rewrite (failWith_some _ _ _ _ _ Hr). reflexivity.
Qed.

(** X13. For a counterparty without progress record, [signFreshTest] and
    [getFreshTestResponse] throw a TypeError on reading the record, and
    [sendTxStage1] and [sendTxStage2Partial] do not throw: the TypeError of
    their update is caught and returned as an Error. None of them creates
    the record. *)
Theorem missing_record
    (their ourAddr : string) (kp : IKeypair) (ft : IFreshTest)
    (tests : gmap string IFreshTest) (get : Reply (gmap string IFreshTest))
    (post : Reply unit) (rt : Runtime) :
  progress (this rt) !! their = None ->
  tests !! their = Some ft ->
  let dated := {| this := this rt; nextRef := nextRef rt;
                  dateCount := S (dateCount rt) |} in
  signFreshTest get post kp their rt
  = (Throws (mkError TypeError readUndefinedMessage), rt)
  /\ getFreshTestResponse (Resolved tests) ourAddr kp their rt
     = (Throws (mkError TypeError readUndefinedMessage), dated)
  /\ sendTxStage1 (Resolved tt) their kp rt
     = (Returns (Failure (newError assignUndefinedMessage)), dated)
  /\ sendTxStage2Partial (Resolved tt) their kp rt
     = (Returns (Failure (newError assignUndefinedMessage)), dated).
Proof.
  intros Hr Ht dated. subst dated. repeat split.
  - unfold signFreshTest, bind, getProgress. cbn [this progress fst snd].
    rewrite Hr. reflexivity.
  - unfold getFreshTestResponse. cbn [getIntercomData]. rewrite Ht.
    unfold bind at 1, newDate. cbn [fst snd].
    unfold bind at 1, getProgress. cbn [this progress]. rewrite Hr.
    reflexivity.
  - unfold sendTxStage1, thenCatch, bind.
    rewrite (advanceProgress_none _ _ _ Hr). reflexivity.
  - unfold sendTxStage2Partial, thenCatch, bind.
    rewrite (advanceProgress_none _ _ _ Hr). reflexivity.
Qed.

(** ** The mempool key *)

Lemma getMempoolKey_fetches (d : INetworkResponse)
    (c : IGetMempoolKeyResponse) (force : bool) (rt : Runtime) :
  keyIsFalsy (mempoolKey (this rt)) || force = true ->
  net_content d = Some c ->
  getMempoolKey (Resolved d) force rt
  = (Returns (Value (success "Mempool key retrieved"
                       (PublicKeyContent (public_key c)))),
     {| this := withMempoolKey (public_key c) (this rt);
        nextRef := nextRef rt;
        dateCount := dateCount rt |}).
Proof.
  intros Hf Hc. unfold getMempoolKey, bind, readThis. cbn [fst snd].
  rewrite Hf. unfold thenCatch. rewrite Hc. reflexivity.
Qed.

Lemma getMempoolKey_cached (k : string) (reply : Reply INetworkResponse)
    (rt : Runtime) :
  mempoolKey (this rt) = Some k ->
  k <> "" ->
  getMempoolKey reply false rt
  = (Returns (Value (success "Existing mempool key retrieved"
                       (PublicKeyContent k))), rt).
Proof.
  intros Hk Hne. unfold getMempoolKey, bind, readThis. cbn [fst snd].
  rewrite Hk. unfold keyIsFalsy.
  destruct (string_dec k "") as [E | _]; [contradiction | reflexivity].
Qed.

Lemma getMempoolKey_rejected (msg : string) (force : bool) (rt : Runtime) :
  keyIsFalsy (mempoolKey (this rt)) || force = true ->
  getMempoolKey (Rejected msg) force rt
  = (Returns (Failure (newError msg)), rt).
Proof.
  intros Hf. unfold getMempoolKey, bind, readThis. cbn [fst snd].
  rewrite Hf. reflexivity.
Qed.

(** X14. A key fetched from the mempool is cached: once a non-empty key is
    stored, every later call that does not force a request returns that key
    whatever the network would answer, and changes nothing. A request that
    is rejected leaves the cached key and the rest of the bridge as they
    were. *)
Theorem getMempoolKey_caches (d : INetworkResponse)
    (c : IGetMempoolKeyResponse) (force : bool)
    (later : Reply INetworkResponse) (msg : string) (rt : Runtime) :
  keyIsFalsy (mempoolKey (this rt)) || force = true ->
  net_content d = Some c ->
  public_key c <> "" ->
  let rt1 := snd (getMempoolKey (Resolved d) force rt) in
  fst (getMempoolKey (Resolved d) force rt)
  = Returns (Value (success "Mempool key retrieved"
                      (PublicKeyContent (public_key c))))
  /\ mempoolKey (this rt1) = Some (public_key c)
  /\ progress (this rt1) = progress (this rt)
  /\ getMempoolKey later false rt1
     = (Returns (Value (success "Existing mempool key retrieved"
                          (PublicKeyContent (public_key c)))), rt1)
  /\ getMempoolKey (Rejected msg) force rt
     = (Returns (Failure (newError msg)), rt).
Proof.
  intros Hf Hc Hk rt1. subst rt1.
  rewrite (getMempoolKey_fetches d c force rt Hf Hc).
  cbn [fst snd]. repeat split.
  - apply getMempoolKey_cached; [reflexivity | exact Hk].
  - apply getMempoolKey_rejected. exact Hf.
Qed.

(** ** The partial second stage *)

(** X15. With the record and the mailbox entry present and a script on the
    first input, [getTxStage2Partial] accepts the transaction exactly when
    that script, as text, contains our signature: it then sets status 6 and
    keeps the transaction as [txStage2]; otherwise it marks the record
    failed with 'Invalid transaction TxB partial' and keeps [txStage2] as
    it was. *)
Theorem getTxStage2Partial_outcome
    (data : gmap string Transaction) (their ourSig : string) (kp : IKeypair)
    (tx : Transaction) (i : Input) (sc : Script) (rt : Runtime)
    (r : ITradeProgress) :
  progress (this rt) !! their = Some r ->
  data !! their = Some tx ->
  head (tx_inputs tx) = Some i ->
  in_script i = Some sc ->
  let p := getTxStage2Partial (Resolved data) their kp ourSig rt in
  if includes (scriptToString sc) ourSig then
    fst p = Returns (Value (success "Received second transaction stage"
                              EmptyContent))
    /\ progress (this (snd p)) !! their
       = Some {| status := Some 6; lastEvent := clock (dateCount rt);
                 ourAddress := ourAddress r;
                 reasonForFailure := reasonForFailure r |}
    /\ txStage2 (this (snd p)) = Some tx
  else
    fst p = Returns (Failure (newError "Invalid transaction TxB partial"))
    /\ progress (this (snd p)) !! their
       = Some {| status := None; lastEvent := clock (dateCount rt);
                 ourAddress := ourAddress r;
                 reasonForFailure := Some "Invalid transaction TxB partial" |}
    /\ txStage2 (this (snd p)) = txStage2 (this rt).
Proof.
  intros Hr Hd Hi Hsc p.
  assert (Hp : p = getTxStage2Partial (Resolved data) their kp ourSig rt)
    by reflexivity. clearbody p.
  unfold getTxStage2Partial in Hp. cbn [getIntercomData] in Hp.
  rewrite Hd in Hp. unfold firstInputScript in Hp.
  destruct (tx_inputs tx) as [| i0 ins]; [discriminate Hi |].
  cbn [head] in Hi. injection Hi as ->.
  unfold bind at 1, lift in Hp. cbn [fst snd] in Hp. rewrite Hsc in Hp.
  destruct (includes (scriptToString sc) ourSig); cbn [negb] in Hp.
  - unfold bind at 1 in Hp. rewrite (advanceProgress_some _ _ _ _ Hr) in Hp.
    unfold bind, modifyThis, ret in Hp. cbn [fst snd] in Hp. subst p.
    cbn [fst snd this progress withProgress withTxStage2 txStage2].
    repeat split. apply lookup_insert_eq.
  - rewrite (failWith_some _ _ _ _ _ Hr) in Hp. subst p.
    cbn [fst snd this progress withProgress txStage2].
    repeat split. apply lookup_insert_eq.
Qed.

End MoreMachineProperties.

(* ====================================================================== *)
(** * Signing, framing and the handshake in order *)
(* ====================================================================== *)

Lemma hexDecode_hexEncode_byte (x : Byte.byte) (rest : string) :
  hexDecode (String (hexChar (Byte.to_N x / 16))
               (String (hexChar (Byte.to_N x mod 16)) rest))
  = x :: hexDecode rest.
Proof. destruct x; reflexivity. Qed.

(** [Buffer.from(buffer.toString('hex'), 'hex')] gives the bytes back. *)
Lemma hexDecode_hexEncode (l : list Byte.byte) : hexDecode (hexEncode l) = l.
Proof.
  induction l as [| x l IH]; [reflexivity |].
  cbn [hexEncode]. rewrite hexDecode_hexEncode_byte, IH. reflexivity.
Qed.

Section MoreMachineProperties2.
Context `{External}.

(** X16. The text that [sign] returns decodes to the bytes of the signature
    made over the decoded message, so [verify] applied to that text, the
    same message and a public key asks the signature library exactly
    whether that signature of that message is valid for the key. *)
Theorem sign_then_verify (sk : Uint8Array) (msg pk : string)
    (rt rt' : Runtime) :
  exists s,
    fst (sign sk msg rt) = Returns s
    /\ hexDecode s = createSignature (bytes sk) (hexDecode msg)
    /\ fst (verify s msg pk rt')
       = naclVerify (hexDecode msg)
           (createSignature (bytes sk) (hexDecode msg)) (hexDecode pk)
    /\ this (snd (sign sk msg rt)) = this rt.
Proof.
  exists (hexEncode (createSignature (bytes sk) (hexDecode msg))).
  split; [reflexivity |]. split; [apply hexDecode_hexEncode |].
  split; [| reflexivity].
  rewrite verify_outcome. cbn [fst]. rewrite hexDecode_hexEncode.
  reflexivity.
Qed.

(** ** What a call leaves as it is *)

Section Keeps.
Variable J : Bridge -> Prop.

Lemma keeps_pure {A : Type} (m : M A) :
  (forall rt, this (snd (m rt)) = this rt) -> keeps J m.
Proof. intros Hm rt HJ. rewrite Hm. exact HJ. Qed.

Lemma keeps_bind {A B : Type} (m : M A) (k : A -> M B) :
  keeps J m -> (forall x, keeps J (k x)) -> keeps J (bind m k).
Proof.
  intros Hm Hk rt HJ. unfold bind. specialize (Hm rt HJ).
  destruct (m rt) as [[x | e] rt1]; cbn [snd] in *.
  - apply Hk. exact Hm.
  - exact Hm.
Qed.

Lemma keeps_thenCatch {T A : Type} (reply : Reply T)
    (onResolved : T -> M A) (onRejected : string -> M A) :
  (forall t, keeps J (onResolved t)) ->
  (forall msg, keeps J (onRejected msg)) ->
  keeps J (thenCatch reply onResolved onRejected).
Proof.
  intros Hres Hrej rt HJ. unfold thenCatch. destruct reply as [t | msg].
  - specialize (Hres t rt HJ).
    destruct (onResolved t rt) as [[x | e] rt1]; cbn [snd] in *.
    + exact Hres.
    + apply Hrej. exact Hres.
  - apply Hrej. exact HJ.
Qed.

Lemma keeps_modifyThis (g : Bridge -> Bridge) :
  (forall br, J br -> J (g br)) -> keeps J (modifyThis g).
Proof. intros Hg rt HJ. cbn. apply Hg. exact HJ. Qed.

Hypothesis Jstable : stableUnderUpdates J.

Lemma keeps_advanceProgress (b : string) (s : Z) :
  keeps J (advanceProgress b s).
Proof.
  intros rt HJ. destruct (progress (this rt) !! b) as [rb |] eqn:Hb.
  - rewrite (advanceProgress_some _ _ _ _ Hb). cbn [snd this].
    apply (Jstable _ _ _ _ HJ Hb).
  - rewrite (advanceProgress_none _ _ _ Hb). exact HJ.
Qed.

Lemma keeps_failWith {T : Type} (b reason : string) :
  keeps J (@failWith _ T b reason).
Proof.
  intros rt HJ. destruct (progress (this rt) !! b) as [rb |] eqn:Hb.
  - rewrite (failWith_some _ _ _ _ _ Hb). cbn [snd this].
    apply (Jstable _ _ _ _ HJ Hb).
  - rewrite (failWith_none _ _ _ _ Hb). exact HJ.
Qed.

Ltac keeps_step :=
  first
    [ apply keeps_failWith
    | apply keeps_advanceProgress
    | apply keeps_pure; intros ?; reflexivity
    | apply keeps_thenCatch; intros ?
    | apply keeps_bind; [| intros ?]
    | match goal with
      | |- keeps _ (match ?x with _ => _ end) => destruct x
      end ].

(** A property of the bridge that survives the updates of a record and the
    writes particular to a call survives the call. *)
Lemma run_keeps (c : Call) : stableUnderCall J c -> keeps J (run c).
Proof.
  intros Hc.
  destruct c as [post b kp | reply force | get post kp b | get our kp b
                | get zen our kp | post b kp | get kp b e | post b kp
                | get b kp sig | | | ]; cbn [run stableUnderCall] in *.
  - unfold sendFreshTest. apply keeps_thenCatch.
    + intros _. apply keeps_bind; [keeps_step | intros d].
      apply keeps_bind; [| intros ?; keeps_step].
      apply keeps_modifyThis. intros br HJ. apply Hc. exact HJ.
    + intros msg. keeps_step.
  - unfold getMempoolKey. apply keeps_bind; [keeps_step | intros key].
    destruct (keyIsFalsy key || force); [| keeps_step].
    apply keeps_thenCatch; [intros d | intros msg; keeps_step].
    destruct (net_content d) as [content |]; [| keeps_step].
    apply keeps_bind; [| intros ?; keeps_step].
    apply keeps_modifyThis. intros br HJ. apply Hc. exact HJ.
  - unfold signFreshTest. repeat keeps_step.
  - unfold getFreshTestResponse. repeat keeps_step.
  - unfold getMempoolSignature. repeat keeps_step.
  - unfold sendTxStage1. repeat keeps_step.
  - unfold getTxStage1. repeat keeps_step.
  - unfold sendTxStage2Partial. repeat keeps_step.
  - unfold getTxStage2Partial.
    destruct (getIntercomData get) as [intercomData | err]; [| keeps_step].
    destruct (intercomData !! b) as [transaction |]; [| keeps_step].
    apply keeps_bind; [keeps_step | intros inputScript].
    destruct inputScript as [inputScript |]; [| keeps_step].
    destruct (negb _); [keeps_step |].
    apply keeps_bind; [keeps_step | intros ?].
    apply keeps_bind; [| intros ?; keeps_step].
    apply keeps_modifyThis. intros br HJ. apply Hc. exact HJ.
  - unfold sendTxStage3. keeps_step.
  - unfold submitTxStage2. keeps_step.
  - unfold submitTxStage4. keeps_step.
Qed.

End Keeps.

(** X17. No call changes the settings made by the constructor (chain,
    timeout, endpoint, network); the cached mempool key changes only by
    [getMempoolKey] and the kept second-stage transaction only by
    [getTxStage2Partial]. *)
Theorem run_keeps_settings (c : Call) (rt : Runtime) :
  settingsOf (this (snd (run c rt))) = settingsOf (this rt)
  /\ ((forall reply force, c <> GetMempoolKey reply force) ->
      mempoolKey (this (snd (run c rt))) = mempoolKey (this rt))
  /\ ((forall get b kp ourSig, c <> GetTxStage2Partial get b kp ourSig) ->
      txStage2 (this (snd (run c rt))) = txStage2 (this rt)).
Proof.
  split; [| split].
  - apply (run_keeps (fun br => settingsOf br = settingsOf (this rt)));
      [| | reflexivity].
    + intros br b r d HJ _. split; intros ?; exact HJ.
    + destruct c; cbn [stableUnderCall]; auto.
  - intros Hc.
    apply (run_keeps (fun br => mempoolKey br = mempoolKey (this rt)));
      [| | reflexivity].
    + intros br b r d HJ _. split; intros ?; exact HJ.
    + destruct c; cbn [stableUnderCall]; auto.
      exfalso. eapply Hc. reflexivity.
  - intros Hc.
    apply (run_keeps (fun br => txStage2 br = txStage2 (this rt)));
      [| | reflexivity].
    + intros br b r d HJ _. split; intros ?; exact HJ.
    + destruct c; cbn [stableUnderCall]; auto.
      exfalso. eapply Hc. reflexivity.
Qed.

Lemma runAll_keeps (J : Bridge -> Prop) (calls : list Call) (rt : Runtime) :
  stableUnderUpdates J ->
  Forall (stableUnderCall J) calls ->
  J (this rt) -> J (this (runAll calls rt)).
Proof.
  intros Hst Hall. revert rt.
  induction Hall as [| c calls Hc _ IH]; intros rt HJ; [exact HJ |].
  cbn [runAll fold_left]. apply IH. exact (run_keeps J Hst c Hc rt HJ).
Qed.

Lemma recordSatisfies_stable (a : string) (P : ITradeProgress -> Prop) :
  (forall r s d, P r -> P (stageFields s d r)) ->
  (forall r reason d, P r -> P (failureFields reason d r)) ->
  stableUnderUpdates (recordSatisfies a P).
Proof.
  intros Hstage Hfail br b rb d (r0 & Hl & HP) Hb.
  destruct (decide (b = a)) as [-> | Hne].
  - assert (r0 = rb) by congruence. subst r0.
    split; intros ?; eexists; cbn [progress withProgress];
      (split; [apply lookup_insert_eq |]); auto.
  - split; intros ?; exists r0; cbn [progress withProgress];
      (split; [rewrite lookup_insert_ne by exact Hne; exact Hl | exact HP]).
Qed.

Lemma recordSatisfies_call (a : string) (P : ITradeProgress -> Prop)
    (c : Call) :
  (forall post kp, c <> SendFreshTest post a kp) ->
  stableUnderCall (recordSatisfies a P) c.
Proof.
  intros Hc.
  destruct c as [post b kp | | | | | | | | | | | ];
    cbn [stableUnderCall]; auto.
  intros br d (r0 & Hl & HP). exists r0. cbn [progress withProgress].
  split; [| exact HP]. rewrite lookup_insert_ne; [exact Hl |].
  intros ->. exact (Hc post kp eq_refl).
Qed.

(** X18. Through any sequence of calls in which no fresh test is sent to
    its address, a record keeps its [ourAddress], and a failure reason once
    stored stays stored: the later success of an operation sets the status
    but does not clear the reason. Only [sendFreshTest] starts a record
    anew. *)
Theorem runAll_keeps_record_fields (calls : list Call) (rt : Runtime)
    (a : string) (r : ITradeProgress) :
  progress (this rt) !! a = Some r ->
  Forall (fun c => forall post kp, c <> SendFreshTest post a kp) calls ->
  exists r',
    progress (this (runAll calls rt)) !! a = Some r'
    /\ ourAddress r' = ourAddress r
    /\ (reasonForFailure r <> None -> reasonForFailure r' <> None).
Proof.
  intros Hr Hc.
  set (P := fun r' : ITradeProgress =>
              ourAddress r' = ourAddress r
              /\ (reasonForFailure r <> None -> reasonForFailure r' <> None)).
  destruct (runAll_keeps (recordSatisfies a P) calls rt)
    as (r' & Hl & Ho & Hf).
  - apply recordSatisfies_stable.
    + intros r0 s d [Ho Hf]. split; [exact Ho | exact Hf].
    + intros r0 reason d [Ho Hf]. split; [exact Ho |].
      intros _. discriminate.
  - induction Hc as [| c calls Hc _ IH]; constructor;
      [apply recordSatisfies_call; exact Hc | exact IH].
  - exists r. split; [exact Hr |]. split; [reflexivity | auto].
  - exists r'. auto.
Qed.

(** ** The handshake in order *)

Lemma sendTxStage1_sent (a : string) (kp : IKeypair) (rt : Runtime)
    (r : ITradeProgress) :
  progress (this rt) !! a = Some r ->
  sendTxStage1 (Resolved tt) a kp rt
  = (Returns (Value (success "Sent first transaction stage" EmptyContent)),
     {| this := withProgress
                  (fun p => <[a := stageFields 3 (clock (dateCount rt)) r]> p)
                  (this rt);
        nextRef := nextRef rt;
        dateCount := S (dateCount rt) |}).
Proof.
  intros Hr. unfold sendTxStage1, thenCatch, bind.
  rewrite (advanceProgress_some _ _ _ _ Hr). reflexivity.
Qed.

Lemma sendTxStage2Partial_sent (a : string) (kp : IKeypair) (rt : Runtime)
    (r : ITradeProgress) :
  progress (this rt) !! a = Some r ->
  sendTxStage2Partial (Resolved tt) a kp rt
  = (Returns (Value (success "Sent first transaction stage" EmptyContent)),
     {| this := withProgress
                  (fun p => <[a := stageFields 5 (clock (dateCount rt)) r]> p)
                  (this rt);
        nextRef := nextRef rt;
        dateCount := S (dateCount rt) |}).
Proof.
  intros Hr. unfold sendTxStage2Partial, thenCatch, bind.
  rewrite (advanceProgress_some _ _ _ _ Hr). reflexivity.
Qed.

Lemma getFreshTestResponse_verified
    (data : gmap string IFreshTest) (ourAddr : string) (kp : IKeypair)
    (a : string) (ft : IFreshTest) (s : string) (rt : Runtime)
    (r : ITradeProgress) :
  progress (this rt) !! a = Some r ->
  data !! a = Some ft ->
  (formatMillisecondsToHours (clock (dateCount rt) - lastEvent r)
   <= toDouble (freshTestResponseTimeout (this rt)))%Q ->
  truthySignature (ft_signature ft) = Some s ->
  naclVerify (hexDecode (ft_message ft)) (hexDecode s)
    (hexDecode (ft_publicKey ft)) = Returns true ->
  getFreshTestResponse (Resolved data) ourAddr kp a rt
  = (Returns (Value (success "Fresh test signed by other party successfully"
                       EmptyContent)),
     {| this := withProgress
                  (fun p => <[a := stageFields 2 (clock (S (dateCount rt))) r]> p)
                  (this rt);
        nextRef := S (S (S (S (S (S (nextRef rt))))));
        dateCount := S (S (dateCount rt)) |}).
Proof.
  intros Hr Hd Hin Hs Hv. unfold getFreshTestResponse.
  cbn [getIntercomData]. rewrite Hd. unfold bind at 1, newDate.
  cbn [fst snd]. unfold bind at 1, getProgress. cbn [this progress].
  rewrite Hr. unfold bind at 1, readThis.
  cbn [this freshTestResponseTimeout].
  apply Qle_bool_iff in Hin. rewrite Hin. cbn [negb]. rewrite Hs.
  unfold bind at 1. rewrite verify_outcome, Hv. unfold bind at 1.
  erewrite advanceProgress_some by (cbn [this]; exact Hr). reflexivity.
Qed.

Lemma getTxStage1_accepts
    (data : gmap string Transaction) (kp : IKeypair) (a : string)
    (e : IBtcExpectations) (tx : Transaction) (rt : Runtime)
    (r : ITradeProgress) :
  progress (this rt) !! a = Some r ->
  data !! a = Some tx ->
  Forall hasScript (tx_outputs tx) ->
  stage1Checks tx e ->
  getTxStage1 (Resolved data) kp a e rt
  = (Returns (Value (success "Received first transaction stage"
                       (TransactionContent tx))),
     {| this := withProgress
                  (fun p => <[a := stageFields 4 (clock (dateCount rt)) r]> p)
                  (this rt);
        nextRef := nextRef rt;
        dateCount := S (dateCount rt) |}).
Proof.
  intros Hr Hd Hall ((i & si & o & so & Hi & Hsi & Ho & Hso & Hv) & Hrest).
  destruct (expectationsAreMetBtcTx_complete tx e Hall)
    as (met & Hmet & Hiff).
  apply Hiff in Hrest. subst met.
  unfold getTxStage1. cbn [getIntercomData]. rewrite Hd.
  unfold firstInputScript, firstOutputScript.
  destruct (tx_inputs tx) as [| i0 ins]; [discriminate Hi |].
  destruct (tx_outputs tx) as [| o0 outs]; [discriminate Ho |].
  cbn [head] in Hi, Ho. injection Hi as ->. injection Ho as ->.
  unfold bind at 1, lift. cbn [fst snd]. unfold bind at 1. cbn [fst snd].
  rewrite Hsi, Hso, Hv. cbn [negb]. unfold bind at 1. rewrite Hmet.
  cbn [negb]. unfold bind at 1.
  rewrite (advanceProgress_some _ _ _ _ Hr). reflexivity.
Qed.

Lemma getTxStage2Partial_accepts
    (data : gmap string Transaction) (a ourSig : string) (kp : IKeypair)
    (tx : Transaction) (i : Input) (sc : Script) (rt : Runtime)
    (r : ITradeProgress) :
  progress (this rt) !! a = Some r ->
  data !! a = Some tx ->
  head (tx_inputs tx) = Some i ->
  in_script i = Some sc ->
  includes (scriptToString sc) ourSig = true ->
  getTxStage2Partial (Resolved data) a kp ourSig rt
  = (Returns (Value (success "Received second transaction stage"
                       EmptyContent)),
     {| this := withTxStage2 tx
                  (withProgress
                     (fun p => <[a := stageFields 6 (clock (dateCount rt)) r]> p)
                     (this rt));
        nextRef := nextRef rt;
        dateCount := S (dateCount rt) |}).
Proof.
  intros Hr Hd Hi Hsc Hin. unfold getTxStage2Partial.
  cbn [getIntercomData]. rewrite Hd. unfold firstInputScript.
  destruct (tx_inputs tx) as [| i0 ins]; [discriminate Hi |].
  cbn [head] in Hi. injection Hi as ->.
  unfold bind at 1, lift. cbn [fst snd]. rewrite Hsc, Hin. cbn [negb].
  unfold bind at 1. rewrite (advanceProgress_some _ _ _ _ Hr). reflexivity.
Qed.

(** X19. The initiator's calls made in the order of the protocol, each with
    a reply that passes its checks, all report success and take the record
    of the counterparty from nothing or anything to status 6: fresh test
    sent (0), response verified in time (2), first stage sent (3) and
    verified (4), partial second stage sent (5) and verified (6). The
    record then names the caller's address, has no failure reason, and the
    bridge keeps the received second-stage transaction. *)
Theorem handshake_in_order
    (a ourAddr ourSig s : string) (kp : IKeypair) (e : IBtcExpectations)
    (tests : gmap string IFreshTest) (ft : IFreshTest)
    (stage1 stage2 : gmap string Transaction) (tx1 tx2 : Transaction)
    (i : Input) (sc : Script) (rt : Runtime) :
  tests !! a = Some ft ->
  truthySignature (ft_signature ft) = Some s ->
  naclVerify (hexDecode (ft_message ft)) (hexDecode s)
    (hexDecode (ft_publicKey ft)) = Returns true ->
  (formatMillisecondsToHours
     (clock (S (dateCount rt)) - clock (dateCount rt))
   <= toDouble (freshTestResponseTimeout (this rt)))%Q ->
  stage1 !! a = Some tx1 ->
  Forall hasScript (tx_outputs tx1) ->
  stage1Checks tx1 e ->
  stage2 !! a = Some tx2 ->
  head (tx_inputs tx2) = Some i ->
  in_script i = Some sc ->
  includes (scriptToString sc) ourSig = true ->
  let calls :=
    [ SendFreshTest (Resolved tt) a kp;
      GetFreshTestResponse (Resolved tests) ourAddr kp a;
      SendTxStage1 (Resolved tt) a kp;
      GetTxStage1 (Resolved stage1) kp a e;
      SendTxStage2Partial (Resolved tt) a kp;
      GetTxStage2Partial (Resolved stage2) a kp ourSig ] in
  Forall (fun out => reportsSuccess out = true) (runTrace calls rt)
  /\ progress (this (runAll calls rt)) !! a
     = Some {| status := Some 6;
               lastEvent := clock (6 + dateCount rt);
               ourAddress := address kp;
               reasonForFailure := None |}
  /\ txStage2 (this (runAll calls rt)) = Some tx2.
Proof.
  intros Ht Hs Hv Hin H1 Hall Hchk H2 Hi Hsc Hsig calls. subst calls.
  set (r0 := {| status := Some 0; lastEvent := clock (dateCount rt);
                ourAddress := address kp; reasonForFailure := None |}).
  set (rt1 := {| this := withProgress (fun p => <[a := r0]> p) (this rt);
                 nextRef := nextRef rt; dateCount := S (dateCount rt) |}).
  assert (E1 : run (SendFreshTest (Resolved tt) a kp) rt
               = (Returns (Value (success "Fresh test sent" EmptyContent)),
                  rt1)) by reflexivity.
  assert (L1 : progress (this rt1) !! a = Some r0)
    by (cbn [rt1 this progress withProgress]; apply lookup_insert_eq).
  pose proof (getFreshTestResponse_verified tests ourAddr kp a ft s rt1 r0
                L1 Ht Hin Hs Hv) as E2.
  set (rt2 := {| this := withProgress
                   (fun p => <[a := stageFields 2 (clock (S (dateCount rt1))) r0]> p)
                   (this rt1);
                 nextRef := S (S (S (S (S (S (nextRef rt1))))));
                 dateCount := S (S (dateCount rt1)) |}) in E2.
  assert (L2 : progress (this rt2) !! a
               = Some (stageFields 2 (clock (S (dateCount rt1))) r0))
    by (cbn [rt2 this progress withProgress]; apply lookup_insert_eq).
  pose proof (sendTxStage1_sent a kp rt2 _ L2) as E3.
  set (rt3 := {| this := _; nextRef := nextRef rt2;
                 dateCount := S (dateCount rt2) |}) in E3.
  assert (L3 : progress (this rt3) !! a
               = Some (stageFields 3 (clock (dateCount rt2))
                         (stageFields 2 (clock (S (dateCount rt1))) r0)))
    by (cbn [rt3 this progress withProgress]; apply lookup_insert_eq).
  pose proof (getTxStage1_accepts stage1 kp a e tx1 rt3 _ L3 H1 Hall Hchk)
    as E4.
  set (rt4 := {| this := _; nextRef := nextRef rt3;
                 dateCount := S (dateCount rt3) |}) in E4.
  assert (L4 : progress (this rt4) !! a
               = Some (stageFields 4 (clock (dateCount rt3))
                         (stageFields 3 (clock (dateCount rt2))
                            (stageFields 2 (clock (S (dateCount rt1))) r0))))
    by (cbn [rt4 this progress withProgress]; apply lookup_insert_eq).
  pose proof (sendTxStage2Partial_sent a kp rt4 _ L4) as E5.
  set (rt5 := {| this := _; nextRef := nextRef rt4;
                 dateCount := S (dateCount rt4) |}) in E5.
  assert (L5 : progress (this rt5) !! a
               = Some (stageFields 5 (clock (dateCount rt4))
                        (stageFields 4 (clock (dateCount rt3))
                          (stageFields 3 (clock (dateCount rt2))
                            (stageFields 2 (clock (S (dateCount rt1))) r0)))))
    by (cbn [rt5 this progress withProgress]; apply lookup_insert_eq).
  pose proof (getTxStage2Partial_accepts stage2 a ourSig kp tx2 i sc rt5 _
                L5 H2 Hi Hsc Hsig) as E6.
  cbn [runTrace runAll fold_left run] in *.
  rewrite E1. cbn [fst snd]. rewrite E2. cbn [fst snd].
  rewrite E3. cbn [fst snd]. rewrite E4. cbn [fst snd].
  rewrite E5. cbn [fst snd]. rewrite E6. cbn [fst snd].
  split; [repeat constructor |].
  cbn [this withTxStage2 withProgress progress txStage2].
  split; [| reflexivity].
  rewrite lookup_insert_eq. reflexivity.
Qed.

(** X21. [getTxStage1] checks a transaction with a first input and a first
    output in this order: both first scripts present, the input script
    verified against the output script, the expectations met. The first
    check that fails marks the record failed with its own reason and is
    returned as the Error; only when all three pass is the status set to 4.
    When checking the expectations throws, the call throws and the record
    is left as it was. *)
Theorem getTxStage1_outcome
    (data : gmap string Transaction) (kp : IKeypair) (their : string)
    (e : IBtcExpectations) (tx : Transaction) (i : Input) (o : Output)
    (rt : Runtime) (r : ITradeProgress) :
  progress (this rt) !! their = Some r ->
  data !! their = Some tx ->
  head (tx_inputs tx) = Some i ->
  head (tx_outputs tx) = Some o ->
  let p := getTxStage1 (Resolved data) kp their e rt in
  let after := progress (this (snd p)) !! their in
  let failed reason :=
    fst p = Returns (Failure (newError reason))
    /\ after = Some {| status := None; lastEvent := clock (dateCount rt);
                       ourAddress := ourAddress r;
                       reasonForFailure := Some reason |} in
  match in_script i, out_script o with
  | Some si, Some so =>
      if interpreterVerify si so then
        match expectationsAreMetBtcTx tx e with
        | Returns true =>
            fst p = Returns (Value (success "Received first transaction stage"
                                      (TransactionContent tx)))
            /\ after = Some {| status := Some 4;
                               lastEvent := clock (dateCount rt);
                               ourAddress := ourAddress r;
                               reasonForFailure := reasonForFailure r |}
        | Returns false => failed ("Expectations not met for " ++ their)%string
        | Throws err => fst p = Throws err /\ after = Some r
        end
      else failed "Invalid transaction TxA"
  | _, _ => failed ("No input or output script found for " ++ their)%string
  end.
Proof.
  intros Hr Hd Hi Ho p after failed. subst failed after p.
  unfold getTxStage1. cbn [getIntercomData]. rewrite Hd.
  unfold firstInputScript, firstOutputScript.
  destruct (tx_inputs tx) as [| i0 ins]; [discriminate Hi |].
  destruct (tx_outputs tx) as [| o0 outs]; [discriminate Ho |].
  cbn [head] in Hi, Ho. injection Hi as ->. injection Ho as ->.
  assert (Hfail : forall reason,
            fst (@failWith _ IClientResponse their reason rt)
            = Returns (Failure (newError reason))
            /\ progress (this (snd (@failWith _ IClientResponse their reason rt)))
                 !! their
               = Some {| status := None; lastEvent := clock (dateCount rt);
                         ourAddress := ourAddress r;
                         reasonForFailure := Some reason |}).
  { intros reason. rewrite (failWith_some _ _ _ _ _ Hr).
    cbn [fst snd this progress withProgress]. split; [reflexivity |].
    rewrite lookup_insert_eq. reflexivity. }
  unfold bind, lift. cbn [fst snd].
  destruct (in_script i) as [si |]; [| apply Hfail].
  destruct (out_script o) as [so |]; [| apply Hfail].
  destruct (interpreterVerify si so); cbn [negb]; [| apply Hfail].
  destruct (expectationsAreMetBtcTx tx e) as [[|] | err]; cbn [fst snd negb].
  - rewrite (advanceProgress_some _ _ _ _ Hr).
    cbn [fst snd this progress withProgress ret]. split; [reflexivity |].
    rewrite lookup_insert_eq. reflexivity.
  - apply Hfail.
  - split; [reflexivity | exact Hr].
Qed.

(** ** The mempool signature request *)

Lemma keyDiffers_false (cached k : option string) :
  Mempool.keyDiffers cached k = false <-> cached = k.
Proof.
  unfold Mempool.keyDiffers. destruct cached as [c |], k as [k |].
  - destruct (String.eqb_spec c k) as [-> | Hne]; cbn [negb].
    + split; reflexivity.
    + split; [discriminate | intros E; injection E as E; contradiction].
  - split; discriminate.
  - split; discriminate.
  - split; reflexivity.
Qed.

(** X20. The mempool signature request never changes the bridge, and it
    reports success exactly when the reply carries a content whose public
    key is loosely equal to the cached mempool key: the same string, or a
    missing key when no key is cached. The response then carries the key
    and the signature of the reply as they are. So without a cached key a
    reply that names a key is refused and a reply that names none is
    accepted. *)
Theorem getMempoolSignature_checks_key
    (reply : Reply Mempool.INetworkSignatureResponse) (msg pk : string)
    (rt : Runtime) (resp : Mempool.ISignatureResponse) :
  snd (Mempool.getMempoolSignature reply msg pk rt) = rt
  /\ (fst (Mempool.getMempoolSignature reply msg pk rt)
        = Returns (Value resp)
      <-> exists d c,
            reply = Resolved d
            /\ Mempool.sig_content d = Some c
            /\ mempoolKey (this rt) = Mempool.sig_public_key c
            /\ resp = {| Mempool.sr_status := "success";
                         Mempool.sr_reason := "Mempool signature received";
                         Mempool.sr_publicKey := Mempool.sig_public_key c;
                         Mempool.sr_signature := Mempool.sig_signature c |})
  /\ (mempoolKey (this rt) = None ->
      forall d c,
        reply = Resolved d ->
        Mempool.sig_content d = Some c ->
        match Mempool.sig_public_key c with
        | Some _ =>
            fst (Mempool.getMempoolSignature reply msg pk rt)
            = Returns (Failure (newError
                         "Mempool public key mismatch with signature"))
        | None =>
            fst (Mempool.getMempoolSignature reply msg pk rt)
            = Returns (Value
                         {| Mempool.sr_status := "success";
                            Mempool.sr_reason := "Mempool signature received";
                            Mempool.sr_publicKey := None;
                            Mempool.sr_signature := Mempool.sig_signature c |})
        end).
Proof.
  unfold Mempool.getMempoolSignature, thenCatch.
  destruct reply as [d | m]; cbn [ret fst snd].
  - destruct (Mempool.sig_content d) as [c |] eqn:Ec; cbn [ret fst snd].
    + unfold bind, readThis. cbn [fst snd].
      destruct (Mempool.keyDiffers (mempoolKey (this rt))
                  (Mempool.sig_public_key c)) eqn:Ek; cbn [ret fst snd].
      * assert (Hne : mempoolKey (this rt) <> Mempool.sig_public_key c).
        { intros E. apply keyDiffers_false in E. congruence. }
        split; [reflexivity |]. split.
        -- split; [intros Hx; discriminate Hx |].
           intros (d' & c' & Hd & Hc' & Hk & _).
           injection Hd as <-. rewrite Ec in Hc'. injection Hc' as <-.
           contradiction.
        -- intros Hnone d' c' Hd Hc'.
           injection Hd as <-. rewrite Ec in Hc'. injection Hc' as <-.
           destruct (Mempool.sig_public_key c); [reflexivity | congruence].
      * apply keyDiffers_false in Ek.
        split; [reflexivity |]. split.
        -- split.
           ++ intros Hx. injection Hx as <-. exists d, c. auto.
           ++ intros (d' & c' & Hd & Hc' & _ & ->).
              injection Hd as <-. rewrite Ec in Hc'. injection Hc' as <-.
              reflexivity.
        -- intros Hnone d' c' Hd Hc'.
           injection Hd as <-. rewrite Ec in Hc'. injection Hc' as <-.
           rewrite Hnone in Ek. rewrite <- Ek. reflexivity.
    + split; [reflexivity |]. split.
      * split; [intros Hx; discriminate Hx |].
        intros (d' & c' & Hd & Hc' & _). injection Hd as <-.
        rewrite Ec in Hc'. discriminate Hc'.
      * intros _ d' c' Hd Hc'. injection Hd as <-.
        rewrite Ec in Hc'. discriminate Hc'.
  - split; [reflexivity |]. split.
    + split; [intros Hx; discriminate Hx |].
      intros (d' & c' & Hd & _). discriminate Hd.
    + intros _ d' c' Hd. discriminate Hd.
Qed.

End MoreMachineProperties2.

(* ====================================================================== *)
(** * Instances *)
(* ====================================================================== *)

(** One input, 500 satoshis to send of 10000: the fee of 4460 satoshis is
    kept when 400 are sent of 20000. *)
Lemma calculateFee_more_funds_witness :
  @calculateFee Samples.mainnet 20 1 400 20000 = Some 4460
  /\ 4460 = 20 * @txSizeOf Samples.mainnet 1.
Proof.
  apply (@calculateFee_more_funds Samples.mainnet 20 1 500 400 10000 20000
           4460); [reflexivity | lia | lia].
Defined.

(** Two inputs cost 8040 satoshis; one input costs no more. *)
Lemma calculateFee_fewer_inputs_witness :
  exists fee,
    @calculateFee Samples.mainnet 20 1 500 20000 = Some fee /\ fee <= 8040.
Proof.
  apply (@calculateFee_fewer_inputs Samples.mainnet 20 1 2 500 20000 8040);
    [lia | cbn; lia | lia | reflexivity].
Defined.

(** Two unspent outputs of 100000 and 200000 satoshis, 1000 to send. *)
Lemma constructTransaction_built_witness :
  exists t fee,
    @constructTransaction Samples.mainnet Samples.keysAsAddresses
      (Resolved MoreSamples.twoUtxos) "key" "their" 1000 = Value t
    /\ fee <> 0
    /\ 1000 + fee <= sumSatoshis (tx_from t)
    /\ tx_fee t = fee * 20.
Proof.
  assert (E : exists t,
            @constructTransaction Samples.mainnet Samples.keysAsAddresses
              (Resolved MoreSamples.twoUtxos) "key" "their" 1000 = Value t)
    by (vm_compute; eexists; reflexivity).
  destruct E as [t E].
  destruct (@constructTransaction_built Samples.mainnet
              Samples.keysAsAddresses (Resolved MoreSamples.twoUtxos)
              "key" "their" 1000 t E)
    as (d & fee & _ & _ & _ & _ & _ & _ & _ & Hne & Hle & Hfee).
  exists t, fee. auto.
Defined.

(** An output quoted as 0.29 BTC holds 28999999 satoshis, one less than
    the amount 28995540 and the fee 4460 together. *)
Lemma constructTransaction_not_enough_funds_positive_rate_witness :
  @constructTransaction Samples.mainnet Samples.keysAsAddresses
    (Resolved MoreSamples.oneUtxo) "key" "their" 28995540
  = Failure (newError "Not enough funds").
Proof.
  assert (Hne : txs MoreSamples.oneUtxo <> []) by discriminate.
  pose proof (@constructTransaction_not_enough_funds_positive_rate
                Samples.mainnet Samples.keysAsAddresses
                MoreSamples.oneUtxo "key" "their" 28995540) as Hx.
  cbv zeta in Hx.
  apply (proj2 (proj2 (Hx eq_refl ltac:(cbn; lia) ltac:(cbn; lia) Hne))).
  vm_compute. reflexivity.
Defined.


(** One and two days of ten-minute blocks from height 100. *)
Lemma getLockTimeFromDays_order_witness :
  100 <= @getLockTimeFromDays Samples.mainnet 1 100
  /\ @getLockTimeFromDays Samples.mainnet 1 100
     <= @getLockTimeFromDays Samples.mainnet 2 100
  /\ @getLockTimeFromDays Samples.mainnet 1 (100 + 5)
     = @getLockTimeFromDays Samples.mainnet 1 100 + 5.
Proof.
  apply (@getLockTimeFromDays_order Samples.mainnet 1 2 100 5);
    [reflexivity | discriminate | discriminate].
Defined.

(** The satoshis of an entry are the floor of a rounded product: 0.29 BTC
    is read as 28999999 satoshis, 0.00000005 BTC as 5. *)
Example fetchInputsFromUtxo_rounds :
  map satoshis
    (map (utxoOf "ours")
       [ {| value := (29 # 100)%Q; script_hex := ""; txid := "";
            output_no := 0 |};
         {| value := (5 # 100000000)%Q; script_hex := ""; txid := "";
            output_no := 1 |};
         {| value := 1%Q; script_hex := ""; txid := ""; output_no := 2 |} ])
  = [28999999; 5; 100000000].
Proof. vm_compute. reflexivity. Qed.

(** A third output without script. *)
Lemma expectationsAreMetBtcTx_outcome_witness :
  @expectationsAreMetBtcTx Samples.world Samples.scriptlessOutput
    Samples.expectations
  = Throws (mkError TypeError readUndefinedMessage).
Proof.
  apply (proj1 (@expectationsAreMetBtcTx_outcome Samples.world
                  Samples.scriptlessOutput Samples.expectations)).
  apply Exists_cons_tl, Exists_cons_tl, Exists_cons_hd. reflexivity.
Defined.

(** The two outputs swapped and the input removed. *)
Lemma expectationsAreMetBtcTx_permutation_witness :
  @expectationsAreMetBtcTx Samples.world MoreSamples.stage1Tx
    Samples.expectations
  = @expectationsAreMetBtcTx Samples.world
      {| tx_inputs := [];
         tx_outputs :=
           [ {| out_script := Some [ArgStr "OP_2"; ArgStr "zenotta"];
                out_satoshis := 400 |};
             {| out_script := Some [ArgStr "OP_DUP"; ArgStr "ours"];
                out_satoshis := 600 |} ] |}
      Samples.expectations.
Proof.
  apply (@expectationsAreMetBtcTx_permutation Samples.world).
  apply perm_swap.
Defined.

(** With a timeout of 0.03 hours, a check made 108000 milliseconds after
    [lastEvent] is timed out: the three divisions give
    0.030000000000000002. Exactly twelve hours after [lastEvent] the
    default timeout of twelve hours is not exceeded. *)
Lemma getFreshTestResponse_times_out_iff_witness :
  let r := {| status := Some 0; lastEvent := 46692000; ourAddress := "ours";
              reasonForFailure := None |} in
  let rt := {| this := withProgress (fun p => <["their" := r]> p)
                         (newHelixBridgeBTC "https://sochain.example"
                            "BTCTEST" (Some (3 # 100)%Q));
               nextRef := 2; dateCount := 0 |} in
  let r12 := {| status := Some 0; lastEvent := 3600000; ourAddress := "ours";
                reasonForFailure := None |} in
  fst (@getFreshTestResponse Samples.world
         (Resolved {[ "their" := Samples.aFreshTest ]}) "ours"
         Samples.testKeypair "their" rt)
  = Returns (Failure (newError "Fresh test response timed out"))
  /\ fst (@getFreshTestResponse Samples.world
            (Resolved {[ "their" := Samples.aFreshTest ]}) "ours"
            Samples.testKeypair "their" (Samples.runtimeWith r12))
     <> Returns (Failure (newError "Fresh test response timed out")).
Proof.
  intros r rt r12. split.
  - pose proof (proj2 (@getFreshTestResponse_times_out_iff Samples.world
                         {[ "their" := Samples.aFreshTest ]} "ours"
                         Samples.testKeypair "their" Samples.aFreshTest
                         rt r eq_refl eq_refl)) as Hx.
    apply Hx. vm_compute. reflexivity.
  - intros E.
    pose proof (proj1 (@getFreshTestResponse_times_out_iff Samples.world
                         {[ "their" := Samples.aFreshTest ]} "ours"
                         Samples.testKeypair "their" Samples.aFreshTest
                         (Samples.runtimeWith r12) r12 eq_refl eq_refl) E)
      as Hlate.
    vm_compute in Hlate. discriminate Hlate.
Defined.

(** A signed fresh test checked exactly twelve hours after [lastEvent]. *)
Lemma getFreshTestResponse_in_time_witness :
  let r := {| status := Some 0; lastEvent := 3600000; ourAddress := "ours";
              reasonForFailure := None |} in
  let p := @getFreshTestResponse Samples.world
             (Resolved {[ "their" := MoreSamples.signedFreshTest ]}) "ours"
             Samples.testKeypair "their" (Samples.runtimeWith r) in
  fst p = Returns (Value (success
            "Fresh test signed by other party successfully" EmptyContent))
  /\ progress (this (snd p)) !! "their"
     = Some {| status := Some 2; lastEvent := 46800001;
               ourAddress := "ours"; reasonForFailure := None |}.
Proof.
  intros r.
  refine (@getFreshTestResponse_in_time Samples.world
            {[ "their" := MoreSamples.signedFreshTest ]} "ours"
            Samples.testKeypair "their" MoreSamples.signedFreshTest
            (Samples.runtimeWith r) r eq_refl eq_refl _).
  vm_compute. discriminate.
Defined.

(** An empty mailbox. *)
Lemma missing_mailbox_entry_witness :
  let rt := Samples.runtimeWith (Samples.record (Some 3) "ours") in
  @getFreshTestResponse Samples.world (Resolved ∅) "ours"
    Samples.testKeypair "their" rt
  = (Returns (Failure (newError "Data not found for trade partner!")), rt)
  /\ fst (@getTxStage1 Samples.world (Resolved ∅) Samples.testKeypair
            "their" Samples.expectations rt)
     = Returns (Failure (newError "No data for counter party found")).
Proof.
  intros rt.
  destruct (@missing_mailbox_entry Samples.world "their" "ours" "3045aa"
              "unreachable" Samples.testKeypair Samples.expectations rt
              (Samples.record (Some 3) "ours")
              (∅ : gmap string IFreshTest) (∅ : gmap string Transaction)
              eq_refl (lookup_empty _) (lookup_empty _))
    as (H1 & H2 & _).
  split; [exact H1 | rewrite H2; reflexivity].
Defined.

(** A new bridge. *)
Lemma missing_record_witness :
  @signFreshTest Samples.world (Resolved {[ "their" := Samples.aFreshTest ]})
    (Resolved tt) Samples.testKeypair "their" Samples.emptyRuntime
  = (Throws (mkError TypeError readUndefinedMessage), Samples.emptyRuntime)
  /\ fst (@sendTxStage1 Samples.world (Resolved tt) "their"
            Samples.testKeypair Samples.emptyRuntime)
     = Returns (Failure (newError assignUndefinedMessage)).
Proof.
  pose proof (@missing_record Samples.world "their" "ours"
                Samples.testKeypair Samples.aFreshTest
                {[ "their" := Samples.aFreshTest ]}
                (Resolved {[ "their" := Samples.aFreshTest ]}) (Resolved tt)
                Samples.emptyRuntime eq_refl eq_refl) as Hx.
  destruct Hx as (H1 & _ & H3 & _).
  split; [exact H1 | rewrite H3; reflexivity].
Defined.

(** A key fetched on a new bridge is returned again without a request. *)
Lemma getMempoolKey_caches_witness :
  let d := {| net_content := Some {| public_key := "02ab" |};
              net_reason := "" |} in
  let rt1 := snd (getMempoolKey (Resolved d) false Samples.emptyRuntime) in
  mempoolKey (this rt1) = Some "02ab"
  /\ getMempoolKey (Rejected "offline") false rt1
     = (Returns (Value (success "Existing mempool key retrieved"
                          (PublicKeyContent "02ab"))), rt1).
Proof.
  intros d rt1.
  destruct (getMempoolKey_caches d {| public_key := "02ab" |}
              false (Rejected "offline") "offline" Samples.emptyRuntime
              eq_refl eq_refl ltac:(discriminate))
    as (_ & H2 & _ & H4 & _).
  split; [exact H2 | exact H4].
Defined.

(** A second stage whose first input script carries our signature. *)
Lemma getTxStage2Partial_outcome_witness :
  let rt := Samples.runtimeWith (Samples.record (Some 5) "ours") in
  let p := @getTxStage2Partial Samples.world
             (Resolved {[ "their" := MoreSamples.stage2Tx ]}) "their"
             Samples.testKeypair "3045aa" rt in
  fst p = Returns (Value (success "Received second transaction stage"
                            EmptyContent))
  /\ txStage2 (this (snd p)) = Some MoreSamples.stage2Tx.
Proof.
  intros rt p.
  pose proof (@getTxStage2Partial_outcome Samples.world
                {[ "their" := MoreSamples.stage2Tx ]} "their" "3045aa"
                Samples.testKeypair MoreSamples.stage2Tx
                {| in_script := Some [ArgStr "3045aa"; ArgStr "02bb"] |}
                [ArgStr "3045aa"; ArgStr "02bb"] rt
                (Samples.record (Some 5) "ours")
                eq_refl eq_refl eq_refl eq_refl) as Hx.
  cbv zeta in Hx.
  change (includes (@scriptToString Samples.world
                      [ArgStr "3045aa"; ArgStr "02bb"]) "3045aa")
    with true in Hx.
  destruct Hx as (H1 & _ & H3). split; [exact H1 | exact H3].
Defined.

(** Sending the first stage leaves the cached mempool key alone. *)
Lemma run_keeps_settings_witness :
  let c := SendTxStage1 (Resolved tt) "their" Samples.testKeypair in
  let rt := Samples.runtimeWith (Samples.record (Some 2) "ours") in
  mempoolKey (this (snd (@run Samples.world c rt))) = mempoolKey (this rt).
Proof.
  intros c rt.
  apply (proj1 (proj2 (@run_keeps_settings Samples.world c rt))).
  intros reply force E. discriminate E.
Defined.

(** A record marked failed, then the first stage sent and the second
    stage sent: the reason is still there. *)
Lemma runAll_keeps_record_fields_witness :
  let r := {| status := None; lastEvent := 5; ourAddress := "ours";
              reasonForFailure := Some "Invalid transaction TxA" |} in
  let calls := [ SendTxStage1 (Resolved tt) "their" Samples.testKeypair;
                 SendTxStage2Partial (Resolved tt) "their"
                   Samples.testKeypair ] in
  exists r',
    progress (this (@runAll Samples.world calls (Samples.runtimeWith r)))
      !! "their" = Some r'
    /\ ourAddress r' = "ours"
    /\ reasonForFailure r' <> None.
Proof.
  intros r calls.
  assert (Hc : Forall (fun c => forall post kp,
                         c <> SendFreshTest post "their" kp) calls)
    by (repeat constructor; intros post kp E; discriminate E).
  destruct (@runAll_keeps_record_fields Samples.world calls
              (Samples.runtimeWith r) "their" r eq_refl Hc)
    as (r' & Hl & Ho & Hf).
  exists r'. split; [exact Hl |]. split; [exact Ho |].
  apply Hf. discriminate.
Defined.

(** Two outputs that add up to 1000 satoshis where 999 are expected. *)
Lemma getTxStage1_outcome_witness :
  let rt := Samples.runtimeWith (Samples.record (Some 3) "ours") in
  let e := {| exp_ourAddress := "ours"; exp_zenottasAddress := "zenotta";
              exp_amount := 999 |} in
  fst (@getTxStage1 Samples.world
         (Resolved {[ "their" := MoreSamples.stage1Tx ]})
         Samples.testKeypair "their" e rt)
  = Returns (Failure (newError "Expectations not met for their")).
Proof.
  intros rt e.
  pose proof (@getTxStage1_outcome Samples.world
                {[ "their" := MoreSamples.stage1Tx ]} Samples.testKeypair
                "their" e MoreSamples.stage1Tx
                {| in_script := Some [ArgStr "signature"] |}
                {| out_script := Some [ArgStr "OP_DUP"; ArgStr "ours"];
                   out_satoshis := 600 |}
                rt (Samples.record (Some 3) "ours")
                eq_refl eq_refl eq_refl eq_refl) as Hx.
  exact (proj1 Hx).
Defined.

(** The whole handshake on a new bridge. *)
Lemma handshake_in_order_witness :
  let calls :=
    [ SendFreshTest (Resolved tt) "their" Samples.testKeypair;
      GetFreshTestResponse
        (Resolved {[ "their" := MoreSamples.signedFreshTest ]}) "ours"
        Samples.testKeypair "their";
      SendTxStage1 (Resolved tt) "their" Samples.testKeypair;
      GetTxStage1 (Resolved {[ "their" := MoreSamples.stage1Tx ]})
        Samples.testKeypair "their" Samples.expectations;
      SendTxStage2Partial (Resolved tt) "their" Samples.testKeypair;
      GetTxStage2Partial (Resolved {[ "their" := MoreSamples.stage2Tx ]})
        "their" Samples.testKeypair "3045aa" ] in
  Forall (fun out => reportsSuccess out = true)
    (@runTrace Samples.world calls Samples.emptyRuntime)
  /\ progress (this (@runAll Samples.world calls Samples.emptyRuntime))
       !! "their"
     = Some {| status := Some 6; lastEvent := 46800006;
               ourAddress := address Samples.testKeypair;
               reasonForFailure := None |}
  /\ txStage2 (this (@runAll Samples.world calls Samples.emptyRuntime))
     = Some MoreSamples.stage2Tx.
Proof.
  refine (@handshake_in_order Samples.world "their" "ours" "3045aa"
            "0badcafe" Samples.testKeypair Samples.expectations
            {[ "their" := MoreSamples.signedFreshTest ]}
            MoreSamples.signedFreshTest
            {[ "their" := MoreSamples.stage1Tx ]}
            {[ "their" := MoreSamples.stage2Tx ]}
            MoreSamples.stage1Tx MoreSamples.stage2Tx
            {| in_script := Some [ArgStr "3045aa"; ArgStr "02bb"] |}
            [ArgStr "3045aa"; ArgStr "02bb"] Samples.emptyRuntime
            eq_refl eq_refl eq_refl _ eq_refl _ _ eq_refl eq_refl eq_refl
            eq_refl).
  - vm_compute. discriminate.
  - repeat constructor; discriminate.
  - split.
    + eexists _, _, _, _. repeat split; reflexivity.
    + repeat split; reflexivity.
Defined.

(** On a new bridge, which has no cached key, a reply without public key
    is accepted and a reply that names a key is refused. *)
Lemma getMempoolSignature_checks_key_witness :
  let keyless := {| Mempool.sig_content :=
                      Some {| Mempool.sig_public_key := None;
                              Mempool.sig_signature := Some "3045aa" |};
                    Mempool.sig_reason := "" |} in
  fst (Mempool.getMempoolSignature (Resolved keyless) "c0ffee" "02bb"
         Samples.emptyRuntime)
  = Returns (Value {| Mempool.sr_status := "success";
                      Mempool.sr_reason := "Mempool signature received";
                      Mempool.sr_publicKey := None;
                      Mempool.sr_signature := Some "3045aa" |}).
Proof.
  intros keyless.
  exact (proj2 (proj2 (getMempoolSignature_checks_key (Resolved keyless)
                         "c0ffee" "02bb" Samples.emptyRuntime
                         {| Mempool.sr_status := "";
                            Mempool.sr_reason := "";
                            Mempool.sr_publicKey := None;
                            Mempool.sr_signature := None |}))
           eq_refl keyless
           {| Mempool.sig_public_key := None;
              Mempool.sig_signature := Some "3045aa" |}
           eq_refl eq_refl).
Defined.
